(** * gitreceipt: the statistics aggregator of the GitHub receipt page

    A shallow embedding of [getGitHubStats], [handleSubmit], [handleDownload]
    and the receipt's derived fields (src/app/page.tsx and its two earlier
    revisions), with the properties the specification states about them.

    Conventions of the embedding.
    - A JavaScript number with an integer value is a [Z]. The sums and
      products the program forms from the fields of the API are rounded to
      53 significant bits, as binary64 does ([JSNum]); a counter stepped by
      one per array element stays where that is exact.
    - A Date is its time value, milliseconds since the epoch, as a [Z];
      an Invalid Date (time value NaN) is [None].
    - [undefined] results of an array read are [None].
    - A plain object used as a dictionary is the list of its own
      properties in creation order, read through [Object.prototype] and
      listed by [Object.entries] with the array indices first ([Obj]). *)

From Stdlib Require Import ZArith List String Ascii Bool Lia Permutation Sorted.
From Stdlib Require Import DecimalString.
Import ListNotations.

Local Open Scope string_scope.
Local Open Scope Z_scope.

(** ** The repository and user records of the GitHub API *)

Module GitHubRepo.
Record t : Type := Build {
  name : string;
  stargazers_count : Z;
  forks_count : Z;
  size : Z;
  language : option string;
  pushed_at : string;
  created_at : string
}.
End GitHubRepo.

Module GitHubUser.
Record t : Type := Build {
  login : string;
  name : option string;
  followers : Z;
  following : Z;
  public_repos : Z;
  created_at : string;
  location : option string;
  public_gists : Z
}.
End GitHubUser.

(** ** Array and Math primitives of the host language *)

Module JS.

(** [arr.reduce(f, init)] *)
Definition reduce {A B : Type} (f : B -> A -> B) (init : B) (arr : list A) : B :=
  fold_left f arr init.

(** [Math.max(...arr)]; [None] is the [-Infinity] of an empty spread. *)
Definition Math_max (arr : list Z) : option Z :=
  fold_left (fun acc x =>
               match acc with
               | None => Some x
               | Some m => Some (Z.max m x)
               end) arr None.

(** [arr.indexOf(v)]: the first index holding [v], [-1] when there is none. *)
Fixpoint indexOf_from (i : Z) (arr : list Z) (v : Z) : Z :=
  match arr with
  | [] => -1
  | x :: rest => if x =? v then i else indexOf_from (i + 1) rest v
  end.

Definition indexOf (arr : list Z) (v : option Z) : Z :=
  match v with
  | None => -1
  | Some n => indexOf_from 0 arr n
  end.

(** [arr[i]]: [None] stands for [undefined] (negative or past the end). *)
Definition get {A : Type} (arr : list A) (i : Z) : option A :=
  if i <? 0 then None else nth_error arr (Z.to_nat i).

(** [arr[i]++] on an array of numbers; the arrays of the program are only
    written at indices they already have. *)
Fixpoint incr (arr : list Z) (i : nat) : list Z :=
  match arr, i with
  | [], _ => []
  | x :: rest, O => (x + 1) :: rest
  | x :: rest, S j => x :: incr rest j
  end.

(** [arr.join(sep)] *)
Fixpoint join (sep : string) (arr : list string) : string :=
  match arr with
  | [] => ""
  | [x] => x
  | x :: rest => x ++ sep ++ join sep rest
  end.

(** [arr.slice(0, n)] *)
Definition slice0 {A : Type} (n : nat) (arr : list A) : list A := firstn n arr.

(** [Math.round(n / d)] for an integer [n] and a positive integer [d]:
    the nearest integer, a half rounding up. *)
Definition Math_round_div (n d : Z) : Z := (2 * n + d) / (2 * d).

End JS.

(** ** Arithmetic of numbers with integer values *)

Module JSNum.

(** The binary64 number nearest to the integer [x], a tie going to the
    even significand: integers up to [2^53] in size are kept, larger ones
    keep their 53 leading bits. (Finite numbers: [x] below [2^1024].) *)
Definition round53 (x : Z) : Z :=
  let a := Z.abs x in
  let s := Z.log2 a - 52 in
  if s <=? 0 then x
  else
    let q := Z.shiftr a s in
    let rem := a - Z.shiftl q s in
    let half := Z.shiftl 1 (s - 1) in
    let q' := if (half <? rem) || ((rem =? half) && Z.odd q) then q + 1 else q in
    Z.sgn x * Z.shiftl q' s.

(** A non-negative integer that binary64 holds: a significand of at most
    53 bits times a power of two. *)
Definition representable (x : Z) : Prop :=
  exists m e, 0 <= m <= 2 ^ 53 /\ 0 <= e /\ x = m * 2 ^ e.

(** [a + b] *)
Definition add (a b : Z) : Z := round53 (a + b).

(** [a * b] *)
Definition mul (a b : Z) : Z := round53 (a * b).

End JSNum.

(** ** Time values and calendar arithmetic of [Date] (ECMA-262, 21.4.1) *)

(** What the host supplies to [Date]: the parser behind [new Date(string)]
    ([None] when the result is an Invalid Date) and the offset of local time,
    [LocalTZA t isUTC], in milliseconds. *)
Class HostEnv : Type := {
  Date_parse : string -> option Z;
  LocalTZA : Z -> bool -> Z
}.

Module JSDate.

Definition msPerDay : Z := 86400000.

Definition Day (t : Z) : Z := t / msPerDay.

Definition TimeWithinDay (t : Z) : Z := t mod msPerDay.

Definition DaysInYear (y : Z) : Z :=
  if negb (y mod 4 =? 0) then 365
  else if negb (y mod 100 =? 0) then 366
  else if negb (y mod 400 =? 0) then 365
  else 366.

Definition DayFromYear (y : Z) : Z :=
  365 * (y - 1970) + (y - 1969) / 4 - (y - 1901) / 100 + (y - 1601) / 400.

(** The year [y] with [DayFromYear y <= Day t < DayFromYear (y + 1)]: an
    estimate from the mean length of a year, corrected by at most one. *)
Definition YearFromTime (t : Z) : Z :=
  let d := Day t in
  let y := 1970 + (400 * d) / 146097 in
  if DayFromYear (y + 1) <=? d then y + 1
  else if d <? DayFromYear y then y - 1
  else y.

Definition LeapDays (y : Z) : Z := if DaysInYear y =? 366 then 1 else 0.

Definition InLeapYear (t : Z) : Z := LeapDays (YearFromTime t).

Definition DayWithinYear (t : Z) : Z := Day t - DayFromYear (YearFromTime t).

(** Day number within the year of the first day of month [m] (0 = January). *)
Definition MonthStart (m leap : Z) : Z :=
  match m with
  | 0 => 0
  | 1 => 31
  | 2 => 59 + leap
  | 3 => 90 + leap
  | 4 => 120 + leap
  | 5 => 151 + leap
  | 6 => 181 + leap
  | 7 => 212 + leap
  | 8 => 243 + leap
  | 9 => 273 + leap
  | 10 => 304 + leap
  | _ => 334 + leap
  end.

Definition MonthFromDay (d leap : Z) : Z :=
  if d <? 31 then 0
  else if d <? 59 + leap then 1
  else if d <? 90 + leap then 2
  else if d <? 120 + leap then 3
  else if d <? 151 + leap then 4
  else if d <? 181 + leap then 5
  else if d <? 212 + leap then 6
  else if d <? 243 + leap then 7
  else if d <? 273 + leap then 8
  else if d <? 304 + leap then 9
  else if d <? 334 + leap then 10
  else 11.

Definition MonthFromTime (t : Z) : Z :=
  MonthFromDay (DayWithinYear t) (InLeapYear t).

Definition DateFromTime (t : Z) : Z :=
  DayWithinYear t - MonthStart (MonthFromTime t) (InLeapYear t) + 1.

Definition WeekDay (t : Z) : Z := (Day t + 4) mod 7.

Definition MakeTime (hour min sec ms : Z) : Z :=
  hour * 3600000 + min * 60000 + sec * 1000 + ms.

Definition MakeDay (year month date : Z) : Z :=
  let ym := year + month / 12 in
  let mn := month mod 12 in
  DayFromYear ym + MonthStart mn (LeapDays ym) + date - 1.

Definition MakeDate (day time : Z) : Z := day * msPerDay + time.

Section Local.
Context `{HostEnv}.

Definition LocalTime (t : Z) : Z := t + LocalTZA t true.

Definition UTC (t : Z) : Z := t - LocalTZA t false.

(** [d.getDay()]: 0 is Sunday. *)
Definition getDay (t : Z) : Z := WeekDay (LocalTime t).

(** [d.getDate()]: the day of the month in local time. *)
Definition getDate (t : Z) : Z := DateFromTime (LocalTime t).

(** [d.setDate(dt)]: the new time value of [d]. *)
Definition setDate (t dt : Z) : Z :=
  let lt := LocalTime t in
  UTC (MakeDate (MakeDay (YearFromTime lt) (MonthFromTime lt) dt)
                (TimeWithinDay lt)).

End Local.

End JSDate.

(** The ISO 8601 form the API uses for its timestamps,
    [YYYY-MM-DDTHH:MM:SSZ], read as [Date.parse] reads it. *)
Module ISO.

Definition digit (c : ascii) : option Z :=
  let n := Z.of_nat (nat_of_ascii c) in
  if (48 <=? n) && (n <=? 57) then Some (n - 48) else None.

Fixpoint number (acc : Z) (cs : list ascii) : option Z :=
  match cs with
  | [] => Some acc
  | c :: rest =>
      match digit c with
      | Some d => number (10 * acc + d) rest
      | None => None
      end
  end.

Definition DaysInMonth (y m : Z) : Z :=
  if m =? 11 then 31
  else JSDate.MonthStart (m + 1) (JSDate.LeapDays y)
       - JSDate.MonthStart m (JSDate.LeapDays y).

Definition fields (y mo d h mi s : Z) : option Z :=
  if (1 <=? mo) && (mo <=? 12) && (1 <=? d) && (d <=? DaysInMonth y (mo - 1))
     && (h <=? 23) && (mi <=? 59) && (s <=? 59)
  then Some (JSDate.MakeDate (JSDate.MakeDay y (mo - 1) d) (JSDate.MakeTime h mi s 0))
  else None.

Definition parse (s : string) : option Z :=
  match list_ascii_of_string s with
  | [y1; y2; y3; y4; "-"; m1; m2; "-"; d1; d2; "T"; h1; h2; ":"; i1; i2; ":"; s1; s2; "Z"]%char =>
      match number 0 [y1; y2; y3; y4], number 0 [m1; m2], number 0 [d1; d2],
            number 0 [h1; h2], number 0 [i1; i2], number 0 [s1; s2] with
      | Some y, Some mo, Some d, Some h, Some mi, Some s => fields y mo d h mi s
      | _, _, _, _, _, _ => None
      end
  | _ => None
  end.

End ISO.

(** A host whose local time is UTC and which reads the API's timestamps. *)
Definition utc_host : HostEnv :=
  {| Date_parse := ISO.parse; LocalTZA := fun _ _ => 0 |}.

(** A host on Central European Time: one hour east of Greenwich until
    2024-03-31T01:00:00Z, two hours from then on. *)
Definition cet_host : HostEnv :=
  {| Date_parse := ISO.parse;
     LocalTZA := fun t isUTC =>
       let switch := if isUTC then 1711846800000 else 1711846800000 + 3600000 in
       if t <? switch then 3600000 else 7200000 |}.

(** A host five and a half hours east of Greenwich. *)
Definition ist_host : HostEnv :=
  {| Date_parse := ISO.parse; LocalTZA := fun _ _ => 19800000 |}.

(** ** The stable [sort], and plain objects used as dictionaries *)

Module StableSort.
Section Sort.
Variable A : Type.
(** The comparator: negative or zero keeps the first argument in front. *)
Variable cmp : A -> A -> Z.

Fixpoint insert (x : A) (l : list A) : list A :=
  match l with
  | [] => [x]
  | y :: rest => if cmp x y <=? 0 then x :: y :: rest else y :: insert x rest
  end.

(** [arr.sort(cmp)]: the sort of the language is stable, so its result is
    the one of inserting the elements from the last to the first. *)
Definition sort (l : list A) : list A := fold_right insert [] l.

End Sort.
Arguments insert {A} cmp x l.
Arguments sort {A} cmp l.
End StableSort.

Module Obj.

(** What a property of the dictionary can hold: a number, or the text a
    function or object of the prototype turns into under [+ 1], which is
    its own text followed by as many characters [1] as were added. *)
Inductive value : Type :=
| VNum (n : Z)
| VText (origin : string) (ones : nat).

(** The own properties in creation order. *)
Definition t : Type := list (string * value).

(** The methods every plain object inherits from [Object.prototype]. *)
Definition inherited_functions : list string :=
  ["constructor"; "__defineGetter__"; "__defineSetter__"; "hasOwnProperty";
   "__lookupGetter__"; "__lookupSetter__"; "isPrototypeOf";
   "propertyIsEnumerable"; "toString"; "valueOf"; "toLocaleString"].

(** What [obj[k]] reads. *)
Inductive read : Type :=
| Undefined
| Own (v : value)
| Inherited (name : string)
| PrototypeObject.

Fixpoint own (obj : t) (k : string) : option value :=
  match obj with
  | [] => None
  | (k', v) :: rest => if String.eqb k' k then Some v else own rest k
  end.

(** [obj[k]]: the own property, else what the prototype has under [k]. *)
Definition get (obj : t) (k : string) : read :=
  match own obj k with
  | Some v => Own v
  | None =>
      if String.eqb k "__proto__" then PrototypeObject
      else if existsb (String.eqb k) inherited_functions then Inherited k
      else Undefined
  end.

(** [(x || 0) + 1]: [undefined] and 0 count as 0; a function or an object
    is truthy and [+] turns it into text. A count never leaves the range
    where adding one is exact. *)
Definition or_zero_plus_one (x : read) : value :=
  match x with
  | Undefined => VNum (0 + 1)
  | Own (VNum n) => VNum ((if n =? 0 then 0 else n) + 1)
  | Own (VText origin ones) => VText origin (S ones)
  | Inherited name => VText name 1
  | PrototypeObject => VText "__proto__" 1
  end.

Fixpoint define (obj : t) (k : string) (v : value) : t :=
  match obj with
  | [] => [(k, v)]
  | (k', v') :: rest =>
      if String.eqb k' k then (k', v) :: rest else (k', v') :: define rest k v
  end.

(** [obj[k] = v] for a [v] that is not an object: an existing property
    keeps its place, a new one is created after the others, and
    [__proto__], a setter of the prototype, stores nothing. *)
Definition set (obj : t) (k : string) (v : value) : t :=
  if String.eqb k "__proto__" then obj else define obj k v.

Definition decimal_digit (c : ascii) : option Z :=
  let n := Z.of_nat (nat_of_ascii c) in
  if (48 <=? n) && (n <=? 57) then Some (n - 48) else None.

Fixpoint decimal (acc : Z) (s : string) : option Z :=
  match s with
  | EmptyString => Some acc
  | String c rest =>
      match decimal_digit c with
      | Some d => decimal (10 * acc + d) rest
      | None => None
      end
  end.

(** The array index a property name stands for: the decimal form, without
    leading zeros, of an integer from 0 to [2^32 - 2]. *)
Definition array_index (k : string) : option Z :=
  match k with
  | EmptyString => None
  | String c rest =>
      if Ascii.eqb c "0" then (match rest with EmptyString => Some 0 | _ => None end)
      else if (10 <? Z.of_nat (String.length k)) then None
      else match decimal 0 k with
           | Some n => if n <=? 4294967294 then Some n else None
           | None => None
           end
  end.

Definition index_of_entry (e : string * value) : Z :=
  match array_index (fst e) with
  | Some n => n
  | None => 0
  end.

Definition is_index (e : string * value) : bool :=
  match array_index (fst e) with
  | Some _ => true
  | None => false
  end.

(** [Object.entries(obj)]: the array indices in ascending order, then the
    other names in the order of their creation. *)
Definition entries (obj : t) : list (string * value) :=
  (StableSort.sort (fun x y => index_of_entry x - index_of_entry y) (filter is_index obj)
   ++ filter (fun e => negb (is_index e)) obj)%list.

(** [b - a] on two values; [None] is NaN, which a text gives. *)
Definition sub (b a : value) : option Z :=
  match b, a with
  | VNum y, VNum x => Some (y - x)
  | _, _ => None
  end.

(** A name the dictionary treats as a plain key: not an array index, not
    [__proto__], not the name of an inherited method. *)
Definition plain (k : string) : bool :=
  match array_index k with
  | Some _ => false
  | None => negb (String.eqb k "__proto__")
            && negb (existsb (String.eqb k) inherited_functions)
  end.

End Obj.

(** ** [Math.random] and the string methods of the coupon code *)

Module JSRandom.

(** A draw of [Math.random()] is the double [r / 2^53] with
    [0 <= r < 2^53]; it is carried by its numerator [r]. *)
Definition scale : Z := 2 ^ 53.

Definition valid (r : Z) : Prop := 0 <= r < scale.

(** [Math.floor(Math.random() * n)]: the product of the two doubles is
    rounded before it is floored. *)
Definition floor_mul (r n : Z) : Z := JSNum.round53 (r * n) / scale.

(** A digit of radix 36: [0-9] then [a-z]. *)
Definition digit36 (d : Z) : ascii :=
  if d <? 10 then ascii_of_nat (Z.to_nat (48 + d))
  else ascii_of_nat (Z.to_nat (87 + d)).

Definition in_radix (d : Z) : Prop := 0 <= d < 36.

(** Doubles between 0 and 64 are carried by their numerators over
    [2^1074], on which rounding to 53 bits is [JSNum.round53]. *)
Definition one : Z := Z.shiftl 1 1074.

Definition half : Z := Z.shiftl 1 1073.

(** The carry of a round-up through the digits written, last digit first:
    a digit below [z] is stepped and ends it, a [z] is dropped; [None] when
    it runs into the integer part. *)
Fixpoint carry (written : list Z) : option (list Z) :=
  match written with
  | [] => None
  | d :: rest => if d + 1 <? 36 then Some (d + 1 :: rest) else carry rest
  end.

(** The digit loop of the radix conversion as V8 (Chrome, Node) runs it:
    [fraction *= 36; delta *= 36], the digit is the integer part, and the
    loop goes on while [fraction >= delta], unless the rest rounds up. The
    language leaves the digits of a radix other than 10 to the host. *)
Fixpoint digits (fuel : nat) (fraction delta : Z) (written : list Z) : option (list Z) :=
  match fuel with
  | O => Some written
  | S k =>
      let fraction := JSNum.round53 (fraction * 36) in
      let delta := JSNum.round53 (delta * 36) in
      let digit := fraction / one in
      let written := digit :: written in
      let fraction := fraction - digit * one in
      if ((half <? fraction) || ((fraction =? half) && Z.odd digit))
         && (one <? JSNum.round53 (fraction + delta))
      then carry written
      else if delta <=? fraction then digits k fraction delta written
      else Some written
  end.

Fixpoint digits_text (ds : list Z) : string :=
  match ds with
  | [] => EmptyString
  | d :: rest => String (digit36 d) (digits_text rest)
  end.

(** [Math.random().toString(36)]: ["0"] for the draw 0; otherwise the
    digits of the fraction after ["0."], computed up to half the distance
    [delta] to the next double (the loop ends within 22 rounds), or ["1"]
    when rounding carries through every digit. *)
Definition toString36 (r : Z) : string :=
  if r =? 0 then "0"
  else
    match digits 30 (Z.shiftl r 1021) (Z.shiftl 1 (Z.log2 r + 968)) [] with
    | Some written => "0." ++ digits_text (rev written)
    | None => "1"
    end.

End JSRandom.

Module JSString.

(** [s.substring(a, b)] for [a <= b]; both ends are cut at the length. *)
Definition substring (a b : nat) (s : string) : string :=
  String.substring a (b - a) s.

Definition upper (c : ascii) : ascii :=
  let n := nat_of_ascii c in
  if (97 <=? n)%nat && (n <=? 122)%nat then ascii_of_nat (n - 32) else c.

(** [s.toUpperCase()] on the ASCII letters. *)
Fixpoint toUpperCase (s : string) : string :=
  match s with
  | EmptyString => EmptyString
  | String c rest => String (upper c) (toUpperCase rest)
  end.

(** [s || fallback]: the empty string is the falsy one. *)
Definition or_else (s fallback : string) : string :=
  match s with
  | EmptyString => fallback
  | _ => s
  end.

End JSString.

(** ** The two fetches *)

(** A [Response]: its [ok] flag and what [json()] resolves to, [None] when
    the body is not JSON and [json()] rejects. *)
Record Response (A : Type) : Type := mkResponse {
  ok : bool;
  json : option A
}.
Arguments mkResponse {A} ok json.
Arguments ok {A} r.
Arguments json {A} r.

(** A settled [fetch]: rejected (no response at all) or fulfilled. *)
Inductive Settled (A : Type) : Type :=
| Rejected : Settled A
| Fulfilled : A -> Settled A.
Arguments Rejected {A}.
Arguments Fulfilled {A} a.

(** The JSON of the repository endpoint, read as [GitHubRepo[]]: an array,
    or some other value, on which [reduce] is not a function. *)
Inductive ReposJson : Type :=
| ReposArray : list GitHubRepo.t -> ReposJson
| NotAnArray : ReposJson.

(** What [getGitHubStats] throws. *)
Inductive Exn : Type :=
| FetchRejected : Exn
| Error_UserNotFound : Exn
| SyntaxError : Exn
| TypeError : Exn.

(** [Promise.all] of the two fetches: both responses, or the rejection. *)
Definition Promise_all {A B : Type} (a : Settled A) (b : Settled B) : Exn + (A * B) :=
  match a, b with
  | Fulfilled x, Fulfilled y => inr (x, y)
  | _, _ => inl FetchRejected
  end.

(** ** The aggregation shared by the three revisions of the page *)

Module Aggregate.
Section Aggregation.
Context `{HostEnv}.
Variable reposData : list GitHubRepo.t.

Definition totalStars : Z :=
  JS.reduce (fun acc repo => JSNum.add acc (GitHubRepo.stargazers_count repo)) 0 reposData.

Definition totalForks : Z :=
  JS.reduce (fun acc repo => JSNum.add acc (GitHubRepo.forks_count repo)) 0 reposData.

Definition totalSize : Z :=
  JS.reduce (fun acc repo => JSNum.add acc (GitHubRepo.size repo)) 0 reposData.

(** [new Date(repo.pushed_at).getDay()]; [None] is the NaN of an Invalid Date. *)
Definition pushDays : list (option Z) :=
  map (fun repo => option_map JSDate.getDay (Date_parse (GitHubRepo.pushed_at repo)))
      reposData.

(** [new Array(7).fill(0)] after [pushDays.forEach(day => dayCount[day]++)];
    a NaN day touches no index of the array. *)
Definition dayCount : list Z :=
  fold_left (fun arr day =>
               match day with
               | Some d => JS.incr arr (Z.to_nat d)
               | None => arr
               end) pushDays (repeat 0 7).

Definition days : list string :=
  ["Sunday"; "Monday"; "Tuesday"; "Wednesday"; "Thursday"; "Friday"; "Saturday"].

(** [days[dayCount.indexOf(Math.max(...dayCount))]] *)
Definition mostActiveDay : option string :=
  JS.get days (JS.indexOf dayCount (JS.Math_max dayCount)).

(** *** Languages (second revision) *)

(** [.filter((lang): lang is string => lang !== null)] *)
Fixpoint non_null (l : list (option string)) : list string :=
  match l with
  | [] => []
  | Some lang :: rest => lang :: non_null rest
  | None :: rest => non_null rest
  end.

Definition languages : list string :=
  non_null (map GitHubRepo.language reposData).

(** [acc[lang] = (acc[lang] || 0) + 1] over the languages, from [{}]. *)
Definition langCount : Obj.t :=
  JS.reduce (fun acc lang => Obj.set acc lang (Obj.or_zero_plus_one (Obj.get acc lang)))
            [] languages.

(** [Object.entries(langCount).sort(([,a], [,b]) => b - a)]: a comparator
    that returns NaN counts as returning 0. (With a text among the values
    the comparator is not consistent and the order is left to the host;
    the order below is then one of those allowed.) *)
Definition sortedEntries : list (string * Obj.value) :=
  StableSort.sort (fun x y => match Obj.sub (snd y) (snd x) with
                              | Some v => v
                              | None => 0
                              end)
                  (Obj.entries langCount).

(** [.slice(0, 3).map(([lang]) => lang)] *)
Definition topLanguagesList : list string :=
  map fst (JS.slice0 3 sortedEntries).

Definition topLanguages : string := JS.join ", " topLanguagesList.

(** *** Recent activity (second revision) *)

(** [now] is the time value of [new Date()]. *)
Definition thirtyDaysAgo (now : Z) : Z :=
  JSDate.setDate now (JSDate.getDate now - 30).

(** [new Date(repo.pushed_at) > thirtyDaysAgo]; a NaN compares false. *)
Definition pushed_after (bound : Z) (repo : GitHubRepo.t) : bool :=
  match Date_parse (GitHubRepo.pushed_at repo) with
  | Some p => bound <? p
  | None => false
  end.

Definition recentActivity (now : Z) : Z :=
  Z.of_nat (List.length (filter (pushed_after (thirtyDaysAgo now)) reposData)).

End Aggregation.
End Aggregate.

(** ** The page state and its handlers (the same in every revision) *)

(** What [getGitHubStats] returns: [{ userData, stats }]; the fields of
    [stats] differ between the revisions. *)
Record Result (Stats : Type) : Type := mkResult {
  userData : GitHubUser.t;
  stats : Stats
}.
Arguments mkResult {Stats} userData stats.
Arguments userData {Stats} r.
Arguments stats {Stats} r.

(** The name given to the downloaded image:
    [`github-receipt-${data?.userData?.login || 'user'}.png`]; [None] is
    the [undefined] of the optional chain. *)
Definition download_name (login : option string) : string :=
  "github-receipt-"
  ++ JSString.or_else (match login with Some l => l | None => "" end) "user"
  ++ ".png".

Section Page.
Variable Stats : Type.
Let Result : Type := Result Stats.

(** The [useState] cells of [Home]. *)
Record PageState : Type := mkPageState {
  username : string;
  data : option Result;
  loading : bool;
  error : string
}.

(** [handleSubmit], run to completion; [lookup] is the settled
    [getGitHubStats(username)]. *)
Definition handleSubmit (lookup : string -> Exn + Result) (st : PageState) : PageState :=
  if String.eqb (username st) "" then st
  else
    let st1 := mkPageState (username st) (data st) true "" in
    let st2 :=
      match lookup (username st) with
      | inr stats => mkPageState (username st1) (Some stats) (loading st1) (error st1)
      | inl _ => mkPageState (username st1) (data st1) (loading st1) "User not found"
      end in
    mkPageState (username st2) (data st2) false (error st2).

(** The receipt, and with it [receiptRef.current], is rendered under
    [{data && (...)}]. *)
Definition receiptRef_current (st : PageState) : bool :=
  match data st with
  | Some _ => true
  | None => false
  end.

(** [handleDownload]: the [download] attribute of the link it clicks, or
    [None] when there is no receipt to export. *)
Definition handleDownload (st : PageState) : option string :=
  if receiptRef_current st
  then Some (download_name
               (option_map (fun d => GitHubUser.login (userData d)) (data st)))
  else None.

End Page.
Arguments mkPageState {Stats} username data loading error.
Arguments username {Stats} p.
Arguments data {Stats} p.
Arguments loading {Stats} p.
Arguments error {Stats} p.
Arguments handleSubmit {Stats} lookup st.
Arguments receiptRef_current {Stats} st.
Arguments handleDownload {Stats} st.

(** ** The revision with languages, recent activity and decorations *)

Module Part001.

Definition FORTUNE_MESSAGES : list string :=
  ["Your next commit will be bug-free! 🪲";
   "A great PR is in your future! 🔮";
   "Today is a good day to refactor! ♻️";
   "Your code will make someone smile! 😊";
   "A mysterious bug will soon reveal itself! 🕵️"].

Definition FAMOUS_DEVS : list string :=
  ["Linus Torvalds";
   "Ada Lovelace";
   "Grace Hopper";
   "Alan Turing";
   "Margaret Hamilton"].

Record Stats : Type := mkStats {
  totalRepos : Z;
  totalStars : Z;
  totalForks : Z;
  topLanguages : string;
  totalSizeMB : Z;
  recentActivity : Z;
  mostActiveDay : option string;
  randomFortune : option string;
  cashier : option string;
  couponCode : string
}.

(** [Math.random().toString(36).substring(2, 8).toUpperCase()] *)
Definition makeCouponCode (r : Z) : string :=
  JSString.toUpperCase (JSString.substring 2 8 (JSRandom.toString36 r)).

Section Stats.
Context `{HostEnv}.

(** The record [getGitHubStats] returns once both bodies are read; [now] is
    the clock and [r1], [r2], [r3] the three draws of [Math.random], in the
    order of the calls. *)
Definition aggregate (now r1 r2 r3 : Z) (userData : GitHubUser.t)
    (reposData : list GitHubRepo.t) : Result Stats :=
  mkResult userData
    (mkStats
       (Z.of_nat (List.length reposData))
       (Aggregate.totalStars reposData)
       (Aggregate.totalForks reposData)
       (Aggregate.topLanguages reposData)
       (JS.Math_round_div (Aggregate.totalSize reposData) 1024)
       (Aggregate.recentActivity reposData now)
       (Aggregate.mostActiveDay reposData)
       (JS.get FORTUNE_MESSAGES
          (JSRandom.floor_mul r1 (Z.of_nat (List.length FORTUNE_MESSAGES))))
       (JS.get FAMOUS_DEVS
          (JSRandom.floor_mul r2 (Z.of_nat (List.length FAMOUS_DEVS))))
       (makeCouponCode r3)).

Definition getGitHubStats
    (userFetch : Settled (Response GitHubUser.t))
    (reposFetch : Settled (Response ReposJson))
    (now r1 r2 r3 : Z) : Exn + Result Stats :=
  match Promise_all userFetch reposFetch with
  | inl e => inl e
  | inr (userResponse, reposResponse) =>
      if negb (ok userResponse) then inl Error_UserNotFound
      else
        match json userResponse with
        | None => inl SyntaxError
        | Some userData =>
            match json reposResponse with
            | None => inl SyntaxError
            | Some NotAnArray => inl TypeError
            | Some (ReposArray reposData) =>
                inr (aggregate now r1 r2 r3 userData reposData)
            end
        end
  end.

End Stats.

(** [{data.stats.totalStars * 2 + data.userData.followers * 3}] *)
Definition contributionScore (data : Result Stats) : Z :=
  JSNum.add (JSNum.mul (totalStars (stats data)) 2)
            (JSNum.mul (GitHubUser.followers (userData data)) 3).

(** [{data.stats.topLanguages || 'NONE'}] *)
Definition topLanguagesText (data : Result Stats) : string :=
  JSString.or_else (topLanguages (stats data)) "NONE".

End Part001.

(** ** The first revision: totals and the most active day *)

Module Part000.

Record Stats : Type := mkStats {
  totalRepos : Z;
  totalStars : Z;
  totalForks : Z;
  mostActiveDay : option string;
  totalSizeMB : Z
}.

Section Stats.
Context `{HostEnv}.

Definition aggregate (userData : GitHubUser.t) (reposData : list GitHubRepo.t) : Result Stats :=
  mkResult userData
    (mkStats
       (Z.of_nat (List.length reposData))
       (Aggregate.totalStars reposData)
       (Aggregate.totalForks reposData)
       (Aggregate.mostActiveDay reposData)
       (JS.Math_round_div (Aggregate.totalSize reposData) 1024)).

Definition getGitHubStats
    (userFetch : Settled (Response GitHubUser.t))
    (reposFetch : Settled (Response ReposJson)) : Exn + Result Stats :=
  match Promise_all userFetch reposFetch with
  | inl e => inl e
  | inr (userResponse, reposResponse) =>
      if negb (ok userResponse) then inl Error_UserNotFound
      else
        match json userResponse with
        | None => inl SyntaxError
        | Some userData =>
            match json reposResponse with
            | None => inl SyntaxError
            | Some NotAnArray => inl TypeError
            | Some (ReposArray reposData) => inr (aggregate userData reposData)
            end
        end
  end.

End Stats.

End Part000.

(** ** The current revision: a third fetch counts the commits *)

Module PageTsx.

Definition FAMOUS_DEVS : list string :=
  ["Linus Torvalds"; "Ada Lovelace"; "Grace Hopper"; "Alan Turing";
   "Margaret Hamilton"; "Dennis Ritchie"; "Ken Thompson"].

(** The JSON of the commit search: [null], or a value whose [total_count]
    may be missing. *)
Inductive CommitsJson : Type :=
| CommitsNull : CommitsJson
| CommitsValue : option Z -> CommitsJson.

Record Stats : Type := mkStats {
  totalRepos : Z;
  totalStars : Z;
  totalForks : Z;
  mostActiveDay : option string;
  totalCommits : option Z;
  serverName : option string
}.

Section Stats.
Context `{HostEnv}.

Definition getGitHubStats
    (userFetch : Settled (Response GitHubUser.t))
    (reposFetch : Settled (Response ReposJson))
    (commitsFetch : Settled (Response CommitsJson))
    (r : Z) : Exn + Result Stats :=
  match Promise_all userFetch reposFetch with
  | inl e => inl e
  | inr (userResponse, reposResponse) =>
      if negb (ok userResponse) then inl Error_UserNotFound
      else
        match json userResponse with
        | None => inl SyntaxError
        | Some userData =>
            match json reposResponse with
            | None => inl SyntaxError
            | Some NotAnArray => inl TypeError
            | Some (ReposArray reposData) =>
                let serverName :=
                  JS.get FAMOUS_DEVS
                    (JSRandom.floor_mul r (Z.of_nat (List.length FAMOUS_DEVS))) in
                match commitsFetch with
                | Rejected => inl FetchRejected
                | Fulfilled commitsResponse =>
                    match json commitsResponse with
                    | None => inl SyntaxError
                    | Some CommitsNull => inl TypeError
                    | Some (CommitsValue totalCommits) =>
                        inr (mkResult userData
                               (mkStats
                                  (Z.of_nat (List.length reposData))
                                  (Aggregate.totalStars reposData)
                                  (Aggregate.totalForks reposData)
                                  (Aggregate.mostActiveDay reposData)
                                  totalCommits
                                  serverName))
                    end
                end
            end
        end
  end.

End Stats.

Definition contributionScore (data : Result Stats) : Z :=
  JSNum.add (JSNum.mul (totalStars (stats data)) 2)
            (JSNum.mul (GitHubUser.followers (userData data)) 3).

End PageTsx.

(** ** The notions the specification is stated with *)

Module Spec.

(** The arithmetic sum of a field over the repositories. *)
Fixpoint sum_field (f : GitHubRepo.t -> Z) (repos : list GitHubRepo.t) : Z :=
  match repos with
  | [] => 0
  | repo :: rest => f repo + sum_field f rest
  end.

Definition day_name (i : Z) : string :=
  match i with
  | 0 => "Sunday"
  | 1 => "Monday"
  | 2 => "Tuesday"
  | 3 => "Wednesday"
  | 4 => "Thursday"
  | 5 => "Friday"
  | _ => "Saturday"
  end.

Section Host.
Context `{HostEnv}.

(** Whether the last push of [repo] fell on weekday [i] (0 = Sunday). *)
Definition pushed_on (i : Z) (repo : GitHubRepo.t) : bool :=
  match Date_parse (GitHubRepo.pushed_at repo) with
  | Some t => JSDate.getDay t =? i
  | None => false
  end.

(** Bucket [i] of the histogram: how many repositories were last pushed on
    weekday [i]. *)
Fixpoint weekday_count (repos : list GitHubRepo.t) (i : Z) : Z :=
  match repos with
  | [] => 0
  | repo :: rest => (if pushed_on i repo then 1 else 0) + weekday_count rest i
  end.

(** How many repositories were last pushed strictly after [instant]. *)
Fixpoint pushed_since (instant : Z) (repos : list GitHubRepo.t) : Z :=
  match repos with
  | [] => 0
  | repo :: rest =>
      match Date_parse (GitHubRepo.pushed_at repo) with
      | Some t => if instant <? t then 1 + pushed_since instant rest
                  else pushed_since instant rest
      | None => pushed_since instant rest
      end
  end.

(** The instant whose local calendar date and time of day are those of
    [now], thirty days earlier. *)
Definition thirty_days_before (now : Z) : Z :=
  JSDate.UTC (JSDate.LocalTime now - 30 * JSDate.msPerDay).

End Host.

(** How often [lang] is a repository's primary language. *)
Fixpoint occurrences (langs : list string) (lang : string) : Z :=
  match langs with
  | [] => 0
  | l :: rest => (if String.eqb l lang then 1 else 0) + occurrences rest lang
  end.

(** The position at which [lang] is first met ([length langs] if never). *)
Fixpoint first_pos (langs : list string) (lang : string) : nat :=
  match langs with
  | [] => O
  | l :: rest => if String.eqb l lang then O else S (first_pos rest lang)
  end.

(** A character of an upper-case alphanumeric code: [0-9] or [A-Z]. *)
Definition upper_alnum (c : ascii) : bool :=
  let n := nat_of_ascii c in
  ((48 <=? n)%nat && (n <=? 57)%nat) || ((65 <=? n)%nat && (n <=? 90)%nat).

(** A radix-36 digit as [toString(36)] prints it: [0-9] or [a-z]. *)
Definition lower_alnum (c : ascii) : bool :=
  let n := nat_of_ascii c in
  ((48 <=? n)%nat && (n <=? 57)%nat) || ((97 <=? n)%nat && (n <=? 122)%nat).

Fixpoint string_forall (p : ascii -> bool) (s : string) : bool :=
  match s with
  | EmptyString => true
  | String c rest => p c && string_forall p rest
  end.

(** The order a stable sort by descending [key] leaves: a larger key
    first, and among equal keys the order [P] of the input. *)
Definition sorted_before {A : Type} (key : A -> Z) (P : A -> A -> Prop) (a b : A) : Prop :=
  key b < key a \/ (key a = key b /\ P a b).

(** The distinct languages in the order they are first met. *)
Fixpoint first_seen (langs : list string) : list string :=
  match langs with
  | [] => []
  | l :: rest => l :: filter (fun x => negb (String.eqb l x)) (first_seen rest)
  end.

(** [a] ranks before [b]: more repositories, or as many and met earlier. *)
Definition ranks_before (langs : list string) (a b : string) : Prop :=
  occurrences langs b < occurrences langs a
  \/ (occurrences langs a = occurrences langs b
      /\ (first_pos langs a < first_pos langs b)%nat).

(** The primary languages of the repositories that have one. *)
Definition primary_languages (repos : list GitHubRepo.t) : list string :=
  flat_map (fun repo => match GitHubRepo.language repo with
                        | Some l => [l]
                        | None => []
                        end) repos.

End Spec.

(** ** The rest of the page: typing, sharing, exporting, printed fields *)

Module Home.

(** [onChange={(e) => setUsername(e.target.value)}] *)
Definition setUsername {Stats : Type} (st : PageState Stats) (value : string) : PageState Stats :=
  mkPageState value (data st) (loading st) (error st).

(** [disabled={!username || loading}] of the submit button. *)
Definition submitDisabled {Stats : Type} (st : PageState Stats) : bool :=
  String.eqb (username st) "" || loading st.

(** What the browser answers to the handlers: the two exports of the
    receipt ([toPng] without options and with [{ quality: 0.95 }], [None]
    when the promise rejects), whether [fetch(dataUrl)] and [blob()]
    succeed, and [navigator.share]: absent, or present and resolving
    ([true]) or rejecting ([false]). *)
Record Browser : Type := mkBrowser {
  toPng : option string;
  toPng_quality : option string;
  fetch_blob : bool;
  navigator_share : option bool
}.

(** What a handler does to the outside. *)
Inductive Effect : Type :=
| NavigatorShare (title text fileName fileType : string)
| LinkClick (download href : string)
| ConsoleError (message : string)
| UnhandledRejection.

(** [`${data?.userData?.login}`]: [undefined] prints as the word. *)
Definition login_text {Stats : Type} (st : PageState Stats) : string :=
  match data st with
  | Some d => GitHubUser.login (userData d)
  | None => "undefined"
  end.

(** [handleDownload] with its export: the click on the link it builds, or
    the rejection of [toPng], which nothing catches. *)
Definition handleDownload_effects {Stats : Type} (b : Browser) (st : PageState Stats)
  : list Effect :=
  if receiptRef_current st then
    match toPng_quality b with
    | Some dataUrl =>
        [LinkClick (download_name
                      (option_map (fun d => GitHubUser.login (userData d)) (data st)))
                   dataUrl]
    | None => [UnhandledRejection]
    end
  else [].

(** [handleShare]; the fallback [handleDownload()] is called without
    [await], so its rejection is not caught by the [try]. *)
Definition handleShare {Stats : Type} (b : Browser) (st : PageState Stats) : list Effect :=
  if negb (receiptRef_current st) then []
  else
    match toPng b with
    | None => [ConsoleError "Error sharing:"]
    | Some dataUrl =>
        if negb (fetch_blob b) then [ConsoleError "Error sharing:"]
        else
          match navigator_share b with
          | Some resolves =>
              NavigatorShare "My GitHub Receipt"
                ("Check out my GitHub stats for " ++ login_text st ++ "!")
                "github-receipt.png" "image/png"
              :: (if resolves then [] else [ConsoleError "Error sharing:"])
          | None => handleDownload_effects b st
          end
    end.

(** [String(n)] for an integer [n]. *)
Definition String_of (n : Z) : string := NilZero.string_of_int (Z.to_int n).

Fixpoint repeat_char (c : ascii) (n : nat) : string :=
  match n with
  | O => EmptyString
  | S k => String c (repeat_char c k)
  end.

(** [s.padStart(n, c)] for a one-character pad. *)
Definition padStart (n : nat) (c : ascii) (s : string) : string :=
  repeat_char c (n - String.length s) ++ s.

(** [ORDER #{String(Math.floor(Math.random() * 9999)).padStart(4, '0')}] *)
Definition orderNumber (r : Z) : string :=
  padStart 4 "0" (String_of (JSRandom.floor_mul r 9999)).

End Home.

(** ** The commit search of the current revision *)

Module CommitSearch.

Definition digit_char (d : Z) : ascii := ascii_of_nat (Z.to_nat (48 + d)).

Definition pad2 (n : Z) : string :=
  String (digit_char (n / 10)) (String (digit_char (n mod 10)) EmptyString).

Definition pad3 (n : Z) : string := String (digit_char (n / 100)) (pad2 (n mod 100)).

Definition pad4 (n : Z) : string := String (digit_char (n / 1000)) (pad3 (n mod 1000)).

Definition pad6 (n : Z) : string :=
  String (digit_char (n / 100000)) (String (digit_char (n / 10000 mod 10)) (pad4 (n mod 10000))).

(** The year of [toISOString]: four digits from 0 to 9999, otherwise a
    sign and six digits. *)
Definition year_text (y : Z) : string :=
  if (0 <=? y) && (y <=? 9999) then pad4 y
  else if y <? 0 then String "-" (pad6 (- y))
  else String "+" (pad6 y).

Definition HourFromTime (t : Z) : Z := (t / 3600000) mod 24.
Definition MinFromTime (t : Z) : Z := (t / 60000) mod 60.
Definition SecFromTime (t : Z) : Z := (t / 1000) mod 60.
Definition msFromTime (t : Z) : Z := t mod 1000.

(** [d.toISOString()]: the UTC fields, [YYYY-MM-DDTHH:mm:ss.sssZ]. *)
Definition toISOString (t : Z) : string :=
  year_text (JSDate.YearFromTime t) ++ "-" ++ pad2 (JSDate.MonthFromTime t + 1)
  ++ "-" ++ pad2 (JSDate.DateFromTime t)
  ++ "T" ++ pad2 (HourFromTime t) ++ ":" ++ pad2 (MinFromTime t)
  ++ ":" ++ pad2 (SecFromTime t) ++ "." ++ pad3 (msFromTime t) ++ "Z".

(** [s.split(sep)[0]] for a one-character separator: the text before its
    first occurrence, the whole text when there is none. *)
Fixpoint split_head (sep : ascii) (s : string) : string :=
  match s with
  | EmptyString => EmptyString
  | String c rest => if Ascii.eqb c sep then EmptyString else String c (split_head sep rest)
  end.

Section Host.
Context `{HostEnv}.

(** [thirtyDaysAgo.toISOString().split('T')[0]] *)
Definition dateFilter (now : Z) : string :=
  split_head "T" (toISOString (JSDate.setDate now (JSDate.getDate now - 30))).

(** The address of the third fetch. *)
Definition commitsUrl (username : string) (now : Z) : string :=
  "https://api.github.com/search/commits?q=author:" ++ username
  ++ "+committer-date:>=" ++ dateFilter now.

End Host.

(** The date-only form [YYYY-MM-DD], which [Date.parse] reads as midnight
    UTC of that day. *)
Definition parse_date (s : string) : option Z :=
  match list_ascii_of_string s with
  | [y1; y2; y3; y4; "-"; m1; m2; "-"; d1; d2]%char =>
      match ISO.number 0 [y1; y2; y3; y4], ISO.number 0 [m1; m2], ISO.number 0 [d1; d2] with
      | Some y, Some mo, Some d => ISO.fields y mo d 0 0 0
      | _, _, _ => None
      end
  | _ => None
  end.

End CommitSearch.

(** ** Further notions for stating properties *)

Module Props.

Definition sumZ (l : list Z) : Z := fold_right Z.add 0 l.

Definition is_digit (c : ascii) : bool :=
  let n := nat_of_ascii c in (48 <=? n)%nat && (n <=? 57)%nat.

(** The number a value of the dictionary holds, 0 for a text. *)
Definition count_of (v : Obj.value) : Z :=
  match v with
  | Obj.VNum n => n
  | Obj.VText _ _ => 0
  end.

Definition has_language (repo : GitHubRepo.t) : bool :=
  match GitHubRepo.language repo with
  | Some _ => true
  | None => false
  end.

Section Host.
Context `{HostEnv}.

(** How many repositories carry a push date the host can read. *)
Fixpoint dated (repos : list GitHubRepo.t) : Z :=
  match repos with
  | [] => 0
  | repo :: rest =>
      match Date_parse (GitHubRepo.pushed_at repo) with
      | Some _ => 1 + dated rest
      | None => dated rest
      end
  end.

End Host.

End Props.

(** ** Sample data *)

Module Sample.

Definition octocat : GitHubUser.t :=
  GitHubUser.Build "octocat" (Some "The Octocat") 10 9 8
    "2011-01-25T18:44:36Z" (Some "San Francisco") 8.

Definition alpha : GitHubRepo.t :=
  GitHubRepo.Build "alpha" 5 1 2048 (Some "Go")
    "2024-03-01T12:30:15Z" "2020-01-01T00:00:00Z".

Definition beta : GitHubRepo.t :=
  GitHubRepo.Build "beta" 3 0 512 (Some "Rust")
    "2024-02-25T08:00:00Z" "2021-06-01T00:00:00Z".

Definition gamma : GitHubRepo.t :=
  GitHubRepo.Build "gamma" 0 0 100 None
    "2024-01-05T23:10:00Z" "2019-03-09T00:00:00Z".

Definition delta : GitHubRepo.t :=
  GitHubRepo.Build "delta" 7 2 4000 (Some "Rust")
    "2024-02-18T10:00:00Z" "2022-02-02T00:00:00Z".

Definition epsilon : GitHubRepo.t :=
  GitHubRepo.Build "epsilon" 1 0 30 (Some "C")
    "not a date" "2022-02-02T00:00:00Z".

Definition repos : list GitHubRepo.t := [alpha; beta; gamma; delta; epsilon].

(** 2024-03-02T09:00:00Z *)
Definition now : Z := 1709370000000.

Definition user_ok : Settled (Response GitHubUser.t) :=
  Fulfilled (mkResponse true (Some octocat)).

Definition repos_ok : Settled (Response ReposJson) :=
  Fulfilled (mkResponse true (Some (ReposArray repos))).

(** The repository endpoint answers with an error status and a JSON array. *)
Definition repos_error_array : Settled (Response ReposJson) :=
  Fulfilled (mkResponse false (Some (ReposArray []))).

(** The repository endpoint answers as the API does when it refuses: an
    error status and a JSON object. *)
Definition repos_error_object : Settled (Response ReposJson) :=
  Fulfilled (mkResponse false (Some NotAnArray)).

Definition fresh {Stats : Type} (name : string) : PageState Stats :=
  mkPageState name None false "".

(** Repositories with star counts at the edge of the exact integers. *)
Definition starred (stars : Z) : GitHubRepo.t :=
  GitHubRepo.Build "starred" stars 0 0 None
    "2024-03-01T12:30:15Z" "2020-01-01T00:00:00Z".

(** Repositories whose language is named like an array index or like a
    property of the prototype. *)
Definition written_in (lang : string) : GitHubRepo.t :=
  GitHubRepo.Build "written" 0 0 0 (Some lang)
    "2024-03-01T12:30:15Z" "2020-01-01T00:00:00Z".

(** A push 29 days and 23 and a half hours before 2024-04-10T09:00:00Z. *)
Definition pushed_march_11 : GitHubRepo.t :=
  GitHubRepo.Build "march" 0 0 0 None
    "2024-03-11T09:30:00Z" "2020-01-01T00:00:00Z".

End Sample.

(** ** Checks of the embedding on concrete inputs *)

Example iso_epoch : ISO.parse "1970-01-01T00:00:00Z" = Some 0.
Proof. reflexivity. Qed.

Example iso_2024 : ISO.parse "2024-03-01T12:30:15Z" = Some 1709296215000.
Proof. reflexivity. Qed.

Example iso_leap_day :
  ISO.parse "2023-02-29T00:00:00Z" = None
  /\ ISO.parse "2024-02-29T00:00:00Z" = Some 1709164800000
  /\ ISO.parse "2024-12-31T23:59:59Z" = Some 1735689599000.
Proof. repeat split; reflexivity. Qed.

Example getDay_2024_03_01 :
  @JSDate.getDay utc_host 1709296215000 = 5.
Proof. reflexivity. Qed.

Example getDate_2024_03_01 :
  @JSDate.getDate utc_host 1709296215000 = 1
  /\ JSDate.MonthFromTime 1709296215000 = 2
  /\ JSDate.YearFromTime 1709296215000 = 2024.
Proof. repeat split; reflexivity. Qed.

Example setDate_2024_03_01 :
  @JSDate.setDate utc_host 1709296215000 (1 - 30) = 1709296215000 - 30 * 86400000
  /\ ISO.parse "2024-01-31T12:30:15Z" = Some (1709296215000 - 30 * 86400000).
Proof. split; reflexivity. Qed.

Example toString36_half : JSRandom.toString36 (2 ^ 52) = "0.i".
Proof. reflexivity. Qed.

Example toString36_zero : JSRandom.toString36 0 = "0".
Proof. reflexivity. Qed.

Example coupon_of_draw :
  JSString.toUpperCase (JSString.substring 2 8 (JSRandom.toString36 1234567890123456))
  = "4XMVUE".
Proof. vm_compute. reflexivity. Qed.

Example sample_aggregate :
  @Part001.aggregate utc_host Sample.now 0 (2 ^ 52) 1234567890123456
    Sample.octocat Sample.repos
  = mkResult Sample.octocat
      (Part001.mkStats 5 16 3 "Rust, Go, C" 7 3 (Some "Sunday")
         (Some "Your next commit will be bug-free! 🪲") (Some "Grace Hopper") "4XMVUE").
Proof. vm_compute. reflexivity. Qed.

Example sample_dayCount :
  @Aggregate.dayCount utc_host Sample.repos = [2; 0; 0; 0; 0; 2; 0].
Proof. vm_compute. reflexivity. Qed.

(** East of Greenwich a push late on Friday is a push on Saturday. *)
Example sample_dayCount_ist :
  @Aggregate.dayCount ist_host Sample.repos = [2; 0; 0; 0; 0; 1; 1]
  /\ @Aggregate.mostActiveDay ist_host Sample.repos = Some "Sunday".
Proof. split; vm_compute; reflexivity. Qed.

Example sample_ranking :
  Aggregate.langCount Sample.repos
  = [("Go", Obj.VNum 1); ("Rust", Obj.VNum 2); ("C", Obj.VNum 1)]
  /\ Aggregate.sortedEntries Sample.repos
     = [("Rust", Obj.VNum 2); ("Go", Obj.VNum 1); ("C", Obj.VNum 1)]
  /\ Aggregate.topLanguages (Sample.repos ++ [Sample.epsilon; Sample.epsilon; Sample.alpha;
                                             GitHubRepo.Build "zeta" 0 0 0 (Some "Zig") "" ""])%list
     = "C, Go, Rust".
Proof. repeat split; vm_compute; reflexivity. Qed.

(** An array index among the names is listed first by [Object.entries];
    [__proto__] is never stored; an inherited name reads as a function. *)
Example dictionary_of_odd_names :
  Obj.entries (Aggregate.langCount [Sample.written_in "Go"; Sample.written_in "7"])
  = [("7", Obj.VNum 1); ("Go", Obj.VNum 1)]
  /\ Aggregate.langCount [Sample.written_in "__proto__"; Sample.written_in "__proto__"]
     = []
  /\ Aggregate.langCount [Sample.written_in "toString"; Sample.written_in "toString"]
     = [("toString", Obj.VText "toString" 2)]
  /\ Obj.array_index "4294967294" = Some 4294967294
  /\ Obj.array_index "4294967295" = None
  /\ Obj.array_index "07" = None.
Proof. repeat split; vm_compute; reflexivity. Qed.

(** Sums and products beyond [2^53] keep 53 bits. *)
Example rounding_of_sums :
  Aggregate.totalStars (map Sample.starred [2 ^ 53 - 1; 1; 1; 1]) = 2 ^ 53
  /\ Aggregate.totalStars (map Sample.starred [1; 1; 1; 2 ^ 53 - 1]) = 2 ^ 53 + 2
  /\ JSNum.add (JSNum.mul (2 ^ 52 + 1) 2) (JSNum.mul 1 3) = 2 ^ 53 + 4
  /\ JSNum.add (JSNum.add (2 ^ 62) 511) 511 = 2 ^ 62
  /\ JSNum.round53 (- (2 ^ 53 + 3)) = - (2 ^ 53 + 4).
Proof. repeat split; vm_compute; reflexivity. Qed.

(** Draws on which the rounding of the product and the digits of the
    host show. *)
Example rounding_of_draws :
  JSRandom.floor_mul 6027319753322530 9999 = 6691
  /\ (6027319753322530 * 9999) / 2 ^ 53 = 6690
  /\ JSRandom.floor_mul 5146971002709138 7 = 4
  /\ JSRandom.toString36 8756999275442632 = "0.z"
  /\ JSRandom.toString36 1234567890123456 = "0.4xmvue8buux"
  /\ JSRandom.toString36 1 = "0.0000000000em2djky0vz9"
  /\ JSRandom.toString36 (2 ^ 53 - 1) = "0.zzzzzzzzzza".
Proof. repeat split; vm_compute; reflexivity. Qed.

Example thirtyDaysAgo_utc :
  @Aggregate.thirtyDaysAgo utc_host Sample.now = Sample.now - 30 * 86400000
  /\ ISO.parse "2024-02-01T09:00:00Z" = Some (Sample.now - 30 * 86400000).
Proof. split; vm_compute; reflexivity. Qed.

(** 2024-04-10T09:00:00Z, eleven in the morning in summer time; thirty
    days earlier eleven in the morning is 10:00:00Z. *)
Example thirtyDaysAgo_across_offset_change :
  ISO.parse "2024-04-10T09:00:00Z" = Some 1712739600000
  /\ @Aggregate.thirtyDaysAgo cet_host 1712739600000
     = 1712739600000 - 30 * 86400000 + 3600000
  /\ ISO.parse "2024-03-11T10:00:00Z" = Some (1712739600000 - 30 * 86400000 + 3600000).
Proof. repeat split; vm_compute; reflexivity. Qed.

(** The scenario of the specification: ten followers, repositories with
    5 and 3 stars and 1 and 0 forks. *)
Example end_to_end_scenario :
  let user := GitHubUser.Build "u" None 10 0 2 "" None 0 in
  let repos := [GitHubRepo.Build "a" 5 1 0 None "" ""; GitHubRepo.Build "b" 3 0 0 None "" ""] in
  let data := @Part001.aggregate utc_host Sample.now 0 0 1 user repos in
  Part001.totalStars (stats data) = 8
  /\ Part001.totalForks (stats data) = 1
  /\ Part001.contributionScore data = 46.
Proof. repeat split; vm_compute; reflexivity. Qed.

Example lookup_unknown_user :
  handleSubmit
    (fun _ => @Part000.getGitHubStats utc_host
                (Fulfilled (mkResponse false (Some Sample.octocat))) Sample.repos_ok)
    (Sample.fresh "nobody")
  = mkPageState "nobody" None false "User not found".
Proof. reflexivity. Qed.

Example lookup_refused_repos :
  handleSubmit
    (fun _ => @Part000.getGitHubStats utc_host Sample.user_ok Sample.repos_error_object)
    (Sample.fresh "octocat")
  = mkPageState "octocat" None false "User not found".
Proof. reflexivity. Qed.

Example lookup_current_revision :
  @PageTsx.getGitHubStats utc_host Sample.user_ok Sample.repos_ok
    (Fulfilled (mkResponse true (Some (PageTsx.CommitsValue (Some 42))))) (2 ^ 53 - 1)
  = inr (mkResult Sample.octocat
           (PageTsx.mkStats 5 16 3 (Some "Sunday") (Some 42) (Some "Ken Thompson"))).
Proof. vm_compute. reflexivity. Qed.

Example empty_username_is_ignored :
  handleSubmit
    (fun _ => @Part000.getGitHubStats utc_host Sample.user_ok Sample.repos_ok)
    (Sample.fresh "")
  = Sample.fresh "".
Proof. reflexivity. Qed.

(** ** Totals *)

Section Totals.

Lemma round53_exact (x : Z) : 0 <= x <= 2 ^ 53 -> JSNum.round53 x = x.
Proof.
  intros Hx. destruct (Z.eq_dec x (2 ^ 53)) as [->|Hne]; [reflexivity|].
  unfold JSNum.round53. cbv zeta. rewrite Z.abs_eq by lia.
  destruct (Z.leb_spec (Z.log2 x - 52) 0) as [_|Hs]; [reflexivity|].
  exfalso. destruct (Z.eq_dec x 0) as [->|Hx0]; [simpl in Hs; lia|].
  assert (Hlog : Z.log2 x < 53) by (apply Z.log2_lt_pow2; lia).
  lia.
Qed.

Lemma sum_field_nonneg (f : GitHubRepo.t -> Z) (repos : list GitHubRepo.t) :
  Forall (fun repo => 0 <= f repo) repos -> 0 <= Spec.sum_field f repos.
Proof.
  induction 1 as [|repo rest Hr _ IH]; simpl; lia.
Qed.

Lemma reduce_add_from (f : GitHubRepo.t -> Z) (repos : list GitHubRepo.t) (acc : Z) :
  0 <= acc ->
  Forall (fun repo => 0 <= f repo) repos ->
  acc + Spec.sum_field f repos <= 2 ^ 53 ->
  JS.reduce (fun a repo => JSNum.add a (f repo)) acc repos = acc + Spec.sum_field f repos.
Proof.
  unfold JS.reduce. intros Hacc Hall. revert acc Hacc.
  induction Hall as [|repo rest Hr Hall IH]; intros acc Hacc Hsum; simpl.
  - lia.
  - pose proof (sum_field_nonneg f rest Hall) as Hrest. simpl in Hsum.
    unfold JSNum.add at 2. rewrite round53_exact by lia.
    rewrite IH by lia. lia.
Qed.

Lemma reduce_add_sum (f : GitHubRepo.t -> Z) (repos : list GitHubRepo.t) :
  Forall (fun repo => 0 <= f repo) repos ->
  Spec.sum_field f repos <= 2 ^ 53 ->
  JS.reduce (fun a repo => JSNum.add a (f repo)) 0 repos = Spec.sum_field f repos.
Proof. intros Hall Hsum. rewrite reduce_add_from; auto; lia. Qed.

Lemma sum_field_perm (f : GitHubRepo.t -> Z) (l l' : list GitHubRepo.t) :
  Permutation l l' -> Spec.sum_field f l = Spec.sum_field f l'.
Proof.
  induction 1 as [|x l l' _ IH|x y l|l l' l'' _ IH1 _ IH2]; simpl; lia.
Qed.

Lemma totalStars_sum repos :
  Forall (fun repo => 0 <= GitHubRepo.stargazers_count repo) repos ->
  Spec.sum_field GitHubRepo.stargazers_count repos <= 2 ^ 53 ->
  Aggregate.totalStars repos = Spec.sum_field GitHubRepo.stargazers_count repos.
Proof. apply reduce_add_sum. Qed.

Lemma totalForks_sum repos :
  Forall (fun repo => 0 <= GitHubRepo.forks_count repo) repos ->
  Spec.sum_field GitHubRepo.forks_count repos <= 2 ^ 53 ->
  Aggregate.totalForks repos = Spec.sum_field GitHubRepo.forks_count repos.
Proof. apply reduce_add_sum. Qed.

Lemma totalSize_sum repos :
  Forall (fun repo => 0 <= GitHubRepo.size repo) repos ->
  Spec.sum_field GitHubRepo.size repos <= 2 ^ 53 ->
  Aggregate.totalSize repos = Spec.sum_field GitHubRepo.size repos.
Proof. apply reduce_add_sum. Qed.

End Totals.

(** C3, as the code has it. For repositories whose star, fork and size
    fields are non-negative integers with sums of at most [2^53], the
    totals the aggregator computes are the arithmetic sums of the fields;
    they are the same for every reordering [repos'] of the sequence, and
    all zero for the empty sequence. *)
Theorem totals_are_order_independent_sums
    (repos repos' : list GitHubRepo.t) (Hperm : Permutation repos repos')
    (Hstars : Forall (fun repo => 0 <= GitHubRepo.stargazers_count repo) repos)
    (Hforks : Forall (fun repo => 0 <= GitHubRepo.forks_count repo) repos)
    (Hsize : Forall (fun repo => 0 <= GitHubRepo.size repo) repos)
    (Hstars_max : Spec.sum_field GitHubRepo.stargazers_count repos <= 2 ^ 53)
    (Hforks_max : Spec.sum_field GitHubRepo.forks_count repos <= 2 ^ 53)
    (Hsize_max : Spec.sum_field GitHubRepo.size repos <= 2 ^ 53) :
  (Aggregate.totalStars repos = Spec.sum_field GitHubRepo.stargazers_count repos
   /\ Aggregate.totalForks repos = Spec.sum_field GitHubRepo.forks_count repos
   /\ Aggregate.totalSize repos = Spec.sum_field GitHubRepo.size repos)
  /\ (Aggregate.totalStars repos' = Aggregate.totalStars repos
      /\ Aggregate.totalForks repos' = Aggregate.totalForks repos
      /\ Aggregate.totalSize repos' = Aggregate.totalSize repos)
  /\ (Aggregate.totalStars [] = 0
      /\ Aggregate.totalForks [] = 0
      /\ Aggregate.totalSize [] = 0).
Proof.
  pose proof (Permutation_Forall Hperm Hstars) as Hstars'.
  pose proof (Permutation_Forall Hperm Hforks) as Hforks'.
  pose proof (Permutation_Forall Hperm Hsize) as Hsize'.
  pose proof (sum_field_perm GitHubRepo.stargazers_count _ _ Hperm) as Es.
  pose proof (sum_field_perm GitHubRepo.forks_count _ _ Hperm) as Ef.
  pose proof (sum_field_perm GitHubRepo.size _ _ Hperm) as Ez.
  rewrite (totalStars_sum repos), (totalForks_sum repos), (totalSize_sum repos)
    by assumption.
  rewrite (totalStars_sum repos'), (totalForks_sum repos'), (totalSize_sum repos')
    by (try assumption; lia).
  repeat split; auto.
Qed.

Lemma totals_are_order_independent_sums_witness :
  Permutation [Sample.alpha; Sample.beta; Sample.delta]
              [Sample.delta; Sample.alpha; Sample.beta]
  /\ Spec.sum_field GitHubRepo.stargazers_count [Sample.alpha; Sample.beta; Sample.delta]
     <= 2 ^ 53
  /\ Aggregate.totalStars [Sample.delta; Sample.alpha; Sample.beta] = 15
  /\ Aggregate.totalStars [Sample.alpha; Sample.beta; Sample.delta] = 15.
Proof.
  assert (Hperm : Permutation [Sample.alpha; Sample.beta; Sample.delta]
                              [Sample.delta; Sample.alpha; Sample.beta]).
  { apply Permutation_sym.
    apply (Permutation_cons_app [Sample.alpha; Sample.beta] [] Sample.delta).
    apply Permutation_refl. }
  assert (Hstars : Forall (fun repo => 0 <= GitHubRepo.stargazers_count repo)
                          [Sample.alpha; Sample.beta; Sample.delta])
    by (repeat constructor; simpl; lia).
  assert (Hforks : Forall (fun repo => 0 <= GitHubRepo.forks_count repo)
                          [Sample.alpha; Sample.beta; Sample.delta])
    by (repeat constructor; simpl; lia).
  assert (Hsize : Forall (fun repo => 0 <= GitHubRepo.size repo)
                         [Sample.alpha; Sample.beta; Sample.delta])
    by (repeat constructor; simpl; lia).
  assert (Hs : Spec.sum_field GitHubRepo.stargazers_count
                 [Sample.alpha; Sample.beta; Sample.delta] <= 2 ^ 53)
    by (simpl; lia).
  assert (Hf : Spec.sum_field GitHubRepo.forks_count
                 [Sample.alpha; Sample.beta; Sample.delta] <= 2 ^ 53)
    by (simpl; lia).
  assert (Hz : Spec.sum_field GitHubRepo.size
                 [Sample.alpha; Sample.beta; Sample.delta] <= 2 ^ 53)
    by (simpl; lia).
  split; [exact Hperm|]. split; [exact Hs|].
  destruct (totals_are_order_independent_sums _ _ Hperm Hstars Hforks Hsize Hs Hf Hz)
    as [_ [[Hsame _] _]].
  split; [rewrite Hsame|]; reflexivity.
Defined.

(** C3 as it is stated fails above [2^53]: the stars 2^53 - 1, 1, 1, 1 add
    up to 2^53 in this order and to 2^53 + 2 in the reverse order, so the
    total is neither the arithmetic sum nor independent of the order. *)
Lemma totals_depend_on_order_above_2_53 :
  let repos := map Sample.starred [2 ^ 53 - 1; 1; 1; 1] in
  let repos' := map Sample.starred [1; 1; 1; 2 ^ 53 - 1] in
  Permutation repos repos'
  /\ Forall (fun repo => 0 <= GitHubRepo.stargazers_count repo) repos
  /\ Aggregate.totalStars repos <> Spec.sum_field GitHubRepo.stargazers_count repos
  /\ Aggregate.totalStars repos' <> Aggregate.totalStars repos.
Proof.
  cbv zeta. split; [|split; [|split]].
  - apply (Permutation_map Sample.starred).
    change [1; 1; 1; 2 ^ 53 - 1] with (rev [2 ^ 53 - 1; 1; 1; 1]).
    apply Permutation_rev.
  - repeat constructor; vm_compute; discriminate.
  - vm_compute. discriminate.
  - vm_compute. discriminate.
Qed.

(** ** Contribution score *)




(** ** The empty repository list *)

(** C6. On the empty sequence every total is 0, the histogram is seven
    zeros whose maximum 0 is found at index 0, and the most active day is
    the defined name Sunday. *)
Theorem empty_repos_totals_and_sunday `{HostEnv}
    (now r1 r2 r3 : Z) (user : GitHubUser.t) :
  let s := stats (Part001.aggregate now r1 r2 r3 user []) in
  Part001.totalRepos s = 0
  /\ Part001.totalStars s = 0
  /\ Part001.totalForks s = 0
  /\ Aggregate.totalSize [] = 0
  /\ Part001.totalSizeMB s = 0
  /\ Aggregate.dayCount [] = [0; 0; 0; 0; 0; 0; 0]
  /\ JS.Math_max (Aggregate.dayCount []) = Some 0
  /\ JS.indexOf (Aggregate.dayCount []) (JS.Math_max (Aggregate.dayCount [])) = 0
  /\ Part001.mostActiveDay s = Some "Sunday".
Proof. simpl. repeat split; reflexivity. Qed.

(** ** The most active weekday *)

Section ArrayFacts.

Lemma incr_length (arr : list Z) (i : nat) :
  List.length (JS.incr arr i) = List.length arr.
Proof.
  revert i. induction arr as [|x rest IH]; intros [|i]; simpl; auto.
Qed.

Lemma nth_incr (arr : list Z) (i j : nat) :
  (i < List.length arr)%nat ->
  nth j (JS.incr arr i) 0 = nth j arr 0 + (if Nat.eqb j i then 1 else 0).
Proof.
  revert i j. induction arr as [|x rest IH]; intros i j Hi; simpl in Hi.
  - lia.
  - destruct i as [|i], j as [|j]; simpl; try lia.
    apply IH. lia.
Qed.

Lemma Math_max_from (l : list Z) (a : Z) :
  exists m,
    fold_left (fun acc x => match acc with
                            | None => Some x
                            | Some m => Some (Z.max m x)
                            end) l (Some a) = Some m
    /\ (m = a \/ In m l) /\ a <= m /\ Forall (fun x => x <= m) l.
Proof.
  revert a. induction l as [|x rest IH]; intros a; simpl.
  - exists a. repeat split; auto. lia.
  - destruct (IH (Z.max a x)) as (m & Hm & Hin & Hle & Hall).
    exists m. split; [exact Hm|]. repeat split.
    + destruct Hin as [->|Hin]; [|auto].
      destruct (Z.max_spec a x) as [[_ ->]|[_ ->]]; auto.
    + lia.
    + constructor; [lia|exact Hall].
Qed.

Lemma Math_max_spec (l : list Z) :
  l <> [] ->
  exists m, JS.Math_max l = Some m /\ In m l /\ Forall (fun x => x <= m) l.
Proof.
  destruct l as [|a rest]; [congruence|intros _].
  unfold JS.Math_max; simpl.
  destruct (Math_max_from rest a) as (m & Hm & Hin & Hle & Hall).
  exists m. split; [exact Hm|]. split.
  - destruct Hin as [->|Hin]; [left; reflexivity|right; exact Hin].
  - constructor; assumption.
Qed.

Lemma indexOf_from_spec (l : list Z) (v i : Z) :
  In v l ->
  exists k, (k < List.length l)%nat
            /\ JS.indexOf_from i l v = i + Z.of_nat k
            /\ nth k l 0 = v
            /\ forall j, (j < k)%nat -> nth j l 0 <> v.
Proof.
  revert i. induction l as [|x rest IH]; intros i Hin; [destruct Hin|].
  simpl. destruct (Z.eqb_spec x v) as [->|Hne].
  - exists O. simpl. repeat split; lia.
  - destruct Hin as [Heq|Hin]; [congruence|].
    destruct (IH (i + 1) Hin) as (k & Hk & Hidx & Hnth & Hfirst).
    exists (S k). simpl. repeat split; try lia; auto.
    intros [|j] Hj; [exact Hne|]. apply Hfirst. lia.
Qed.

End ArrayFacts.

Section Histogram.
Context `{HostEnv}.

Lemma getDay_range (t : Z) : 0 <= JSDate.getDay t < 7.
Proof. unfold JSDate.getDay, JSDate.WeekDay. apply Z.mod_pos_bound. lia. Qed.

Lemma dayCount_from (repos : list GitHubRepo.t) (arr : list Z) :
  List.length arr = 7%nat ->
  let res :=
    fold_left (fun a day => match day with
                            | Some d => JS.incr a (Z.to_nat d)
                            | None => a
                            end)
      (map (fun repo => option_map JSDate.getDay
                          (Date_parse (GitHubRepo.pushed_at repo))) repos) arr in
  List.length res = 7%nat
  /\ forall j, (j < 7)%nat ->
       nth j res 0 = nth j arr 0 + Spec.weekday_count repos (Z.of_nat j).
Proof.
  cbv zeta.
  revert arr. induction repos as [|repo rest IH]; intros arr Hlen; simpl.
  - split; [exact Hlen|]. intros j _. lia.
  - unfold Spec.pushed_on.
    destruct (Date_parse (GitHubRepo.pushed_at repo)) as [t|]; simpl.
    + pose proof (getDay_range t) as Hr.
      destruct (IH (JS.incr arr (Z.to_nat (JSDate.getDay t)))) as [Hl Hn].
      { rewrite incr_length. exact Hlen. }
      split; [exact Hl|]. intros j Hj. rewrite (Hn j Hj).
      rewrite nth_incr by lia.
      destruct (Nat.eqb_spec j (Z.to_nat (JSDate.getDay t))) as [Heq|Hne];
        destruct (Z.eqb_spec (JSDate.getDay t) (Z.of_nat j)) as [He|He]; lia.
    + destruct (IH arr Hlen) as [Hl Hn].
      split; [exact Hl|]. intros j Hj. rewrite (Hn j Hj). lia.
Qed.

Lemma dayCount_nth (repos : list GitHubRepo.t) (j : nat) :
  (j < 7)%nat ->
  nth j (Aggregate.dayCount repos) 0 = Spec.weekday_count repos (Z.of_nat j).
Proof.
  intros Hj. unfold Aggregate.dayCount, Aggregate.pushDays.
  destruct (dayCount_from repos (repeat 0 7) eq_refl) as [_ Hn].
  rewrite (Hn j Hj).
  do 7 (destruct j as [|j]; [reflexivity|]). lia.
Qed.

Lemma dayCount_length (repos : list GitHubRepo.t) :
  List.length (Aggregate.dayCount repos) = 7%nat.
Proof.
  unfold Aggregate.dayCount, Aggregate.pushDays.
  exact (proj1 (dayCount_from repos (repeat 0 7) eq_refl)).
Qed.

Lemma dayCount_histogram (repos : list GitHubRepo.t) :
  Aggregate.dayCount repos = map (Spec.weekday_count repos) [0; 1; 2; 3; 4; 5; 6].
Proof.
  pose proof (dayCount_length repos) as Hlen.
  pose proof (fun j => dayCount_nth repos j) as Hn.
  destruct (Aggregate.dayCount repos) as [|c0 [|c1 [|c2 [|c3 [|c4 [|c5 [|c6 [|c7 l]]]]]]]];
    simpl in Hlen; try discriminate.
  pose proof (Hn 0%nat ltac:(lia)) as H0. pose proof (Hn 1%nat ltac:(lia)) as H1.
  pose proof (Hn 2%nat ltac:(lia)) as H2. pose proof (Hn 3%nat ltac:(lia)) as H3.
  pose proof (Hn 4%nat ltac:(lia)) as H4. pose proof (Hn 5%nat ltac:(lia)) as H5.
  pose proof (Hn 6%nat ltac:(lia)) as H6.
  simpl in H0, H1, H2, H3, H4, H5, H6. simpl. congruence.
Qed.

End Histogram.

(** C1. The most active day is the day name at the first index, in the
    order Sunday to Saturday, of the maximum of the seven-bucket histogram
    of last-push weekdays: bucket [i] is nowhere exceeded and every bucket
    before it is strictly smaller, so a tie goes to the lowest index. The
    result is a function of the host and the sequence alone. *)
Theorem most_active_day_is_first_maximum `{HostEnv} (repos : list GitHubRepo.t) :
  Aggregate.dayCount repos = map (Spec.weekday_count repos) [0; 1; 2; 3; 4; 5; 6]
  /\ exists i,
       0 <= i < 7
       /\ Aggregate.mostActiveDay repos = Some (Spec.day_name i)
       /\ JS.Math_max (Aggregate.dayCount repos) = Some (Spec.weekday_count repos i)
       /\ (forall j, 0 <= j < 7 ->
             Spec.weekday_count repos j <= Spec.weekday_count repos i)
       /\ (forall j, 0 <= j < i ->
             Spec.weekday_count repos j < Spec.weekday_count repos i).
Proof.
  split; [apply dayCount_histogram|].
  pose proof (dayCount_length repos) as Hlen.
  destruct (Math_max_spec (Aggregate.dayCount repos)) as (m & Hmax & Hin & Hall).
  { intros Hnil. rewrite Hnil in Hlen. discriminate. }
  destruct (indexOf_from_spec _ _ 0 Hin) as (k & Hk & Hidx & Hnth & Hfirst).
  rewrite Hlen in Hk. rewrite dayCount_nth in Hnth by exact Hk.
  assert (Hbucket : forall j, (j < 7)%nat -> Spec.weekday_count repos (Z.of_nat j) <= m).
  { intros j Hj. rewrite <- dayCount_nth by exact Hj.
    rewrite Forall_forall in Hall. apply Hall. apply nth_In. lia. }
  exists (Z.of_nat k). split; [lia|]. split; [|split; [|split]].
  - unfold Aggregate.mostActiveDay. rewrite Hmax. unfold JS.indexOf. rewrite Hidx.
    do 7 (destruct k as [|k]; [reflexivity|]). lia.
  - rewrite Hmax, Hnth. reflexivity.
  - intros j Hj. rewrite Hnth.
    replace j with (Z.of_nat (Z.to_nat j)) by lia. apply Hbucket. lia.
  - intros j Hj. rewrite Hnth.
    assert (Hle : Spec.weekday_count repos j <= m).
    { replace j with (Z.of_nat (Z.to_nat j)) by lia. apply Hbucket. lia. }
    assert (Hne : Spec.weekday_count repos j <> m).
    { replace j with (Z.of_nat (Z.to_nat j)) by lia.
      rewrite <- dayCount_nth by lia. apply Hfirst. lia. }
    lia.
Qed.

(** ** Recent activity *)

Section Calendar.

Lemma MonthFromDay_range (d leap : Z) : 0 <= JSDate.MonthFromDay d leap <= 11.
Proof.
  unfold JSDate.MonthFromDay.
  repeat match goal with
         | |- context [if ?c then _ else _] => destruct c
         end; lia.
Qed.

(** [YearFromTime] is the year the day falls in. *)
Lemma YearFromTime_spec (t : Z) :
  JSDate.DayFromYear (JSDate.YearFromTime t) <= JSDate.Day t
    < JSDate.DayFromYear (JSDate.YearFromTime t + 1).
Proof.
  unfold JSDate.YearFromTime. cbv zeta.
  generalize (JSDate.Day t). intros d.
  destruct (Z.leb_spec (JSDate.DayFromYear (1970 + 400 * d / 146097 + 1)) d) as [H1|H1].
  - split; [exact H1|]. unfold JSDate.DayFromYear in *. Z.div_mod_to_equations; lia.
  - destruct (Z.ltb_spec d (JSDate.DayFromYear (1970 + 400 * d / 146097))) as [H2|H2].
    + replace (1970 + 400 * d / 146097 - 1 + 1) with (1970 + 400 * d / 146097) by lia.
      split; [|exact H2]. unfold JSDate.DayFromYear in *. Z.div_mod_to_equations; lia.
    + split; assumption.
Qed.

Lemma DayFromYear_succ (y : Z) :
  JSDate.DayFromYear (y + 1) = JSDate.DayFromYear y + JSDate.DaysInYear y.
Proof.
  unfold JSDate.DayFromYear, JSDate.DaysInYear.
  destruct (Z.eqb_spec (y mod 4) 0); destruct (Z.eqb_spec (y mod 100) 0);
    destruct (Z.eqb_spec (y mod 400) 0); simpl negb; cbv iota;
    Z.div_mod_to_equations; lia.
Qed.

Lemma DayWithinYear_range (t : Z) :
  0 <= JSDate.DayWithinYear t < 365 + JSDate.InLeapYear t.
Proof.
  unfold JSDate.DayWithinYear, JSDate.InLeapYear, JSDate.LeapDays.
  pose proof (YearFromTime_spec t) as Hy.
  rewrite DayFromYear_succ in Hy.
  assert (Hd : JSDate.DaysInYear (JSDate.YearFromTime t) = 365
               \/ JSDate.DaysInYear (JSDate.YearFromTime t) = 366).
  { unfold JSDate.DaysInYear.
    repeat match goal with |- context [if ?c then _ else _] => destruct c end; auto. }
  destruct Hd as [Hd|Hd]; rewrite Hd in *; simpl; lia.
Qed.

Lemma DateFromTime_range (t : Z) : 1 <= JSDate.DateFromTime t <= 31.
Proof.
  unfold JSDate.DateFromTime, JSDate.MonthFromTime.
  pose proof (DayWithinYear_range t) as Hd.
  assert (Hl : JSDate.InLeapYear t = 0 \/ JSDate.InLeapYear t = 1).
  { unfold JSDate.InLeapYear, JSDate.LeapDays. destruct (_ =? _); auto. }
  revert Hd. generalize (JSDate.DayWithinYear t). intros d Hd.
  unfold JSDate.MonthFromDay.
  repeat match goal with
         | |- context [if ?a <? ?b then _ else _] => destruct (Z.ltb_spec a b)
         end; simpl; destruct Hl as [Hl|Hl]; rewrite Hl in *; lia.
Qed.

Lemma MakeDay_of_fields (t k : Z) :
  JSDate.MakeDay (JSDate.YearFromTime t) (JSDate.MonthFromTime t)
                 (JSDate.DateFromTime t + k)
  = JSDate.Day t + k.
Proof.
  unfold JSDate.MakeDay, JSDate.DateFromTime, JSDate.DayWithinYear, JSDate.InLeapYear.
  pose proof (MonthFromDay_range (JSDate.DayWithinYear t) (JSDate.InLeapYear t)) as Hm.
  fold (JSDate.MonthFromTime t) in Hm.
  rewrite (Z.div_small (JSDate.MonthFromTime t) 12) by lia.
  rewrite (Z.mod_small (JSDate.MonthFromTime t) 12) by lia.
  rewrite Z.add_0_r. lia.
Qed.

Lemma MakeDate_Day_shift (t k : Z) :
  JSDate.MakeDate (JSDate.Day t + k) (JSDate.TimeWithinDay t)
  = t + k * JSDate.msPerDay.
Proof.
  unfold JSDate.MakeDate, JSDate.Day, JSDate.TimeWithinDay, JSDate.msPerDay.
  pose proof (Z.div_mod t 86400000 ltac:(lia)). lia.
Qed.

Context `{HostEnv}.

(** [d.setDate(d.getDate() + k)] moves the local time by [k] whole days. *)
Lemma setDate_getDate_shift (t k : Z) :
  JSDate.setDate t (JSDate.getDate t + k)
  = JSDate.UTC (JSDate.LocalTime t + k * JSDate.msPerDay).
Proof.
  unfold JSDate.setDate, JSDate.getDate; cbv zeta.
  rewrite MakeDay_of_fields, MakeDate_Day_shift. reflexivity.
Qed.

Lemma thirtyDaysAgo_spec (now : Z) :
  Aggregate.thirtyDaysAgo now = Spec.thirty_days_before now.
Proof.
  unfold Aggregate.thirtyDaysAgo, Spec.thirty_days_before.
  replace (JSDate.getDate now - 30) with (JSDate.getDate now + (-30)) by lia.
  rewrite setDate_getDate_shift. f_equal; lia.
Qed.

Lemma filter_pushed_after_count (bound : Z) (repos : list GitHubRepo.t) :
  Z.of_nat (List.length (filter (Aggregate.pushed_after bound) repos))
  = Spec.pushed_since bound repos.
Proof.
  induction repos as [|repo rest IH]; [reflexivity|].
  cbn [filter Spec.pushed_since]. unfold Aggregate.pushed_after at 1.
  destruct (Date_parse (GitHubRepo.pushed_at repo)) as [t|]; [|exact IH].
  destruct (bound <? t); [|exact IH].
  cbn [List.length]. rewrite Nat2Z.inj_succ, IH. lia.
Qed.

End Calendar.

(** C7, as the code has it. For a fixed clock reading [now], the recency
    count is the number of repositories whose last push is strictly after
    the instant that has the local date and time of day of [now] thirty
    days earlier: [30 * 86400000] ms before [now], moved by the change of
    the local offset between the two instants, if there is one. *)
Theorem recent_activity_counts_last_30_days `{HostEnv}
    (now : Z) (repos : list GitHubRepo.t) :
  Aggregate.recentActivity repos now
  = Spec.pushed_since (Aggregate.thirtyDaysAgo now) repos
  /\ Aggregate.thirtyDaysAgo now = Spec.thirty_days_before now
  /\ Aggregate.thirtyDaysAgo now
     = now - 30 * 86400000
       + (LocalTZA now true
          - LocalTZA (now + LocalTZA now true - 30 * 86400000) false).
Proof.
  split; [apply filter_pushed_after_count|].
  split; [apply thirtyDaysAgo_spec|].
  rewrite thirtyDaysAgo_spec.
  unfold Spec.thirty_days_before, JSDate.UTC, JSDate.LocalTime, JSDate.msPerDay.
  lia.
Qed.

(** C7 as it is stated fails when the local offset changes inside the
    thirty days: on 2024-04-10T09:00:00Z in Central Europe a push made 29
    days and 23 and a half hours earlier, after the instant thirty days
    before now, is not counted, because the bound of the code is the same
    local time of day thirty days earlier, one hour later than that. *)
Lemma recent_activity_misses_push_after_offset_change :
  let now := 1712739600000 in
  let pushed := 1712739600000 - 30 * 86400000 + 1800000 in
  @Date_parse cet_host (GitHubRepo.pushed_at Sample.pushed_march_11) = Some pushed
  /\ now - 30 * 86400000 < pushed < now
  /\ @Spec.pushed_since cet_host (now - 30 * 86400000) [Sample.pushed_march_11] = 1
  /\ @Aggregate.thirtyDaysAgo cet_host now = now - 30 * 86400000 + 3600000
  /\ @Aggregate.recentActivity cet_host [Sample.pushed_march_11] now = 0
  /\ @Aggregate.recentActivity cet_host [Sample.pushed_march_11] now
     <> @Spec.pushed_since cet_host (now - 30 * 86400000) [Sample.pushed_march_11].
Proof.
  cbv zeta. split; [vm_compute; reflexivity|]. split; [lia|].
  split; [vm_compute; reflexivity|]. split; [vm_compute; reflexivity|].
  split; [vm_compute; reflexivity|]. vm_compute. discriminate.
Qed.

(** ** The language ranking *)

Section SortedFacts.
Variables A B : Type.

Lemma StronglySorted_filter_weaken (R R' : A -> A -> Prop) (f : A -> bool) (l : list A) :
  (forall a b, f a = true -> f b = true -> R a b -> R' a b) ->
  StronglySorted R l -> StronglySorted R' (filter f l).
Proof.
  intros Hw. induction 1 as [|a l Hs IH Hall]; simpl; [constructor|].
  destruct (f a) eqn:Hfa; [|exact IH].
  constructor; [exact IH|].
  rewrite Forall_forall in *. intros b Hb.
  apply filter_In in Hb. destruct Hb as [Hb Hfb]. auto.
Qed.

Lemma StronglySorted_map_in (R : A -> A -> Prop) (R' : B -> B -> Prop)
    (f : A -> B) (l : list A) :
  (forall a b, In a l -> In b l -> R a b -> R' (f a) (f b)) ->
  StronglySorted R l -> StronglySorted R' (map f l).
Proof.
  intros Hw Hs. induction Hs as [|a l Hs IH Hall]; simpl; [constructor|].
  constructor.
  - apply IH. intros x y Hx Hy. apply Hw; right; assumption.
  - rewrite Forall_forall in *. intros b Hb.
    apply in_map_iff in Hb. destruct Hb as (y & <- & Hy).
    apply Hw; [left; reflexivity|right; exact Hy|auto].
Qed.

End SortedFacts.
Arguments StronglySorted_filter_weaken {A} R R' f l.
Arguments StronglySorted_map_in {A B} R R' f l.

(** The stable sort by a descending numeric key, as the page calls it. *)
Section DescendingSort.
Variable A : Type.
Variable key : A -> Z.
(** The order the input comes in. *)
Variable P : A -> A -> Prop.

Let cmp (x y : A) : Z := key y - key x.
Let sorted_before : A -> A -> Prop := Spec.sorted_before key P.

Lemma insert_perm (x : A) (l : list A) :
  Permutation (StableSort.insert cmp x l) (x :: l).
Proof.
  induction l as [|y rest IH]; simpl; [reflexivity|].
  destruct (cmp x y <=? 0); [reflexivity|].
  rewrite IH. apply perm_swap.
Qed.

Lemma sort_perm (l : list A) : Permutation (StableSort.sort cmp l) l.
Proof.
  induction l as [|x rest IH]; simpl; [reflexivity|].
  rewrite insert_perm. constructor. exact IH.
Qed.

Lemma insert_sorted (x : A) (s : list A) :
  StronglySorted sorted_before s ->
  Forall (P x) s ->
  StronglySorted sorted_before (StableSort.insert cmp x s).
Proof.
  induction 1 as [|y rest Hs IH Hall]; intros HP; simpl.
  - constructor; constructor.
  - inversion HP as [|? ? HPy HPrest]; subst.
    unfold cmp at 1. destruct (Z.leb_spec (key y - key x) 0) as [Hle|Hgt].
    + constructor; [constructor; assumption|].
      assert (Hxy : sorted_before x y).
      { unfold sorted_before, Spec.sorted_before.
        destruct (Z.eq_dec (key x) (key y)); [right|left]; auto; lia. }
      constructor; [exact Hxy|].
      rewrite Forall_forall in *. intros z Hz.
      specialize (Hall z Hz). specialize (HPrest z Hz).
      unfold sorted_before, Spec.sorted_before in *.
      destruct (Z.eq_dec (key x) (key z)); [right; auto|left; lia].
    + constructor; [apply IH; exact HPrest|].
      apply (Permutation_Forall (Permutation_sym (insert_perm x rest))).
      constructor; [|exact Hall].
      left. lia.
Qed.

Lemma sort_sorted (l : list A) :
  StronglySorted P l -> StronglySorted sorted_before (StableSort.sort cmp l).
Proof.
  induction 1 as [|x rest Hs IH Hall]; simpl; [constructor|].
  apply insert_sorted; [exact IH|].
  apply (Permutation_Forall (Permutation_sym (sort_perm rest))). exact Hall.
Qed.

End DescendingSort.
Arguments sort_perm {A} key l.
Arguments sort_sorted {A} key P l.

Section SortCongruence.
Variable A : Type.
Variable cmp : A -> A -> Z.
Variable key : A -> Z.

Lemma insert_ext_in (x : A) (l : list A) :
  (forall y, In y l -> cmp x y = key y - key x) ->
  StableSort.insert cmp x l = StableSort.insert (fun a b => key b - key a) x l.
Proof.
  induction l as [|y rest IH]; intros Hcmp; simpl; [reflexivity|].
  rewrite (Hcmp y) by (left; reflexivity).
  destruct (key y - key x <=? 0); [reflexivity|].
  f_equal. apply IH. intros z Hz. apply Hcmp. right. exact Hz.
Qed.

(** A comparator that is the difference of the keys on the elements of
    the list sorts it as the difference does. *)
Lemma sort_ext_in (l : list A) :
  (forall x y, In x l -> In y l -> cmp x y = key y - key x) ->
  StableSort.sort cmp l = StableSort.sort (fun a b => key b - key a) l.
Proof.
  induction l as [|x rest IH]; intros Hcmp; simpl; [reflexivity|].
  fold (StableSort.sort cmp rest).
  fold (StableSort.sort (fun a b => key b - key a) rest).
  rewrite IH by (intros a b Ha Hb; apply Hcmp; right; assumption).
  apply insert_ext_in. intros y Hy.
  apply Hcmp; [left; reflexivity|right].
  exact (Permutation_in _ (sort_perm key rest) Hy).
Qed.

End SortCongruence.
Arguments sort_ext_in {A} cmp key l.

Section LanguageCount.

Lemma first_seen_In (langs : list string) (l : string) :
  In l (Spec.first_seen langs) <-> In l langs.
Proof.
  induction langs as [|x rest IH]; simpl; [tauto|].
  rewrite filter_In, IH.
  destruct (String.eqb_spec x l) as [->|Hne]; simpl; split; intros Hl; auto.
  - destruct Hl as [Hl|[Hl _]]; auto.
  - destruct Hl as [Hl|Hl]; auto.
Qed.

Lemma first_seen_NoDup (langs : list string) : NoDup (Spec.first_seen langs).
Proof.
  induction langs as [|x rest IH]; simpl; constructor.
  - rewrite filter_In. intros [_ Hx]. rewrite String.eqb_refl in Hx. discriminate.
  - apply NoDup_filter. exact IH.
Qed.

Lemma first_seen_snoc (langs : list string) (y : string) :
  Spec.first_seen (langs ++ [y])%list
  = (Spec.first_seen langs ++ (if in_dec string_dec y langs then [] else [y]))%list.
Proof.
  induction langs as [|x rest IH]; simpl; [reflexivity|].
  rewrite IH, filter_app. f_equal. f_equal.
  destruct (string_dec x y) as [->|Hne].
  - destruct (in_dec string_dec y rest); simpl; [reflexivity|].
    rewrite String.eqb_refl. reflexivity.
  - destruct (in_dec string_dec y rest); simpl; [reflexivity|].
    destruct (String.eqb_spec x y); [contradiction|reflexivity].
Qed.

Lemma occurrences_snoc (langs : list string) (y l : string) :
  Spec.occurrences (langs ++ [y])%list l
  = Spec.occurrences langs l + (if String.eqb y l then 1 else 0).
Proof.
  induction langs as [|x rest IH]; simpl; [lia|]. rewrite IH. lia.
Qed.

Lemma occurrences_nonneg (langs : list string) (l : string) :
  0 <= Spec.occurrences langs l.
Proof.
  induction langs as [|x rest IH]; simpl; [lia|].
  destruct (String.eqb x l); lia.
Qed.

Lemma occurrences_pos (langs : list string) (l : string) :
  In l langs -> 0 < Spec.occurrences langs l.
Proof.
  induction langs as [|x rest IH]; simpl; [tauto|].
  pose proof (occurrences_nonneg rest l).
  intros [->|Hin]; [rewrite String.eqb_refl; lia|].
  specialize (IH Hin). destruct (String.eqb x l); lia.
Qed.

Lemma occurrences_absent (langs : list string) (l : string) :
  ~ In l langs -> Spec.occurrences langs l = 0.
Proof.
  induction langs as [|x rest IH]; simpl; [reflexivity|].
  intros Hn. destruct (String.eqb_spec x l) as [->|Hne]; [tauto|].
  rewrite IH; tauto.
Qed.

Lemma plain_spec (k : string) :
  Obj.plain k = true ->
  Obj.array_index k = None
  /\ String.eqb k "__proto__" = false
  /\ existsb (String.eqb k) Obj.inherited_functions = false.
Proof.
  unfold Obj.plain. destruct (Obj.array_index k); [discriminate|].
  intros Hk. apply andb_true_iff in Hk. destruct Hk as [Hp Hi].
  apply negb_true_iff in Hp. apply negb_true_iff in Hi. auto.
Qed.

Lemma Obj_own_map (c : string -> Z) (ks : list string) (y : string) :
  Obj.own (map (fun l => (l, Obj.VNum (c l))) ks) y
  = if in_dec string_dec y ks then Some (Obj.VNum (c y)) else None.
Proof.
  induction ks as [|k rest IH]; simpl; [reflexivity|].
  destruct (String.eqb_spec k y) as [->|Hne].
  - destruct (string_dec y y); [reflexivity|congruence].
  - rewrite IH. destruct (string_dec k y); [contradiction|].
    destruct (in_dec string_dec y rest); reflexivity.
Qed.

Lemma Obj_get_map (c : string -> Z) (ks : list string) (y : string) :
  Obj.plain y = true ->
  Obj.get (map (fun l => (l, Obj.VNum (c l))) ks) y
  = if in_dec string_dec y ks then Obj.Own (Obj.VNum (c y)) else Obj.Undefined.
Proof.
  intros Hy. destruct (plain_spec y Hy) as (_ & Hp & Hi).
  unfold Obj.get. rewrite Obj_own_map.
  destruct (in_dec string_dec y ks); [reflexivity|].
  rewrite Hp, Hi. reflexivity.
Qed.

Lemma Obj_set_map_present (c : string -> Z) (ks : list string) (y : string)
    (v : Obj.value) :
  Obj.plain y = true -> NoDup ks -> In y ks ->
  Obj.set (map (fun l => (l, Obj.VNum (c l))) ks) y v
  = map (fun l => (l, if String.eqb l y then v else Obj.VNum (c l))) ks.
Proof.
  intros Hy. destruct (plain_spec y Hy) as (_ & Hp & _).
  unfold Obj.set. rewrite Hp.
  induction 1 as [|k rest Hk Hnd IH]; simpl; [tauto|].
  intros Hin. destruct (String.eqb_spec k y) as [->|Hne].
  - f_equal. apply map_ext_in. intros l Hl.
    destruct (String.eqb_spec l y) as [->|]; [contradiction|reflexivity].
  - f_equal. apply IH. destruct Hin; [contradiction|assumption].
Qed.

Lemma Obj_set_map_absent (c : string -> Z) (ks : list string) (y : string)
    (v : Obj.value) :
  Obj.plain y = true -> ~ In y ks ->
  Obj.set (map (fun l => (l, Obj.VNum (c l))) ks) y v
  = (map (fun l => (l, Obj.VNum (c l))) ks ++ [(y, v)])%list.
Proof.
  intros Hy. destruct (plain_spec y Hy) as (_ & Hp & _).
  unfold Obj.set. rewrite Hp.
  induction ks as [|k rest IH]; simpl; [reflexivity|].
  intros Hn. destruct (String.eqb_spec k y) as [->|Hne]; [tauto|].
  f_equal. apply IH. tauto.
Qed.

Lemma Obj_entries_plain (v : string -> Obj.value) (ks : list string) :
  Forall (fun l => Obj.plain l = true) ks ->
  Obj.entries (map (fun l => (l, v l)) ks) = map (fun l => (l, v l)) ks.
Proof.
  intros Hks. unfold Obj.entries.
  assert (Hidx : filter Obj.is_index (map (fun l => (l, v l)) ks) = []
                 /\ filter (fun e => negb (Obj.is_index e)) (map (fun l => (l, v l)) ks)
                    = map (fun l => (l, v l)) ks).
  { induction Hks as [|k rest Hk _ [IH1 IH2]]; [split; reflexivity|].
    destruct (plain_spec k Hk) as (Hi & _ & _).
    assert (Hk' : Obj.is_index (k, v k) = false)
      by (unfold Obj.is_index; cbn [fst]; rewrite Hi; reflexivity).
    simpl. rewrite Hk'. simpl. rewrite IH2. split; [exact IH1|reflexivity]. }
  destruct Hidx as [-> ->]. reflexivity.
Qed.

(** The dictionary the page builds holds, for each language in the order
    it is first met, the number of repositories that have it, as long as
    the names are plain keys. *)
Lemma langCount_entries (langs : list string) :
  Forall (fun l => Obj.plain l = true) langs ->
  JS.reduce (fun acc lang =>
               Obj.set acc lang (Obj.or_zero_plus_one (Obj.get acc lang))) [] langs
  = map (fun l => (l, Obj.VNum (Spec.occurrences langs l))) (Spec.first_seen langs).
Proof.
  unfold JS.reduce.
  induction langs as [|y langs IH] using rev_ind; intros Hplain; [reflexivity|].
  apply Forall_app in Hplain. destruct Hplain as [Hlangs Hy].
  inversion Hy as [|? ? Hyp _]; subst.
  rewrite fold_left_app, IH by exact Hlangs. simpl.
  rewrite Obj_get_map, first_seen_snoc by exact Hyp.
  destruct (in_dec string_dec y (Spec.first_seen langs)) as [Hin|Hn];
    destruct (in_dec string_dec y langs) as [Hin'|Hn'];
    try (rewrite first_seen_In in *; contradiction).
  - pose proof (occurrences_pos langs y Hin') as Hpos.
    unfold Obj.or_zero_plus_one.
    destruct (Z.eqb_spec (Spec.occurrences langs y) 0); [lia|].
    rewrite Obj_set_map_present by auto using first_seen_NoDup.
    rewrite app_nil_r. apply map_ext. intros l.
    rewrite occurrences_snoc, (String.eqb_sym y l).
    destruct (String.eqb_spec l y) as [->|]; [reflexivity|].
    do 2 f_equal. lia.
  - unfold Obj.or_zero_plus_one. rewrite Obj_set_map_absent by assumption.
    rewrite map_app. simpl. f_equal.
    + apply map_ext_in. intros l Hl. rewrite occurrences_snoc.
      destruct (String.eqb_spec y l) as [->|]; [contradiction|].
      do 2 f_equal. lia.
    + rewrite occurrences_snoc, String.eqb_refl, (occurrences_absent langs y) by exact Hn'.
      reflexivity.
Qed.

Lemma non_null_primary (repos : list GitHubRepo.t) :
  Aggregate.languages repos = Spec.primary_languages repos.
Proof.
  unfold Aggregate.languages, Spec.primary_languages.
  induction repos as [|repo rest IH]; simpl; [reflexivity|].
  destruct (GitHubRepo.language repo); simpl; rewrite IH; reflexivity.
Qed.

Lemma primary_languages_In (repos : list GitHubRepo.t) (l : string) :
  In l (Spec.primary_languages repos)
  <-> exists repo, In repo repos /\ GitHubRepo.language repo = Some l.
Proof.
  unfold Spec.primary_languages. rewrite in_flat_map.
  split; intros (repo & Hin & Hl); exists repo; split; auto.
  - destruct (GitHubRepo.language repo) as [l'|]; simpl in Hl; [|tauto].
    destruct Hl as [->|[]]. reflexivity.
  - rewrite Hl. left. reflexivity.
Qed.

Lemma first_pos_sorted (langs : list string) :
  StronglySorted (fun a b => (Spec.first_pos langs a < Spec.first_pos langs b)%nat)
                 (Spec.first_seen langs).
Proof.
  induction langs as [|x rest IH]; simpl; constructor.
  - apply (StronglySorted_filter_weaken
             (fun a b => (Spec.first_pos rest a < Spec.first_pos rest b)%nat));
      [|exact IH].
    intros a b Ha Hb Hab. destruct (String.eqb x a), (String.eqb x b); try discriminate.
    lia.
  - rewrite Forall_forall. intros b Hb. apply filter_In in Hb. destruct Hb as [_ Hb].
    rewrite String.eqb_refl. destruct (String.eqb x b); [discriminate|lia].
Qed.

End LanguageCount.

Section Ranking.
Variable repos : list GitHubRepo.t.

Let langs : list string := Spec.primary_languages repos.
Let counted (l : string) : string * Obj.value := (l, Obj.VNum (Spec.occurrences langs l)).
Let key (e : string * Obj.value) : Z := Props.count_of (snd e).

Hypothesis Hplain : Forall (fun l => Obj.plain l = true) langs.

Lemma first_seen_plain : Forall (fun l => Obj.plain l = true) (Spec.first_seen langs).
Proof.
  rewrite Forall_forall in *. intros l Hl. apply Hplain, first_seen_In, Hl.
Qed.

Lemma langCount_value : Aggregate.langCount repos = map counted (Spec.first_seen langs).
Proof.
  unfold Aggregate.langCount. rewrite non_null_primary.
  apply langCount_entries. exact Hplain.
Qed.

Lemma langCount_spec :
  Obj.entries (Aggregate.langCount repos) = map counted (Spec.first_seen langs).
Proof.
  rewrite langCount_value. apply Obj_entries_plain, first_seen_plain.
Qed.

Lemma sortedEntries_by_count :
  Aggregate.sortedEntries repos
  = StableSort.sort (fun a b => key b - key a) (map counted (Spec.first_seen langs)).
Proof.
  unfold Aggregate.sortedEntries. rewrite langCount_spec.
  apply sort_ext_in. intros x y Hx Hy.
  apply in_map_iff in Hx. destruct Hx as (a & <- & _).
  apply in_map_iff in Hy. destruct Hy as (b & <- & _).
  reflexivity.
Qed.

(** All the languages, in the order the sort leaves them. *)
Let ranked_languages : list string := map fst (Aggregate.sortedEntries repos).

Lemma ranked_perm : Permutation ranked_languages (Spec.first_seen langs).
Proof.
  unfold ranked_languages. rewrite sortedEntries_by_count.
  rewrite (sort_perm key), map_map. simpl.
  rewrite map_id. reflexivity.
Qed.

Lemma ranked_sorted : StronglySorted (Spec.ranks_before langs) ranked_languages.
Proof.
  unfold ranked_languages. rewrite sortedEntries_by_count.
  set (P := fun a b : string * Obj.value =>
              (Spec.first_pos langs (fst a) < Spec.first_pos langs (fst b))%nat).
  apply (StronglySorted_map_in (Spec.sorted_before key P)).
  - intros a b Ha Hb Hab.
    assert (Hkey : forall e, In e (StableSort.sort (fun x y => key y - key x)
                                     (map counted (Spec.first_seen langs))) ->
                             key e = Spec.occurrences langs (fst e)).
    { intros e He.
      apply (Permutation_in _ (sort_perm key _)) in He.
      apply in_map_iff in He. destruct He as (l & <- & _). reflexivity. }
    unfold Spec.ranks_before. rewrite <- (Hkey a Ha), <- (Hkey b Hb). exact Hab.
  - apply sort_sorted.
    apply (StronglySorted_map_in
             (fun a b => (Spec.first_pos langs a < Spec.first_pos langs b)%nat));
      [|apply first_pos_sorted].
    intros a b _ _ Hab. exact Hab.
Qed.

Lemma ranked_In (l : string) :
  In l ranked_languages
  <-> exists repo, In repo repos /\ GitHubRepo.language repo = Some l.
Proof.
  split.
  - intros Hl. apply primary_languages_In, first_seen_In.
    exact (Permutation_in _ ranked_perm Hl).
  - intros Hr. apply primary_languages_In, first_seen_In in Hr.
    exact (Permutation_in _ (Permutation_sym ranked_perm) Hr).
Qed.

End Ranking.

Lemma topLanguagesList_ranked (repos : list GitHubRepo.t) :
  Aggregate.topLanguagesList repos = firstn 3 (map fst (Aggregate.sortedEntries repos)).
Proof.
  unfold Aggregate.topLanguagesList, JS.slice0.
  symmetry. apply firstn_map.
Qed.

(** C4, as the code has it. When the language names are plain keys of a
    dictionary (none is an array index, [__proto__] or the name of an
    inherited method), the page counts the primary languages of the
    repositories that have one, orders the distinct languages by descending
    count with equal counts kept in the order they were first met, keeps
    the first three and joins them with a comma: the result names at most
    three languages, each of them the primary language of some
    repository. *)
Theorem top_languages_ranking (repos : list GitHubRepo.t)
    (Hplain : Forall (fun l => Obj.plain l = true) (Spec.primary_languages repos)) :
  let langs := Spec.primary_languages repos in
  Obj.entries (Aggregate.langCount repos)
  = map (fun l => (l, Obj.VNum (Spec.occurrences langs l))) (Spec.first_seen langs)
  /\ exists ranked,
       Permutation ranked (Spec.first_seen langs)
       /\ StronglySorted (Spec.ranks_before langs) ranked
       /\ Aggregate.topLanguagesList repos = firstn 3 ranked
       /\ Aggregate.topLanguages repos = JS.join ", " (firstn 3 ranked)
       /\ (List.length (Aggregate.topLanguagesList repos) <= 3)%nat
       /\ Forall (fun l => exists repo,
                    In repo repos /\ GitHubRepo.language repo = Some l)
                 (Aggregate.topLanguagesList repos).
Proof.
  intros langs. split; [apply langCount_spec; exact Hplain|].
  exists (map fst (Aggregate.sortedEntries repos)).
  split; [apply ranked_perm; exact Hplain|].
  split; [apply ranked_sorted; exact Hplain|].
  split; [apply topLanguagesList_ranked|].
  split; [unfold Aggregate.topLanguages; rewrite topLanguagesList_ranked; reflexivity|].
  split.
  - rewrite topLanguagesList_ranked. apply firstn_le_length.
  - rewrite topLanguagesList_ranked, Forall_forall. intros l Hl.
    apply (ranked_In repos Hplain). revert Hl.
    rewrite <- (firstn_skipn 3 (map fst (Aggregate.sortedEntries repos))) at 2.
    intros Hl. apply in_or_app. left. exact Hl.
Qed.

Lemma top_languages_ranking_witness :
  Forall (fun l => Obj.plain l = true) (Spec.primary_languages Sample.repos)
  /\ Aggregate.topLanguages Sample.repos = "Rust, Go, C".
Proof.
  assert (Hplain : Forall (fun l => Obj.plain l = true)
                          (Spec.primary_languages Sample.repos))
    by (repeat constructor).
  split; [exact Hplain|].
  destruct (top_languages_ranking Sample.repos Hplain) as [_ (ranked & _ & _ & _ & _ & _)].
  vm_compute. reflexivity.
Defined.

(** C4 as it is stated fails for a language named like an array index:
    with the languages Go and 7, one repository each, the dictionary lists
    7 first and the page prints "7, Go", although Go was met first. *)
Lemma index_named_language_is_listed_first :
  let repos := [Sample.written_in "Go"; Sample.written_in "7"] in
  let langs := Spec.primary_languages repos in
  Aggregate.topLanguagesList repos = ["7"; "Go"]
  /\ Aggregate.topLanguages repos = "7, Go"
  /\ Spec.ranks_before langs "Go" "7"
  /\ ~ Spec.ranks_before langs "7" "Go"
  /\ ~ StronglySorted (Spec.ranks_before langs) (Aggregate.topLanguagesList repos).
Proof.
  cbv zeta. split; [vm_compute; reflexivity|]. split; [vm_compute; reflexivity|].
  assert (Hno : ~ Spec.ranks_before
                    (Spec.primary_languages [Sample.written_in "Go"; Sample.written_in "7"])
                    "7" "Go").
  { unfold Spec.ranks_before. vm_compute. intros [Hx|[_ Hx]]; [discriminate Hx|].
    apply Nat.lt_irrefl with 0%nat. apply Nat.lt_trans with 1%nat; [constructor|exact Hx]. }
  split; [right; split; [reflexivity|vm_compute; constructor]|].
  split; [exact Hno|].
  intros Hs.
  replace (Aggregate.topLanguagesList [Sample.written_in "Go"; Sample.written_in "7"])
    with ["7"; "Go"] in Hs by (vm_compute; reflexivity).
  inversion Hs as [|? ? _ Hall]; subst.
  inversion Hall as [|? ? Hx _]; subst. exact (Hno Hx).
Qed.

(** C10. When no repository has a primary language (in particular when
    there is no repository), the top-languages value is the empty string
    and the receipt prints NONE in its place. *)
Theorem no_language_renders_NONE `{HostEnv}
    (now r1 r2 r3 : Z) (user : GitHubUser.t) (repos : list GitHubRepo.t)
    (Hnone : forall repo, In repo repos -> GitHubRepo.language repo = None) :
  Aggregate.topLanguages repos = ""
  /\ Part001.topLanguages (stats (Part001.aggregate now r1 r2 r3 user repos)) = ""
  /\ Part001.topLanguagesText (Part001.aggregate now r1 r2 r3 user repos) = "NONE".
Proof.
  assert (Hlangs : Aggregate.languages repos = []).
  { unfold Aggregate.languages.
    induction repos as [|repo rest IH]; [reflexivity|].
    simpl. rewrite (Hnone repo) by (left; reflexivity).
    apply IH. intros r Hr. apply Hnone. right. exact Hr. }
  assert (Htop : Aggregate.topLanguages repos = "").
  { unfold Aggregate.topLanguages, Aggregate.topLanguagesList,
      Aggregate.sortedEntries, Aggregate.langCount.
    rewrite Hlangs. reflexivity. }
  unfold Part001.topLanguagesText. cbn [Part001.aggregate stats Part001.topLanguages].
  rewrite Htop. repeat split.
Qed.

Lemma no_language_renders_NONE_witness :
  (forall repo, In repo [Sample.gamma] -> GitHubRepo.language repo = None)
  /\ @Part001.topLanguagesText
       (@Part001.aggregate utc_host Sample.now 1 2 3 Sample.octocat [Sample.gamma])
     = "NONE".
Proof.
  assert (Hnone : forall repo, In repo [Sample.gamma] -> GitHubRepo.language repo = None).
  { intros repo [<-|[]]. reflexivity. }
  split; [exact Hnone|].
  exact (proj2 (proj2 (@no_language_renders_NONE utc_host Sample.now 1 2 3
                         Sample.octocat [Sample.gamma] Hnone))).
Defined.

(** ** Lookups: failure, success, and the name of the download *)

Section Lookup.
Variable Stats : Type.
Variable lookup : string -> Exn + Result Stats.
Variable st : PageState Stats.
Hypothesis Hname : username st <> "".

Lemma handleSubmit_failure (e : Exn) :
  lookup (username st) = inl e ->
  handleSubmit lookup st = mkPageState (username st) (data st) false "User not found".
Proof.
  intros He. unfold handleSubmit.
  destruct (String.eqb_spec (username st) ""); [contradiction|].
  rewrite He. reflexivity.
Qed.

Lemma handleSubmit_success (d : Result Stats) :
  lookup (username st) = inr d ->
  handleSubmit lookup st = mkPageState (username st) (Some d) false "".
Proof.
  intros Hd. unfold handleSubmit.
  destruct (String.eqb_spec (username st) ""); [contradiction|].
  rewrite Hd. reflexivity.
Qed.

End Lookup.
Arguments handleSubmit_failure {Stats} lookup st Hname e.
Arguments handleSubmit_success {Stats} lookup st Hname d.

Lemma download_name_login (l : string) :
  l <> "" -> download_name (Some l) = "github-receipt-" ++ l ++ ".png".
Proof.
  unfold download_name. destruct l; [congruence|reflexivity].
Qed.

(** C9. After a successful lookup whose result carries the handle [L], the
    receipt is there to export and the downloaded image is named
    [github-receipt-L.png]; the literal [user] stands in only when the
    result holds no handle (an empty one). This holds for the handlers of
    every revision, whatever the fields of [stats] are. *)
Theorem download_is_named_after_login (Stats : Type)
    (lookup : string -> Exn + Result Stats) (st : PageState Stats)
    (d : Result Stats) (L : string)
    (Hname : username st <> "")
    (Hlookup : lookup (username st) = inr d)
    (Hlogin : GitHubUser.login (userData d) = L) :
  data (handleSubmit lookup st) = Some d
  /\ handleDownload (handleSubmit lookup st)
     = Some (if String.eqb L "" then "github-receipt-user.png"
             else "github-receipt-" ++ L ++ ".png").
Proof.
  rewrite (handleSubmit_success lookup st Hname d Hlookup).
  split; [reflexivity|].
  unfold handleDownload, receiptRef_current. cbn [data option_map].
  rewrite Hlogin.
  destruct (String.eqb_spec L "") as [->|Hne]; [reflexivity|].
  rewrite download_name_login by exact Hne. reflexivity.
Qed.

Lemma download_is_named_after_login_witness :
  username (Sample.fresh (Stats := Part000.Stats) "octocat") <> ""
  /\ @Part000.getGitHubStats utc_host Sample.user_ok Sample.repos_ok
     = inr (@Part000.aggregate utc_host Sample.octocat Sample.repos)
  /\ GitHubUser.login Sample.octocat = "octocat"
  /\ handleDownload
    (handleSubmit (fun _ => @Part000.getGitHubStats utc_host Sample.user_ok Sample.repos_ok)
                  (Sample.fresh "octocat"))
  = Some "github-receipt-octocat.png".
Proof.
  assert (Hname : username (Sample.fresh (Stats := Part000.Stats) "octocat") <> "")
    by (simpl; discriminate).
  split; [exact Hname|]. split; [reflexivity|]. split; [reflexivity|].
  exact (proj2 (download_is_named_after_login Part000.Stats
                  (fun _ => @Part000.getGitHubStats utc_host Sample.user_ok Sample.repos_ok)
                  (Sample.fresh "octocat")
                  (@Part000.aggregate utc_host Sample.octocat Sample.repos)
                  "octocat" Hname eq_refl eq_refl)).
Defined.

(** What makes a lookup of the first revision succeed: both fetches answer,
    the user response is a success and both bodies can be read as expected.
    The status of the repository response plays no part. *)
Lemma getGitHubStats_success_iff `{HostEnv}
    (userFetch : Settled (Response GitHubUser.t))
    (reposFetch : Settled (Response ReposJson)) (d : Result Part000.Stats) :
  Part000.getGitHubStats userFetch reposFetch = inr d
  <-> exists user okr repos,
        userFetch = Fulfilled (mkResponse true (Some user))
        /\ reposFetch = Fulfilled (mkResponse okr (Some (ReposArray repos)))
        /\ d = Part000.aggregate user repos.
Proof.
  unfold Part000.getGitHubStats, Promise_all. split.
  - destruct userFetch as [|[oku [user|]]], reposFetch as [|[okr [[repos|]|]]];
      try discriminate; destruct oku; simpl; try discriminate.
    intros [= <-]. exists user, okr, repos. auto.
  - intros (user & okr & repos & -> & -> & ->). reflexivity.
Qed.

(** A rejected fetch, a user response that is not a success, and a body
    that is not JSON or not an array all end in the one error message, and
    leave the receipt shown before as it was. *)
Lemma lookup_failure_is_user_not_found `{HostEnv}
    (userFetch : Settled (Response GitHubUser.t))
    (reposFetch : Settled (Response ReposJson))
    (st : PageState Part000.Stats) :
  username st <> "" ->
  userFetch = Rejected
  \/ reposFetch = Rejected
  \/ (exists r, userFetch = Fulfilled r /\ (ok r = false \/ json r = None))
  \/ (exists r, reposFetch = Fulfilled r
                /\ (json r = None \/ json r = Some NotAnArray)) ->
  handleSubmit (fun _ => Part000.getGitHubStats userFetch reposFetch) st
  = mkPageState (username st) (data st) false "User not found".
Proof.
  intros Hname Hfail.
  assert (Hexn : exists e, Part000.getGitHubStats userFetch reposFetch = inl e).
  { unfold Part000.getGitHubStats, Promise_all.
    destruct Hfail as [->|[->|[(r & -> & Hr)|(r & -> & Hr)]]].
    - eauto.
    - destruct userFetch; eauto.
    - destruct reposFetch; [eauto|].
      destruct Hr as [Hr|Hr]; rewrite Hr; simpl; [eauto|].
      destruct (negb (ok r)); eauto.
    - destruct userFetch as [|u]; [eauto|].
      destruct (negb (ok u)); [eauto|].
      destruct (json u); [|eauto].
      destruct Hr as [Hr|Hr]; rewrite Hr; eauto. }
  destruct Hexn as [e He].
  exact (handleSubmit_failure _ st Hname e He).
Qed.

(** C5, at the input where it fails. The user fetch succeeds and the
    repository fetch answers with an error status and a JSON array: only
    [userResponse.ok] is tested, so the lookup succeeds, and the page shows
    a receipt computed from the body of the failed fetch, with no error. *)
Theorem failed_repos_fetch_is_aggregated `{HostEnv}
    (user : GitHubUser.t) (repos : list GitHubRepo.t) :
  let userFetch := Fulfilled (mkResponse true (Some user)) in
  let reposFetch := Fulfilled (mkResponse false (Some (ReposArray repos))) in
  Part000.getGitHubStats userFetch reposFetch = inr (Part000.aggregate user repos)
  /\ handleSubmit (fun _ => Part000.getGitHubStats userFetch reposFetch)
                  (Sample.fresh "octocat")
     = mkPageState "octocat" (Some (Part000.aggregate user repos)) false "".
Proof. split; reflexivity. Qed.

(** ** The decorative fields *)

Section Decorations.

(** The rounded product of a draw and a count of at most 2^53 stays below
    the count times 2^53: rounding never lifts it to the next multiple. *)
Lemma round53_product_bound (r n : Z) :
  0 <= r < 2 ^ 53 -> 0 < n <= 2 ^ 53 ->
  0 <= JSNum.round53 (r * n) < n * 2 ^ 53.
Proof.
  change (2 ^ 53) with 9007199254740992.
  intros Hr Hn.
  assert (Hx : 0 <= r * n <= n * 9007199254740992 - n) by nia.
  revert Hx. generalize (r * n). intros x Hx.
  unfold JSNum.round53. rewrite Z.abs_eq by lia.
  cbv zeta. destruct (Z.leb_spec (Z.log2 x - 52) 0) as [_|Hs]; [lia|].
  assert (Hpos : 0 < x).
  { destruct (Z.eq_dec x 0) as [->|]; [simpl in Hs; lia|lia]. }
  destruct (Z.log2_spec x Hpos) as [Hlo Hhi].
  assert (Hs53 : Z.log2 x - 52 <= 53).
  { assert (Z.log2 x < 106); [|lia].
    apply Z.log2_lt_pow2; [exact Hpos|].
    change (2 ^ 106) with (9007199254740992 * 9007199254740992). nia. }
  remember (Z.log2 x - 52) as s eqn:Hsdef.
  replace (Z.log2 x) with (52 + s) in Hlo by lia. clear Hhi Hsdef.
  rewrite Z.pow_add_r in Hlo by lia.
  rewrite Z.shiftr_div_pow2, !Z.shiftl_mul_pow2, Z.sgn_pos by lia.
  assert (HP : 2 ^ s = 2 * 2 ^ (s - 1)).
  { replace s with (1 + (s - 1)) at 1 by lia. rewrite Z.pow_add_r by lia. reflexivity. }
  assert (HT : 9007199254740992 = 2 ^ s * 2 ^ (53 - s)).
  { rewrite <- Z.pow_add_r by lia. replace (s + (53 - s)) with 53 by lia. reflexivity. }
  assert (Hh : 0 < 2 ^ (s - 1)) by (apply Z.pow_pos_nonneg; lia).
  assert (Ht : 0 < 2 ^ (53 - s)) by (apply Z.pow_pos_nonneg; lia).
  revert HP HT Hh Ht Hlo.
  generalize (2 ^ (s - 1)) (2 ^ (53 - s)) (2 ^ s). intros h t p HP HT Hh Ht Hlo.
  assert (Hq : p * (x / p) <= x < p * (x / p + 1)).
  { pose proof (Z.mul_div_le x p). pose proof (Z.mul_succ_div_gt x p). lia. }
  revert Hq. generalize (x / p). intros q Hq.
  assert (Hq0 : 0 <= q) by nia.
  assert (HqN : q < n * t) by nia.
  change (2 ^ 52) with 4503599627370496 in *.
  destruct ((1 * h <? x - q * p) || ((x - q * p =? 1 * h) && Z.odd q)) eqn:Hup.
  - assert (Hrem : h <= x - q * p).
    { apply orb_true_iff in Hup. destruct Hup as [Hup|Hup].
      - apply Z.ltb_lt in Hup. lia.
      - apply andb_true_iff in Hup. destruct Hup as [Hup _]. apply Z.eqb_eq in Hup. lia. }
    split; [nia|].
    destruct (Z.eq_dec (q + 1) (n * t)) as [Heq|Hne]; [|nia].
    exfalso.
    assert (n * 9007199254740992 = (q + 1) * p) by (rewrite Heq; nia).
    assert (n <= h) by nia.
    nia.
  - split; nia.
Qed.

Lemma floor_mul_range (r n : Z) :
  JSRandom.valid r -> 0 < n -> n <= JSRandom.scale ->
  0 <= JSRandom.floor_mul r n < n.
Proof.
  unfold JSRandom.valid, JSRandom.floor_mul, JSRandom.scale. intros Hr Hn Hmax.
  pose proof (round53_product_bound r n Hr (conj Hn Hmax)) as Hb.
  split.
  - apply Z.div_pos; [lia|reflexivity].
  - apply Z.div_lt_upper_bound; [reflexivity|lia].
Qed.

Lemma get_in_range (l : list string) (i : Z) :
  0 <= i < Z.of_nat (List.length l) ->
  exists x, JS.get l i = Some x /\ In x l.
Proof.
  intros Hi. unfold JS.get.
  destruct (Z.ltb_spec i 0); [lia|].
  destruct (nth_error l (Z.to_nat i)) as [x|] eqn:Hx.
  - exists x. split; [reflexivity|]. eapply nth_error_In; eassumption.
  - apply nth_error_None in Hx. lia.
Qed.

Lemma substring0_length (m : nat) (s : string) :
  (String.length (String.substring 0 m s) <= m)%nat.
Proof.
  revert s. induction m as [|m IH]; intros [|c s]; simpl; try lia.
  specialize (IH s). lia.
Qed.

Lemma toUpperCase_length (s : string) :
  String.length (JSString.toUpperCase s) = String.length s.
Proof. induction s as [|c s IH]; simpl; congruence. Qed.

Lemma substring_length (a b : nat) (s : string) :
  (String.length (String.substring a b s) <= b)%nat.
Proof.
  revert b s. induction a as [|a IH]; intros b [|c s].
  - destruct b; simpl; lia.
  - apply substring0_length.
  - destruct b; simpl; lia.
  - simpl. apply IH.
Qed.

(** Every coupon code has at most six characters, whatever the draw. *)
Lemma couponCode_length (r : Z) :
  (String.length (Part001.makeCouponCode r) <= 6)%nat.
Proof.
  unfold Part001.makeCouponCode, JSString.substring.
  rewrite toUpperCase_length. apply (substring_length 2 (8 - 2)).
Qed.

Lemma round53_representable (x : Z) :
  0 <= x -> 0 <= JSNum.round53 x /\ JSNum.representable (JSNum.round53 x).
Proof.
  intros Hx. unfold JSNum.round53. rewrite Z.abs_eq by lia. cbv zeta.
  change (2 ^ 53) with 9007199254740992.
  destruct (Z.leb_spec (Z.log2 x - 52) 0) as [Hs|Hs].
  - split; [exact Hx|]. exists x, 0. change (2 ^ 53) with 9007199254740992.
    split; [|split; [lia|simpl; lia]].
    destruct (Z.eq_dec x 0) as [->|Hne]; [lia|].
    assert (x < 2 ^ 53) by (apply Z.log2_lt_pow2; lia).
    change (2 ^ 53) with 9007199254740992 in *. lia.
  - assert (Hpos : 0 < x).
    { destruct (Z.eq_dec x 0) as [->|]; [simpl in Hs; lia|lia]. }
    destruct (Z.log2_spec x Hpos) as [_ Hhi].
    remember (Z.log2 x - 52) as s eqn:Hsdef.
    replace (Z.succ (Z.log2 x)) with (53 + s) in Hhi by lia.
    rewrite Z.pow_add_r in Hhi by lia. change (2 ^ 53) with 9007199254740992 in Hhi.
    rewrite Z.shiftr_div_pow2, !Z.shiftl_mul_pow2, Z.sgn_pos by lia.
    assert (Hp : 0 < 2 ^ s) by (apply Z.pow_pos_nonneg; lia).
    match goal with
    | |- context [if ?c then _ else _] => destruct c
    end.
    + assert (Hq : 2 ^ s * (x / 2 ^ s) <= x) by (apply Z.mul_div_le; exact Hp).
      assert (Hq0 : 0 <= x / 2 ^ s) by (apply Z.div_pos; lia).
      split; [nia|]. exists (x / 2 ^ s + 1), s.
      change (2 ^ 53) with 9007199254740992.
      split; [|split; [lia|ring]]. nia.
    + assert (Hq : 2 ^ s * (x / 2 ^ s) <= x) by (apply Z.mul_div_le; exact Hp).
      assert (Hq0 : 0 <= x / 2 ^ s) by (apply Z.div_pos; lia).
      split; [nia|]. exists (x / 2 ^ s), s.
      change (2 ^ 53) with 9007199254740992.
      split; [|split; [lia|ring]]. nia.
Qed.

Lemma representable_below_one (f : Z) :
  JSNum.representable f -> f < 2 ^ 1074 -> f <= 2 ^ 1074 - 2 ^ 1021.
Proof.
  intros (m & e & Hm & He & ->).
  replace (2 ^ 1074) with (2 ^ 53 * 2 ^ 1021) by (rewrite <- Z.pow_add_r by lia; reflexivity).
  change (2 ^ 53) with 9007199254740992 in *.
  destruct (Z.le_gt_cases 1021 e) as [Hbig|Hsmall].
  - replace e with ((e - 1021) + 1021) by lia. rewrite Z.pow_add_r by lia.
    assert (Hu : 0 < 2 ^ 1021) by (apply Z.pow_pos_nonneg; lia).
    assert (Hk : 0 < 2 ^ (e - 1021)) by (apply Z.pow_pos_nonneg; lia).
    revert Hu Hk. generalize (2 ^ 1021) (2 ^ (e - 1021)). intros u k Hu Hk Hlt.
    assert (m * k < 9007199254740992) by nia. nia.
  - intros _.
    assert (Hle : 2 ^ e <= 2 ^ 1020) by (apply Z.pow_le_mono_r; lia).
    replace (2 ^ 1021) with (2 * 2 ^ 1020) by (rewrite <- Z.pow_succ_r by lia; reflexivity).
    assert (Hv : 0 < 2 ^ e) by (apply Z.pow_pos_nonneg; lia).
    revert Hle Hv. generalize (2 ^ 1020) (2 ^ e). intros v w Hle Hv. nia.
Qed.

Lemma round53_times_36 (f : Z) :
  0 <= f <= 2 ^ 1074 - 2 ^ 1021 -> JSNum.round53 (f * 36) < 36 * 2 ^ 1074.
Proof.
  replace (2 ^ 1074) with (2 ^ 53 * 2 ^ 1021) by (rewrite <- Z.pow_add_r by lia; reflexivity).
  change (2 ^ 53) with 9007199254740992.
  assert (Hu : 0 < 2 ^ 1021) by (apply Z.pow_pos_nonneg; lia).
  intros Hf.
  assert (Hx : 0 <= f * 36 <= 36 * (9007199254740992 * 2 ^ 1021) - 36 * 2 ^ 1021) by lia.
  revert Hx. generalize (f * 36). clear f Hf. intros x Hx.
  unfold JSNum.round53. rewrite Z.abs_eq by lia. cbv zeta.
  destruct (Z.leb_spec (Z.log2 x - 52) 0) as [_|Hs]; [lia|].
  assert (Hpos : 0 < x).
  { destruct (Z.eq_dec x 0) as [->|]; [simpl in Hs; lia|lia]. }
  destruct (Z.log2_spec x Hpos) as [_ Hhi].
  assert (HL : Z.log2 x < 1080).
  { apply Z.log2_lt_pow2; [exact Hpos|].
    replace (2 ^ 1080) with (2 ^ 59 * 2 ^ 1021) by (rewrite <- Z.pow_add_r by lia; reflexivity).
    change (2 ^ 59) with 576460752303423488. lia. }
  remember (Z.log2 x - 52) as s eqn:Hsdef.
  replace (Z.succ (Z.log2 x)) with (53 + s) in Hhi by lia.
  rewrite Z.pow_add_r in Hhi by lia. change (2 ^ 53) with 9007199254740992 in Hhi.
  assert (Hcase : 9007199254740992 * 2 ^ s <= 288230376151711744 * 2 ^ 1021
                  \/ (2 ^ s = 64 * 2 ^ 1021 /\ 2 ^ (s - 1) = 32 * 2 ^ 1021)).
  { destruct (Z.eq_dec s 1027) as [->|Hne].
    - right. split.
      + replace 1027 with (6 + 1021) by lia. rewrite Z.pow_add_r by lia. reflexivity.
      + replace (1027 - 1) with (5 + 1021) by lia. rewrite Z.pow_add_r by lia. reflexivity.
    - left. change 9007199254740992 with (2 ^ 53). change 288230376151711744 with (2 ^ 58).
      rewrite <- !Z.pow_add_r by lia. apply Z.pow_le_mono_r; lia. }
  rewrite Z.shiftr_div_pow2, !Z.shiftl_mul_pow2, Z.sgn_pos by lia.
  assert (Hp : 0 < 2 ^ s) by (apply Z.pow_pos_nonneg; lia).
  assert (Hq : 2 ^ s * (x / 2 ^ s) <= x < 2 ^ s * (x / 2 ^ s + 1)).
  { pose proof (Z.mul_div_le x (2 ^ s) Hp).
    pose proof (Z.mul_succ_div_gt x (2 ^ s) Hp). lia. }
  revert Hq. generalize (x / 2 ^ s). intros q Hq.
  assert (Hq0 : 0 <= q) by nia.
  clear Hsdef HL Hs.
  revert Hu Hx Hhi Hcase Hp Hq.
  generalize (2 ^ 1021) (2 ^ s) (2 ^ (s - 1)). intros u p h Hu Hx Hhi Hcase Hp Hq.
  destruct ((1 * h <? x - q * p) || ((x - q * p =? 1 * h) && Z.odd q)) eqn:Hup.
  - assert (Hrem : h <= x - q * p).
    { apply orb_true_iff in Hup. destruct Hup as [Hup|Hup].
      - apply Z.ltb_lt in Hup. lia.
      - apply andb_true_iff in Hup. destruct Hup as [Hup _]. apply Z.eqb_eq in Hup. lia. }
    destruct Hcase as [Hsmall|[-> ->]].
    + assert (q < 9007199254740992) by nia. nia.
    + assert (q < 5066549580791808 - 1) by nia. nia.
  - destruct Hcase as [Hsmall|[-> ->]].
    + assert (q < 9007199254740992) by nia. nia.
    + assert (q < 5066549580791808) by nia. nia.
Qed.

Lemma fraction_rest (F : Z) :
  0 <= F -> JSNum.representable F ->
  0 <= F - F / JSRandom.one * JSRandom.one < JSRandom.one
  /\ JSNum.representable (F - F / JSRandom.one * JSRandom.one).
Proof.
  intros HF (m & e & Hm & He & HFe).
  unfold JSRandom.one. rewrite Z.shiftl_1_l.
  assert (Hone : 0 < 2 ^ 1074) by (apply Z.pow_pos_nonneg; lia).
  replace (F - F / 2 ^ 1074 * 2 ^ 1074) with (F mod 2 ^ 1074)
    by (rewrite Z.mod_eq by lia; ring).
  split; [apply Z.mod_pos_bound; exact Hone|].
  destruct (Z.le_gt_cases 1074 e) as [Hbig|Hsmall].
  - exists 0, 0. split; [lia|]. split; [lia|].
    rewrite HFe. replace e with ((e - 1074) + 1074) by lia.
    rewrite Z.pow_add_r, Z.mul_assoc, Z.mod_mul by lia. reflexivity.
  - exists (m mod 2 ^ (1074 - e)), e.
    assert (Hb : 0 < 2 ^ (1074 - e)) by (apply Z.pow_pos_nonneg; lia).
    split; [|split; [exact He|]].
    + pose proof (Z.mod_pos_bound m (2 ^ (1074 - e)) Hb).
      pose proof (Z.mod_le m (2 ^ (1074 - e)) (proj1 Hm) Hb). lia.
    + rewrite HFe. replace 1074 with ((1074 - e) + e) at 1 by lia.
      rewrite Z.pow_add_r by lia.
      apply Z.mul_mod_distr_r; [lia|]. apply Z.pow_nonzero; lia.
Qed.

Lemma carry_in_radix (written out : list Z) :
  Forall JSRandom.in_radix written -> JSRandom.carry written = Some out ->
  Forall JSRandom.in_radix out.
Proof.
  induction 1 as [|d rest Hd Hrest IH]; cbn [JSRandom.carry]; [discriminate|].
  destruct (Z.ltb_spec (d + 1) 36) as [Hlt|_]; [|exact IH].
  intros [= <-]. constructor; [unfold JSRandom.in_radix in *; lia|exact Hrest].
Qed.

Lemma digits_in_radix (fuel : nat) :
  forall (fraction delta : Z) (written out : list Z),
    0 <= fraction < JSRandom.one -> JSNum.representable fraction ->
    Forall JSRandom.in_radix written ->
    JSRandom.digits fuel fraction delta written = Some out ->
    Forall JSRandom.in_radix out.
Proof.
  induction fuel as [|k IH]; intros fraction delta written out Hf Hrep Hw;
    cbn [JSRandom.digits]; [intros [= <-]; exact Hw|].
  cbv zeta.
  assert (Hone : JSRandom.one = 2 ^ 1074) by (unfold JSRandom.one; apply Z.shiftl_1_l).
  assert (Hpos : 0 < JSRandom.one) by (rewrite Hone; apply Z.pow_pos_nonneg; lia).
  assert (HF : 0 <= JSNum.round53 (fraction * 36) < 36 * JSRandom.one
               /\ JSNum.representable (JSNum.round53 (fraction * 36))).
  { destruct (round53_representable (fraction * 36)) as [H0 Hr]; [lia|].
    split; [split; [exact H0|]|exact Hr].
    rewrite Hone. apply round53_times_36. split; [lia|].
    apply representable_below_one; [exact Hrep|]. rewrite <- Hone. lia. }
  destruct HF as [HF HFrep].
  destruct (fraction_rest _ (proj1 HF) HFrep) as [Hrest Hrestrep].
  revert HF Hrest Hrestrep. generalize (JSNum.round53 (fraction * 36)).
  intros F HF Hrest Hrestrep.
  assert (Hd : JSRandom.in_radix (F / JSRandom.one)).
  { split; [apply Z.div_pos; lia|apply Z.div_lt_upper_bound; lia]. }
  assert (Hw' : Forall JSRandom.in_radix (F / JSRandom.one :: written))
    by (constructor; assumption).
  destruct (_ && _).
  - apply carry_in_radix. exact Hw'.
  - destruct (_ <=? _).
    + apply IH; assumption.
    + intros [= <-]. exact Hw'.
Qed.

Lemma digit36_lower (d : Z) :
  JSRandom.in_radix d -> Spec.lower_alnum (JSRandom.digit36 d) = true.
Proof.
  intros Hd. unfold JSRandom.in_radix in Hd. replace d with (Z.of_nat (Z.to_nat d)) by lia.
  assert (Hn : (Z.to_nat d < 36)%nat) by lia.
  revert Hn. generalize (Z.to_nat d). intros n Hn.
  do 36 (destruct n as [|n]; [reflexivity|]). lia.
Qed.

Lemma digits_text_lower (ds : list Z) :
  Forall JSRandom.in_radix ds ->
  Spec.string_forall Spec.lower_alnum (JSRandom.digits_text ds) = true.
Proof.
  induction 1 as [|d rest Hd _ IH]; [reflexivity|].
  cbn [JSRandom.digits_text Spec.string_forall]. rewrite digit36_lower, IH by exact Hd.
  reflexivity.
Qed.

(** The radix-36 form of a draw is ["0"], ["1"] or ["0."] followed by
    digits of [0-9a-z]. *)
Lemma toString36_shape (r : Z) :
  JSRandom.valid r ->
  JSRandom.toString36 r = "0" \/ JSRandom.toString36 r = "1"
  \/ exists ds, Forall JSRandom.in_radix ds
                /\ JSRandom.toString36 r = "0." ++ JSRandom.digits_text ds.
Proof.
  intros Hr. unfold JSRandom.toString36.
  destruct (Z.eqb_spec r 0) as [_|Hne]; [left; reflexivity|right].
  destruct (JSRandom.digits _ _ _ _) as [written|] eqn:Hd; [right|left; reflexivity].
  exists (rev written). split; [|reflexivity].
  apply Forall_rev. revert Hd. apply digits_in_radix.
  - unfold JSRandom.valid, JSRandom.scale in Hr. unfold JSRandom.one.
    rewrite Z.shiftl_mul_pow2, Z.shiftl_1_l by lia.
    replace (2 ^ 1074) with (2 ^ 53 * 2 ^ 1021) by (rewrite <- Z.pow_add_r by lia; reflexivity).
    assert (0 < 2 ^ 1021) by (apply Z.pow_pos_nonneg; lia). nia.
  - exists r, 1021. unfold JSRandom.valid, JSRandom.scale in Hr.
    split; [lia|]. split; [lia|]. apply Z.shiftl_mul_pow2. lia.
  - constructor.
Qed.

Lemma upper_of_lower (c : ascii) :
  Spec.lower_alnum c = true -> Spec.upper_alnum (JSString.upper c) = true.
Proof.
  destruct c as [[] [] [] [] [] [] [] []]; vm_compute; intros Hc;
    solve [reflexivity | discriminate Hc].
Qed.

Lemma substring0_forall (p : ascii -> bool) (m : nat) (s : string) :
  Spec.string_forall p s = true ->
  Spec.string_forall p (String.substring 0 m s) = true.
Proof.
  revert s. induction m as [|m IH]; intros [|c s]; simpl; auto.
  intros Hs. apply andb_true_iff in Hs. destruct Hs as [Hc Hs].
  rewrite Hc. apply IH. exact Hs.
Qed.

Lemma toUpperCase_forall (p q : ascii -> bool) (s : string) :
  (forall c, p c = true -> q (JSString.upper c) = true) ->
  Spec.string_forall p s = true ->
  Spec.string_forall q (JSString.toUpperCase s) = true.
Proof.
  intros Hpq. induction s as [|c s IH]; simpl; [reflexivity|].
  intros Hs. apply andb_true_iff in Hs. destruct Hs as [Hc Hs].
  rewrite (Hpq c Hc), IH by exact Hs. reflexivity.
Qed.

Lemma couponCode_alnum (r : Z) :
  JSRandom.valid r ->
  Spec.string_forall Spec.upper_alnum (Part001.makeCouponCode r) = true.
Proof.
  intros Hr. unfold Part001.makeCouponCode.
  destruct (toString36_shape r Hr) as [->|[->|(ds & Hds & ->)]];
    [reflexivity|reflexivity|].
  change (JSString.substring 2 8 ("0." ++ JSRandom.digits_text ds))
    with (String.substring 0 6 (JSRandom.digits_text ds)).
  apply (toUpperCase_forall Spec.lower_alnum); [exact upper_of_lower|].
  apply substring0_forall, digits_text_lower. exact Hds.
Qed.

Lemma round53_lower (y : Z) : 0 <= y -> 8 * y <= 9 * JSNum.round53 y.
Proof.
  intros Hy. unfold JSNum.round53. rewrite Z.abs_eq by lia. cbv zeta.
  destruct (Z.leb_spec (Z.log2 y - 52) 0) as [_|Hs]; [lia|].
  assert (Hpos : 0 < y).
  { destruct (Z.eq_dec y 0) as [->|]; [simpl in Hs; lia|lia]. }
  destruct (Z.log2_spec y Hpos) as [Hlo _].
  remember (Z.log2 y - 52) as s eqn:Hsdef.
  replace (Z.log2 y) with (52 + s) in Hlo by lia.
  rewrite Z.pow_add_r in Hlo by lia. change (2 ^ 52) with 4503599627370496 in Hlo.
  rewrite Z.shiftr_div_pow2, !Z.shiftl_mul_pow2, Z.sgn_pos by lia.
  assert (Hp : 0 < 2 ^ s) by (apply Z.pow_pos_nonneg; lia).
  assert (Hq : 2 ^ s * (y / 2 ^ s) <= y < 2 ^ s * (y / 2 ^ s + 1)).
  { pose proof (Z.mul_div_le y (2 ^ s) Hp).
    pose proof (Z.mul_succ_div_gt y (2 ^ s) Hp). lia. }
  revert Hq. generalize (y / 2 ^ s). intros q Hq.
  revert Hlo Hp Hq. generalize (2 ^ s). intros p Hlo Hp Hq.
  assert (Hq8 : 8 <= q) by nia.
  destruct (_ || _); nia.
Qed.

(** The digit loop ends on its own: [delta] grows at least 32-fold at each
    round while [fraction] stays below 1, so that more fuel changes
    nothing. *)
Lemma digits_fuel (k : nat) :
  forall (fraction delta : Z) (written : list Z) (n : nat),
    0 <= fraction < JSRandom.one -> JSNum.representable fraction ->
    0 <= delta -> JSRandom.one <= 32 ^ Z.of_nat (S k) * delta ->
    JSRandom.digits (S k + n) fraction delta written
    = JSRandom.digits (S k) fraction delta written.
Proof.
  assert (Hone : JSRandom.one = 2 ^ 1074) by (unfold JSRandom.one; apply Z.shiftl_1_l).
  assert (Hpos : 0 < JSRandom.one) by (rewrite Hone; apply Z.pow_pos_nonneg; lia).
  induction k as [|k IH]; intros fraction delta written n Hf Hrep Hd Hgrow.
  - change (S 0 + n)%nat with (S n). cbn [JSRandom.digits]. cbv zeta.
    destruct (round53_representable (fraction * 36)) as [HF0 HFrep]; [lia|].
    destruct (fraction_rest _ HF0 HFrep) as [Hrest _].
    pose proof (round53_lower (delta * 36)) as Hlow.
    revert Hrest Hlow.
    generalize (JSNum.round53 (fraction * 36)) (JSNum.round53 (delta * 36)).
    intros F D Hrest Hlow.
    destruct (_ && _); [reflexivity|].
    destruct (Z.leb_spec D (F - F / JSRandom.one * JSRandom.one)) as [Hle|_]; [|reflexivity].
    exfalso. change (32 ^ Z.of_nat 1) with 32 in Hgrow. lia.
  - change (S (S k) + n)%nat with (S (S k + n)).
    cbn [JSRandom.digits]. cbv zeta.
    destruct (round53_representable (fraction * 36)) as [HF0 HFrep]; [lia|].
    destruct (fraction_rest _ HF0 HFrep) as [Hrest Hrestrep].
    destruct (round53_representable (delta * 36)) as [HD0 _]; [lia|].
    pose proof (round53_lower (delta * 36)) as Hlow.
    revert Hrest Hrestrep HD0 Hlow.
    generalize (JSNum.round53 (fraction * 36)) (JSNum.round53 (delta * 36)).
    intros F D Hrest Hrestrep HD0 Hlow.
    destruct (_ && _); [reflexivity|].
    destruct (D <=? _); [|reflexivity].
    apply IH; try assumption.
    rewrite Nat2Z.inj_succ, Z.pow_succ_r in Hgrow by lia.
    assert (Hk : 0 < 32 ^ Z.of_nat (S k)) by (apply Z.pow_pos_nonneg; lia).
    revert Hgrow Hk. generalize (32 ^ Z.of_nat (S k)). intros c Hgrow Hk. nia.
Qed.

(** The fuel of [toString36] is never used up. *)
Lemma toString36_fuel (r : Z) (n : nat) :
  JSRandom.valid r -> r <> 0 ->
  JSRandom.digits (30 + n) (Z.shiftl r 1021) (Z.shiftl 1 (Z.log2 r + 968)) []
  = JSRandom.digits 30 (Z.shiftl r 1021) (Z.shiftl 1 (Z.log2 r + 968)) [].
Proof.
  intros Hr Hne. unfold JSRandom.valid, JSRandom.scale in Hr.
  assert (Hl : 0 <= Z.log2 r) by apply Z.log2_nonneg.
  apply (digits_fuel 29).
  - unfold JSRandom.one. rewrite Z.shiftl_mul_pow2, Z.shiftl_1_l by lia.
    replace (2 ^ 1074) with (2 ^ 53 * 2 ^ 1021) by (rewrite <- Z.pow_add_r by lia; reflexivity).
    assert (0 < 2 ^ 1021) by (apply Z.pow_pos_nonneg; lia). nia.
  - exists r, 1021. split; [lia|]. split; [lia|]. apply Z.shiftl_mul_pow2. lia.
  - rewrite Z.shiftl_1_l. apply Z.pow_nonneg. lia.
  - unfold JSRandom.one. rewrite !Z.shiftl_1_l.
    change (32 ^ Z.of_nat 30) with (2 ^ 150).
    rewrite <- Z.pow_add_r by lia. apply Z.pow_le_mono_r; lia.
Qed.

Lemma fortunes_nonempty : Forall (fun s => s <> "") Part001.FORTUNE_MESSAGES.
Proof. repeat constructor; discriminate. Qed.

Lemma devs_nonempty : Forall (fun s => s <> "") Part001.FAMOUS_DEVS.
Proof. repeat constructor; discriminate. Qed.

(** For all draws the fortune and the cashier are entries of their lists,
    and the coupon code has at most six characters of [0-9A-Z]. *)
Lemma decorations_in_range `{HostEnv} (now r1 r2 r3 : Z)
    (user : GitHubUser.t) (repos : list GitHubRepo.t) :
  JSRandom.valid r1 -> JSRandom.valid r2 -> JSRandom.valid r3 ->
  let s := stats (Part001.aggregate now r1 r2 r3 user repos) in
  (exists fortune, Part001.randomFortune s = Some fortune
                   /\ In fortune Part001.FORTUNE_MESSAGES /\ fortune <> "")
  /\ (exists dev, Part001.cashier s = Some dev
                  /\ In dev Part001.FAMOUS_DEVS /\ dev <> "")
  /\ Spec.string_forall Spec.upper_alnum (Part001.couponCode s) = true
  /\ (String.length (Part001.couponCode s) <= 6)%nat.
Proof.
  intros H1 H2 H3. cbv zeta.
  cbn [stats Part001.aggregate Part001.randomFortune Part001.cashier Part001.couponCode].
  split; [|split; [|split]].
  - destruct (get_in_range Part001.FORTUNE_MESSAGES
                (JSRandom.floor_mul r1 (Z.of_nat (List.length Part001.FORTUNE_MESSAGES))))
      as (x & Hx & Hin).
    { apply floor_mul_range; [exact H1|reflexivity|vm_compute; discriminate]. }
    exists x. repeat split; auto.
    pose proof fortunes_nonempty as Hf. rewrite Forall_forall in Hf. auto.
  - destruct (get_in_range Part001.FAMOUS_DEVS
                (JSRandom.floor_mul r2 (Z.of_nat (List.length Part001.FAMOUS_DEVS))))
      as (x & Hx & Hin).
    { apply floor_mul_range; [exact H2|reflexivity|vm_compute; discriminate]. }
    exists x. repeat split; auto.
    pose proof devs_nonempty as Hf. rewrite Forall_forall in Hf. auto.
  - apply couponCode_alnum. exact H3.
  - apply couponCode_length.
Qed.

End Decorations.

(** C8, at the input where it fails. 0 is a possible draw of [Math.random];
    its radix-36 form is ["0"], which has nothing from position 2 on, so
    the coupon code of the receipt is the empty string. *)
Theorem coupon_code_is_empty_for_draw_zero `{HostEnv}
    (now r1 r2 : Z) (user : GitHubUser.t) (repos : list GitHubRepo.t) :
  JSRandom.valid 0
  /\ JSRandom.toString36 0 = "0"
  /\ Part001.makeCouponCode 0 = ""
  /\ Part001.couponCode (stats (Part001.aggregate now r1 r2 0 user repos)) = "".
Proof.
  split; [unfold JSRandom.valid; split; [lia|reflexivity]|].
  repeat split; reflexivity.
Qed.

(** * Further properties of the page *)

(** ** The histogram and the recency count *)

Section HistogramFacts.
Context `{HostEnv}.

Lemma weekday_count_nonneg (repos : list GitHubRepo.t) (i : Z) :
  0 <= Spec.weekday_count repos i.
Proof.
  induction repos as [|repo rest IH]; simpl; [lia|].
  destruct (Spec.pushed_on i repo); lia.
Qed.

Lemma weekday_count_total (repos : list GitHubRepo.t) :
  Props.sumZ (map (Spec.weekday_count repos) [0; 1; 2; 3; 4; 5; 6]) = Props.dated repos.
Proof.
  induction repos as [|repo rest IH]; [reflexivity|].
  cbn [Props.dated]. rewrite <- IH. cbn [map Props.sumZ fold_right Spec.weekday_count].
  unfold Spec.pushed_on.
  destruct (Date_parse (GitHubRepo.pushed_at repo)) as [t|]; [|lia].
  pose proof (getDay_range t) as Hr.
  assert (Hcase : JSDate.getDay t = 0 \/ JSDate.getDay t = 1 \/ JSDate.getDay t = 2
                  \/ JSDate.getDay t = 3 \/ JSDate.getDay t = 4 \/ JSDate.getDay t = 5
                  \/ JSDate.getDay t = 6) by lia.
  destruct Hcase as [E|[E|[E|[E|[E|[E|E]]]]]]; rewrite E; cbn [Z.eqb Pos.eqb]; lia.
Qed.

Lemma dated_le_length (repos : list GitHubRepo.t) :
  0 <= Props.dated repos <= Z.of_nat (List.length repos).
Proof.
  induction repos as [|repo rest IH]; cbn [Props.dated List.length]; [lia|].
  rewrite Nat2Z.inj_succ.
  destruct (Date_parse (GitHubRepo.pushed_at repo)); lia.
Qed.

Lemma weekday_count_perm (l l' : list GitHubRepo.t) (i : Z) :
  Permutation l l' -> Spec.weekday_count l i = Spec.weekday_count l' i.
Proof.
  induction 1 as [|x l l' _ IH|x y l|l l' l'' _ IH1 _ IH2]; simpl; lia.
Qed.

Lemma pushed_since_le_dated (bound : Z) (repos : list GitHubRepo.t) :
  0 <= Spec.pushed_since bound repos <= Props.dated repos.
Proof.
  induction repos as [|repo rest IH]; cbn [Spec.pushed_since Props.dated]; [lia|].
  destruct (Date_parse (GitHubRepo.pushed_at repo)) as [t|]; [|exact IH].
  destruct (bound <? t); lia.
Qed.

Lemma pushed_since_app (bound : Z) (l1 l2 : list GitHubRepo.t) :
  Spec.pushed_since bound (l1 ++ l2)%list
  = Spec.pushed_since bound l1 + Spec.pushed_since bound l2.
Proof.
  induction l1 as [|repo rest IH]; cbn [app Spec.pushed_since]; [lia|].
  destruct (Date_parse (GitHubRepo.pushed_at repo)) as [t|]; [|exact IH].
  destruct (bound <? t); lia.
Qed.

End HistogramFacts.

(** X1. The seven buckets are non-negative and add up to the number of
    repositories whose push date can be read, which is at most the number
    of repositories: an unreadable date is counted in no bucket. *)
Theorem day_histogram_counts_each_dated_repo_once `{HostEnv} (repos : list GitHubRepo.t) :
  Props.sumZ (Aggregate.dayCount repos) = Props.dated repos
  /\ Props.dated repos <= Z.of_nat (List.length repos)
  /\ Forall (fun c => 0 <= c) (Aggregate.dayCount repos).
Proof.
  rewrite dayCount_histogram. split; [apply weekday_count_total|].
  split; [apply dated_le_length|].
  repeat constructor; apply weekday_count_nonneg.
Qed.

(** X2. The histogram and the most active day do not depend on the order
    in which the repositories are listed. *)
Theorem most_active_day_is_order_independent `{HostEnv}
    (repos repos' : list GitHubRepo.t) (Hperm : Permutation repos repos') :
  Aggregate.dayCount repos' = Aggregate.dayCount repos
  /\ Aggregate.mostActiveDay repos' = Aggregate.mostActiveDay repos.
Proof.
  assert (Hd : Aggregate.dayCount repos' = Aggregate.dayCount repos).
  { rewrite !dayCount_histogram. apply map_ext. intros i.
    symmetry. apply weekday_count_perm. exact Hperm. }
  split; [exact Hd|]. unfold Aggregate.mostActiveDay. rewrite Hd. reflexivity.
Qed.

Lemma most_active_day_is_order_independent_witness :
  Permutation [Sample.alpha; Sample.beta] [Sample.beta; Sample.alpha]
  /\ @Aggregate.mostActiveDay utc_host [Sample.beta; Sample.alpha]
     = @Aggregate.mostActiveDay utc_host [Sample.alpha; Sample.beta].
Proof.
  assert (Hperm : Permutation [Sample.alpha; Sample.beta] [Sample.beta; Sample.alpha])
    by apply perm_swap.
  split; [exact Hperm|].
  exact (proj2 (@most_active_day_is_order_independent utc_host _ _ Hperm)).
Defined.

(** X3. When no repository has a readable push date, every bucket stays 0,
    the most active day is Sunday and nothing counts as recent activity. *)
Theorem undated_repos_give_sunday `{HostEnv} (repos : list GitHubRepo.t) (now : Z)
    (Hundated : forall repo, In repo repos -> Date_parse (GitHubRepo.pushed_at repo) = None) :
  Aggregate.dayCount repos = [0; 0; 0; 0; 0; 0; 0]
  /\ Aggregate.mostActiveDay repos = Some "Sunday"
  /\ Aggregate.recentActivity repos now = 0.
Proof.
  assert (Hw : forall i, Spec.weekday_count repos i = 0).
  { intros i. induction repos as [|repo rest IH]; [reflexivity|].
    simpl. unfold Spec.pushed_on. rewrite (Hundated repo) by (left; reflexivity).
    rewrite IH; [reflexivity|]. intros r Hr. apply Hundated. right. exact Hr. }
  assert (Hd : Aggregate.dayCount repos = [0; 0; 0; 0; 0; 0; 0]).
  { rewrite dayCount_histogram. simpl. rewrite !Hw. reflexivity. }
  split; [exact Hd|]. split.
  - unfold Aggregate.mostActiveDay. rewrite Hd. reflexivity.
  - unfold Aggregate.recentActivity. rewrite filter_pushed_after_count.
    induction repos as [|repo rest IH]; [reflexivity|].
    cbn [Spec.pushed_since]. rewrite (Hundated repo) by (left; reflexivity).
    apply IH.
    + intros r Hr. apply Hundated. right. exact Hr.
    + intros i. specialize (Hw i). simpl in Hw. unfold Spec.pushed_on in Hw.
      rewrite (Hundated repo) in Hw by (left; reflexivity). exact Hw.
    + rewrite dayCount_histogram. simpl.
      assert (Hw' : forall i, Spec.weekday_count rest i = 0).
      { intros i. specialize (Hw i). simpl in Hw. unfold Spec.pushed_on in Hw.
        rewrite (Hundated repo) in Hw by (left; reflexivity). exact Hw. }
      rewrite !Hw'. reflexivity.
Qed.

Lemma undated_repos_give_sunday_witness :
  (forall repo, In repo [Sample.epsilon; Sample.epsilon] ->
                @Date_parse utc_host (GitHubRepo.pushed_at repo) = None)
  /\ @Aggregate.mostActiveDay utc_host [Sample.epsilon; Sample.epsilon] = Some "Sunday".
Proof.
  assert (Hu : forall repo, In repo [Sample.epsilon; Sample.epsilon] ->
                            @Date_parse utc_host (GitHubRepo.pushed_at repo) = None).
  { intros repo [<-|[<-|[]]]; reflexivity. }
  split; [exact Hu|].
  exact (proj1 (proj2 (@undated_repos_give_sunday utc_host _ Sample.now Hu))).
Defined.

(** X4. The recency count lies between 0 and the number of repositories
    with a readable push date, and the count of two lists put together is
    the sum of their counts. *)
Theorem recent_activity_is_bounded_and_additive `{HostEnv}
    (now : Z) (repos more : list GitHubRepo.t) :
  0 <= Aggregate.recentActivity repos now <= Props.dated repos
  /\ Props.dated repos <= Z.of_nat (List.length repos)
  /\ Aggregate.recentActivity (repos ++ more)%list now
     = Aggregate.recentActivity repos now + Aggregate.recentActivity more now.
Proof.
  unfold Aggregate.recentActivity. rewrite !filter_pushed_after_count.
  split; [apply pushed_since_le_dated|].
  split; [apply dated_le_length|apply pushed_since_app].
Qed.

(** ** More on the language ranking *)

Section RankingFacts.

Lemma ranked_NoDup (repos : list GitHubRepo.t) :
  Forall (fun l => Obj.plain l = true) (Spec.primary_languages repos) ->
  NoDup (map fst (Aggregate.sortedEntries repos)).
Proof.
  intros Hplain.
  apply (Permutation_NoDup (Permutation_sym (ranked_perm repos Hplain))).
  apply first_seen_NoDup.
Qed.

Lemma NoDup_firstn {A : Type} (n : nat) (l : list A) : NoDup l -> NoDup (firstn n l).
Proof.
  revert n. induction l as [|x l IH]; intros [|n] Hnd; simpl; try constructor.
  - inversion Hnd as [|? ? Hx Hl]; subst. intros Hin. apply Hx.
    rewrite <- (firstn_skipn n l). apply in_or_app. left. exact Hin.
  - inversion Hnd; subst. apply IH. assumption.
Qed.

Lemma sorted_firstn_dominates {A : Type} (R : A -> A -> Prop) (n : nat) (l : list A) :
  StronglySorted R l ->
  forall a b, In a (firstn n l) -> In b (skipn n l) -> R a b.
Proof.
  intros Hs. revert n. induction Hs as [|x l Hs IH Hall]; intros n a b Ha Hb.
  - destruct n; destruct Ha.
  - destruct n as [|n]; [destruct Ha|]. simpl in Ha, Hb.
    destruct Ha as [<-|Ha].
    + rewrite Forall_forall in Hall. apply Hall.
      rewrite <- (firstn_skipn n l). apply in_or_app. right. exact Hb.
    + apply (IH n); assumption.
Qed.

Lemma sumZ_cons (a : Z) (l : list Z) : Props.sumZ (a :: l) = a + Props.sumZ l.
Proof. reflexivity. Qed.

Lemma sum_split_filter (f : string -> Z) (x : string) (ks : list string) :
  NoDup ks ->
  Props.sumZ (map f ks)
  = (if in_dec string_dec x ks then f x else 0)
    + Props.sumZ (map f (filter (fun l => negb (String.eqb x l)) ks)).
Proof.
  induction 1 as [|k rest Hk Hnd IH]; [reflexivity|].
  cbn [map filter]. rewrite sumZ_cons, IH.
  destruct (in_dec string_dec x (k :: rest)) as [Hin|Hn];
    destruct (in_dec string_dec x rest) as [Hin'|Hn'];
    destruct (String.eqb_spec x k) as [Heq|Hne]; cbn [negb map];
    rewrite ?sumZ_cons; subst; try lia.
  - contradiction.
  - destruct Hin; [congruence|contradiction].
  - exfalso. apply Hn. right. exact Hin'.
  - exfalso. apply Hn. right. exact Hin'.
  - exfalso. apply Hn. left. reflexivity.
Qed.

Lemma occurrences_total (langs : list string) :
  Props.sumZ (map (Spec.occurrences langs) (Spec.first_seen langs))
  = Z.of_nat (List.length langs).
Proof.
  induction langs as [|x rest IH]; [reflexivity|].
  cbn [Spec.first_seen map List.length].
  rewrite sumZ_cons, Nat2Z.inj_succ, <- IH.
  rewrite (sum_split_filter (Spec.occurrences rest) x) by apply first_seen_NoDup.
  assert (Hmap : map (Spec.occurrences (x :: rest))
                     (filter (fun l => negb (String.eqb x l)) (Spec.first_seen rest))
                 = map (Spec.occurrences rest)
                       (filter (fun l => negb (String.eqb x l)) (Spec.first_seen rest))).
  { apply map_ext_in. intros l Hl. apply filter_In in Hl. destruct Hl as [_ Hl].
    cbn [Spec.occurrences]. destruct (String.eqb x l); [discriminate|]. lia. }
  rewrite Hmap. cbn [Spec.occurrences]. rewrite String.eqb_refl.
  destruct (in_dec string_dec x (Spec.first_seen rest)) as [Hin|Hn]; [lia|].
  rewrite first_seen_In in Hn. rewrite (occurrences_absent rest x Hn). lia.
Qed.

Lemma languages_filter (repos : list GitHubRepo.t) :
  Aggregate.languages (filter Props.has_language repos) = Aggregate.languages repos.
Proof.
  unfold Aggregate.languages, Props.has_language.
  induction repos as [|repo rest IH]; [reflexivity|].
  cbn [filter map]. destruct (GitHubRepo.language repo) as [l|] eqn:Hl.
  - cbn [map Aggregate.non_null]. rewrite Hl. cbn [Aggregate.non_null]. f_equal. exact IH.
  - cbn [Aggregate.non_null]. exact IH.
Qed.

End RankingFacts.

(** X5. When the language names are plain keys, no language is listed
    twice, and the list has three entries unless the repositories have
    fewer distinct languages, in which case it has them all. *)
Theorem top_languages_are_distinct (repos : list GitHubRepo.t)
    (Hplain : Forall (fun l => Obj.plain l = true) (Spec.primary_languages repos)) :
  NoDup (Aggregate.topLanguagesList repos)
  /\ List.length (Aggregate.topLanguagesList repos)
     = Nat.min 3 (List.length (Spec.first_seen (Spec.primary_languages repos))).
Proof.
  rewrite topLanguagesList_ranked. split.
  - apply NoDup_firstn, ranked_NoDup, Hplain.
  - rewrite length_firstn. f_equal.
    apply Permutation_length, ranked_perm, Hplain.
Qed.

Lemma top_languages_are_distinct_witness :
  Forall (fun l => Obj.plain l = true) (Spec.primary_languages Sample.repos)
  /\ NoDup (Aggregate.topLanguagesList Sample.repos)
  /\ List.length (Aggregate.topLanguagesList Sample.repos) = 3%nat.
Proof.
  assert (Hplain : Forall (fun l => Obj.plain l = true)
                          (Spec.primary_languages Sample.repos))
    by (repeat constructor).
  split; [exact Hplain|].
  destruct (top_languages_are_distinct Sample.repos Hplain) as [Hnd Hlen].
  split; [exact Hnd|]. rewrite Hlen. reflexivity.
Defined.

(** X6. When the language names are plain keys, a language that is listed
    is the primary language of at least as many repositories as any
    language that is left out. *)
Theorem listed_languages_dominate (repos : list GitHubRepo.t) (a b : string)
    (Hplain : Forall (fun l => Obj.plain l = true) (Spec.primary_languages repos))
    (Ha : In a (Aggregate.topLanguagesList repos))
    (Hb : In b (Spec.primary_languages repos))
    (Hout : ~ In b (Aggregate.topLanguagesList repos)) :
  Spec.occurrences (Spec.primary_languages repos) b
  <= Spec.occurrences (Spec.primary_languages repos) a.
Proof.
  rewrite topLanguagesList_ranked in Ha, Hout.
  assert (Hb' : In b (skipn 3 (map fst (Aggregate.sortedEntries repos)))).
  { apply first_seen_In in Hb.
    apply (Permutation_in _ (Permutation_sym (ranked_perm repos Hplain))) in Hb.
    rewrite <- (firstn_skipn 3 (map fst (Aggregate.sortedEntries repos))) in Hb.
    apply in_app_or in Hb. destruct Hb; [contradiction|assumption]. }
  pose proof (sorted_firstn_dominates _ 3 _ (ranked_sorted repos Hplain) a b Ha Hb') as Hr.
  unfold Spec.ranks_before in Hr. lia.
Qed.

Lemma listed_languages_dominate_witness :
  let repos := (Sample.repos ++ [GitHubRepo.Build "zeta" 0 0 0 (Some "Zig") "" ""])%list in
  Forall (fun l => Obj.plain l = true) (Spec.primary_languages repos)
  /\ In "Rust" (Aggregate.topLanguagesList repos)
  /\ In "Zig" (Spec.primary_languages repos)
  /\ ~ In "Zig" (Aggregate.topLanguagesList repos)
  /\ Spec.occurrences (Spec.primary_languages repos) "Zig"
     <= Spec.occurrences (Spec.primary_languages repos) "Rust".
Proof.
  cbv zeta.
  set (repos := (Sample.repos ++ [GitHubRepo.Build "zeta" 0 0 0 (Some "Zig") "" ""])%list).
  assert (Hplain : Forall (fun l => Obj.plain l = true) (Spec.primary_languages repos))
    by (repeat constructor).
  assert (Ha : In "Rust" (Aggregate.topLanguagesList repos)) by (vm_compute; auto).
  assert (Hb : In "Zig" (Spec.primary_languages repos)) by (vm_compute; auto 6).
  assert (Hout : ~ In "Zig" (Aggregate.topLanguagesList repos)).
  { vm_compute. intros [Hx|[Hx|[Hx|[]]]]; discriminate Hx. }
  split; [exact Hplain|]. split; [exact Ha|]. split; [exact Hb|]. split; [exact Hout|].
  exact (listed_languages_dominate repos "Rust" "Zig" Hplain Ha Hb Hout).
Defined.

(** X7. When the language names are plain keys, every value of the
    dictionary is a number, and the numbers add up to the number of
    repositories that have a primary language. *)
Theorem language_counts_add_up (repos : list GitHubRepo.t)
    (Hplain : Forall (fun l => Obj.plain l = true) (Spec.primary_languages repos)) :
  Forall (fun e => exists n, snd e = Obj.VNum n /\ 0 < n)
         (Obj.entries (Aggregate.langCount repos))
  /\ Props.sumZ (map (fun e => Props.count_of (snd e))
                     (Obj.entries (Aggregate.langCount repos)))
     = Z.of_nat (List.length (filter Props.has_language repos))
  /\ Z.of_nat (List.length (filter Props.has_language repos))
     <= Z.of_nat (List.length repos).
Proof.
  rewrite (langCount_spec repos Hplain). split; [|split].
  - rewrite Forall_forall. intros e He.
    apply in_map_iff in He. destruct He as (l & <- & Hl).
    exists (Spec.occurrences (Spec.primary_languages repos) l).
    split; [reflexivity|]. apply occurrences_pos, first_seen_In, Hl.
  - rewrite map_map. cbn [snd Props.count_of].
    rewrite occurrences_total. f_equal. clear Hplain.
    unfold Spec.primary_languages, Props.has_language.
    induction repos as [|repo rest IH]; [reflexivity|].
    cbn [flat_map filter]. destruct (GitHubRepo.language repo); cbn [app List.length]; lia.
  - apply inj_le. clear Hplain. induction repos as [|repo rest IH]; [apply le_n|].
    cbn [filter]. destruct (Props.has_language repo); cbn [List.length]; lia.
Qed.

Lemma language_counts_add_up_witness :
  Forall (fun l => Obj.plain l = true) (Spec.primary_languages Sample.repos)
  /\ Props.sumZ (map (fun e => Props.count_of (snd e))
                     (Obj.entries (Aggregate.langCount Sample.repos)))
     = Z.of_nat (List.length (filter Props.has_language Sample.repos)).
Proof.
  assert (Hplain : Forall (fun l => Obj.plain l = true)
                          (Spec.primary_languages Sample.repos))
    by (repeat constructor).
  split; [exact Hplain|].
  exact (proj1 (proj2 (language_counts_add_up Sample.repos Hplain))).
Defined.

(** X8. Repositories without a primary language change nothing: the
    ranking is the one of the repositories that have a language. *)
Theorem languageless_repos_are_ignored (repos : list GitHubRepo.t) :
  Aggregate.topLanguages (filter Props.has_language repos) = Aggregate.topLanguages repos
  /\ Aggregate.langCount (filter Props.has_language repos) = Aggregate.langCount repos.
Proof.
  unfold Aggregate.topLanguages, Aggregate.topLanguagesList, Aggregate.sortedEntries,
    Aggregate.langCount.
  rewrite languages_filter. split; reflexivity.
Qed.

(** X9. The size printed in MB is the nearest whole number of 1024 kB to
    the total size the page has computed, a half rounding up; it is the
    nearest to the exact sum of the sizes when these are non-negative and
    their sum is at most 2^53. *)
Theorem size_in_MB_is_nearest `{HostEnv}
    (now r1 r2 r3 : Z) (user : GitHubUser.t) (repos : list GitHubRepo.t) :
  let mb := Part001.totalSizeMB (stats (Part001.aggregate now r1 r2 r3 user repos)) in
  let kb := Spec.sum_field GitHubRepo.size repos in
  1024 * mb - 512 <= Aggregate.totalSize repos < 1024 * mb + 512
  /\ (Forall (fun repo => 0 <= GitHubRepo.size repo) repos -> kb <= 2 ^ 53 ->
      1024 * mb - 512 <= kb < 1024 * mb + 512).
Proof.
  cbv zeta. cbn [stats Part001.aggregate Part001.totalSizeMB].
  assert (Hround : 1024 * JS.Math_round_div (Aggregate.totalSize repos) 1024 - 512
                   <= Aggregate.totalSize repos
                   < 1024 * JS.Math_round_div (Aggregate.totalSize repos) 1024 + 512).
  { unfold JS.Math_round_div.
    generalize (Aggregate.totalSize repos). intros n.
    Z.div_mod_to_equations. lia. }
  split; [exact Hround|].
  intros Hsize Hmax. rewrite <- (totalSize_sum repos Hsize Hmax). exact Hround.
Qed.

(** ** Lookups in the three revisions *)

Section LookupFacts.
Context `{HostEnv}.
Variable userFetch : Settled (Response GitHubUser.t).
Variable reposFetch : Settled (Response ReposJson).

Lemma Part001_fails_as_Part000 (now r1 r2 r3 : Z) (e : Exn) :
  Part001.getGitHubStats userFetch reposFetch now r1 r2 r3 = inl e
  <-> Part000.getGitHubStats userFetch reposFetch = inl e.
Proof.
  unfold Part001.getGitHubStats, Part000.getGitHubStats.
  destruct (Promise_all userFetch reposFetch) as [e'|[u r]];
    [|destruct (negb (ok u));
      [|destruct (json u); [destruct (json r) as [[repos|]|]|]]];
    split; intros Hx; solve [discriminate Hx | injection Hx as ->; reflexivity].
Qed.

Lemma PageTsx_fails_when_Part000 (commitsFetch : Settled (Response PageTsx.CommitsJson))
    (r : Z) (e : Exn) :
  Part000.getGitHubStats userFetch reposFetch = inl e ->
  PageTsx.getGitHubStats userFetch reposFetch commitsFetch r = inl e.
Proof.
  unfold PageTsx.getGitHubStats, Part000.getGitHubStats.
  destruct (Promise_all userFetch reposFetch) as [e'|[u rr]];
    [|destruct (negb (ok u));
      [|destruct (json u); [destruct (json rr) as [[repos|]|]|]]];
    intros Hx; solve [discriminate Hx | injection Hx as ->; reflexivity].
Qed.

End LookupFacts.

(** X10. The three revisions fail on the same answers of the first two
    fetches, and with the same exception: the second revision fails
    exactly when the first does, and the current one whenever they do. *)
Theorem revisions_fail_alike `{HostEnv}
    (userFetch : Settled (Response GitHubUser.t))
    (reposFetch : Settled (Response ReposJson))
    (commitsFetch : Settled (Response PageTsx.CommitsJson))
    (now r1 r2 r3 : Z) (e : Exn) :
  (Part001.getGitHubStats userFetch reposFetch now r1 r2 r3 = inl e
   <-> Part000.getGitHubStats userFetch reposFetch = inl e)
  /\ (Part000.getGitHubStats userFetch reposFetch = inl e ->
      PageTsx.getGitHubStats userFetch reposFetch commitsFetch r1 = inl e).
Proof.
  split; [apply Part001_fails_as_Part000|apply PageTsx_fails_when_Part000].
Qed.

Lemma revisions_fail_alike_witness :
  @Part000.getGitHubStats utc_host Sample.user_ok Sample.repos_error_object = inl TypeError
  /\ @PageTsx.getGitHubStats utc_host Sample.user_ok Sample.repos_error_object Rejected 0
     = inl TypeError.
Proof.
  split; [reflexivity|].
  exact (proj2 (@revisions_fail_alike utc_host Sample.user_ok Sample.repos_error_object
                  Rejected 0 0 0 0 TypeError) eq_refl).
Defined.

(** X11. The second revision succeeds exactly when both fetches answer, the
    user response is a success, its body is JSON and the repository body is
    a JSON array; the result is then the aggregate of the two bodies. The
    aggregation itself never throws, and the status of the repository
    response is not looked at. *)
Theorem second_revision_success_shape `{HostEnv}
    (userFetch : Settled (Response GitHubUser.t))
    (reposFetch : Settled (Response ReposJson))
    (now r1 r2 r3 : Z) (d : Result Part001.Stats) :
  Part001.getGitHubStats userFetch reposFetch now r1 r2 r3 = inr d
  <-> exists user okr repos,
        userFetch = Fulfilled (mkResponse true (Some user))
        /\ reposFetch = Fulfilled (mkResponse okr (Some (ReposArray repos)))
        /\ d = Part001.aggregate now r1 r2 r3 user repos.
Proof.
  unfold Part001.getGitHubStats, Promise_all. split.
  - destruct userFetch as [|[oku [user|]]], reposFetch as [|[okr [[repos|]|]]];
      try discriminate; destruct oku; simpl; try discriminate.
    intros [= <-]. exists user, okr, repos. auto.
  - intros (user & okr & repos & -> & -> & ->). reflexivity.
Qed.

(** X12. The current revision succeeds exactly when, in addition, the commit
    search answers with a JSON body other than [null]; the commit count is
    the [total_count] of that body, whatever its status, and is undefined
    when the body has none. *)
Theorem current_revision_success_shape `{HostEnv}
    (userFetch : Settled (Response GitHubUser.t))
    (reposFetch : Settled (Response ReposJson))
    (commitsFetch : Settled (Response PageTsx.CommitsJson))
    (r : Z) (d : Result PageTsx.Stats) :
  PageTsx.getGitHubStats userFetch reposFetch commitsFetch r = inr d
  <-> exists user okr repos okc total_count,
        userFetch = Fulfilled (mkResponse true (Some user))
        /\ reposFetch = Fulfilled (mkResponse okr (Some (ReposArray repos)))
        /\ commitsFetch
           = Fulfilled (mkResponse okc (Some (PageTsx.CommitsValue total_count)))
        /\ d = mkResult user
                 (PageTsx.mkStats (Z.of_nat (List.length repos))
                    (Aggregate.totalStars repos) (Aggregate.totalForks repos)
                    (Aggregate.mostActiveDay repos) total_count
                    (JS.get PageTsx.FAMOUS_DEVS (JSRandom.floor_mul r 7))).
Proof.
  unfold PageTsx.getGitHubStats, Promise_all. split.
  - destruct userFetch as [|[oku [user|]]], reposFetch as [|[okr [[repos|]|]]];
      try discriminate; destruct oku; cbn [ok json negb]; try discriminate.
    destruct commitsFetch as [|[okc [[|tc]|]]]; cbn [json]; try discriminate.
    intros [= <-]. exists user, okr, repos, okc, tc. auto.
  - intros (user & okr & repos & okc & tc & -> & -> & -> & ->). reflexivity.
Qed.

(** ** The submit handler *)

(** X13. The page cannot tell one failure from another: two lookups that
    both throw, whatever they throw, leave the page in the same state. *)
Theorem failures_are_indistinguishable (Stats : Type)
    (lookup lookup' : string -> Exn + Result Stats) (st : PageState Stats) (e e' : Exn)
    (He : lookup (username st) = inl e)
    (He' : lookup' (username st) = inl e') :
  handleSubmit lookup st = handleSubmit lookup' st.
Proof.
  unfold handleSubmit. destruct (String.eqb (username st) ""); [reflexivity|].
  rewrite He, He'. reflexivity.
Qed.

Lemma failures_are_indistinguishable_witness :
  handleSubmit
    (fun _ => @Part000.getGitHubStats utc_host
                (Fulfilled (mkResponse false (Some Sample.octocat))) Sample.repos_ok)
    (Sample.fresh "octocat")
  = handleSubmit
      (fun _ => @Part000.getGitHubStats utc_host Sample.user_ok Rejected)
      (Sample.fresh "octocat").
Proof.
  exact (failures_are_indistinguishable Part000.Stats
           (fun _ => @Part000.getGitHubStats utc_host
                       (Fulfilled (mkResponse false (Some Sample.octocat))) Sample.repos_ok)
           (fun _ => @Part000.getGitHubStats utc_host Sample.user_ok Rejected)
           (Sample.fresh "octocat") Error_UserNotFound FetchRejected eq_refl eq_refl).
Defined.

(** X14. Whatever the lookup does, a submit leaves the typed name alone,
    never removes a receipt that is shown, and ends with the button
    enabled exactly when the box is not empty, so the loading flag is never
    left set. The receipt afterwards is the one before, or the result of
    this lookup with the error message cleared. *)
Theorem submit_postconditions (Stats : Type)
    (lookup : string -> Exn + Result Stats) (st : PageState Stats) :
  let st' := handleSubmit lookup st in
  username st' = username st
  /\ implb (receiptRef_current st) (receiptRef_current st') = true
  /\ Home.submitDisabled st' = String.eqb (username st) ""
  /\ (data st' = data st
      \/ exists d, lookup (username st) = inr d /\ data st' = Some d /\ error st' = "").
Proof.
  cbv zeta. unfold handleSubmit, Home.submitDisabled, receiptRef_current.
  destruct (String.eqb (username st) "") eqn:Hname.
  - rewrite Hname. repeat split; auto. destruct (data st); reflexivity.
  - destruct (lookup (username st)) as [e|d]; cbn [username data loading error];
      rewrite Hname; repeat split; auto.
    + destruct (data st); reflexivity.
    + destruct (data st); reflexivity.
    + right. exists d. auto.
Qed.

(** X15. Submitting again with the same answer changes nothing more. *)
Theorem submit_is_idempotent (Stats : Type)
    (lookup : string -> Exn + Result Stats) (st : PageState Stats) :
  handleSubmit lookup (handleSubmit lookup st) = handleSubmit lookup st.
Proof.
  unfold handleSubmit at 2 3.
  destruct (String.eqb (username st) "") eqn:Hname.
  - unfold handleSubmit. rewrite Hname. reflexivity.
  - unfold handleSubmit.
    destruct (lookup (username st)) as [e|d] eqn:Hl; cbn [username data loading error];
      rewrite Hname, Hl; reflexivity.
Qed.

(** X16. A lookup that fails after one that succeeded leaves the earlier
    receipt on the page beside the error message; the download is still
    named after the earlier handle, not after the name now in the box. *)
Theorem failed_lookup_keeps_previous_receipt (Stats : Type)
    (lookup : string -> Exn + Result Stats) (st : PageState Stats)
    (other : string) (d : Result Stats) (e : Exn)
    (Hname : username st <> "") (Hother : other <> "")
    (Hfirst : lookup (username st) = inr d)
    (Hsecond : lookup other = inl e) :
  let st1 := handleSubmit lookup st in
  let st2 := handleSubmit lookup (Home.setUsername st1 other) in
  st2 = mkPageState other (Some d) false "User not found"
  /\ handleDownload st2 = handleDownload st1
  /\ handleDownload st2 = Some (download_name (Some (GitHubUser.login (userData d)))).
Proof.
  cbv zeta. rewrite (handleSubmit_success lookup st Hname d Hfirst).
  unfold Home.setUsername. cbn [username data loading error].
  rewrite (handleSubmit_failure lookup (mkPageState other (Some d) false "")
             Hother e Hsecond).
  cbn [username data]. repeat split.
Qed.

Lemma failed_lookup_keeps_previous_receipt_witness :
  let lookup := fun name : string =>
    if String.eqb name "octocat"
    then @Part000.getGitHubStats utc_host Sample.user_ok Sample.repos_ok
    else @Part000.getGitHubStats utc_host Rejected Rejected in
  username (Sample.fresh (Stats := Part000.Stats) "octocat") <> ""
  /\ "nobody" <> ""
  /\ handleDownload
       (handleSubmit lookup
          (Home.setUsername (handleSubmit lookup (Sample.fresh "octocat")) "nobody"))
     = Some "github-receipt-octocat.png".
Proof.
  cbv zeta.
  assert (Hname : username (Sample.fresh (Stats := Part000.Stats) "octocat") <> "")
    by (simpl; discriminate).
  assert (Hother : "nobody" <> "") by discriminate.
  split; [exact Hname|]. split; [exact Hother|].
  exact (proj2 (proj2 (failed_lookup_keeps_previous_receipt Part000.Stats
                         (fun name : string =>
                            if String.eqb name "octocat"
                            then @Part000.getGitHubStats utc_host Sample.user_ok Sample.repos_ok
                            else @Part000.getGitHubStats utc_host Rejected Rejected)
                         (Sample.fresh "octocat") "nobody"
                         (@Part000.aggregate utc_host Sample.octocat Sample.repos)
                         FetchRejected Hname Hother eq_refl eq_refl))).
Defined.

(** ** Exporting and sharing *)

Section ExportFacts.

Lemma append_length (a b : string) :
  String.length (a ++ b) = (String.length a + String.length b)%nat.
Proof. induction a as [|c a IH]; simpl; [reflexivity|]. rewrite IH. reflexivity. Qed.

Lemma append_cancel_r (a b s : string) : a ++ s = b ++ s -> a = b.
Proof.
  revert b. induction a as [|c a IH]; intros [|c' b] Heq.
  - reflexivity.
  - apply (f_equal String.length) in Heq. simpl in Heq.
    rewrite append_length in Heq. lia.
  - apply (f_equal String.length) in Heq. simpl in Heq.
    rewrite append_length in Heq. lia.
  - simpl in Heq. injection Heq as -> Heq. f_equal. apply IH. exact Heq.
Qed.

End ExportFacts.

(** X17. The name of the download tells the handles apart: two results
    with different non-empty handles never get the same file name. *)
Theorem download_names_differ (l l' : string)
    (Hl : l <> "") (Hl' : l' <> "")
    (Hsame : download_name (Some l) = download_name (Some l')) :
  l = l'.
Proof.
  rewrite !download_name_login in Hsame by assumption.
  simpl in Hsame. injection Hsame as Hsame.
  apply append_cancel_r in Hsame. exact Hsame.
Qed.

Lemma download_names_differ_witness :
  "octocat" <> ""
  /\ download_name (Some "octocat") = download_name (Some "octocat")
  /\ "octocat" = "octocat".
Proof.
  assert (Hl : "octocat" <> "") by discriminate.
  split; [exact Hl|]. split; [reflexivity|].
  exact (download_names_differ "octocat" "octocat" Hl Hl eq_refl).
Defined.

(** X18. Both handlers do nothing at all exactly when no receipt is shown;
    with a receipt on the page each of them always does something, be it
    only the report of a failure. *)
Theorem handlers_need_a_receipt (Stats : Type) (b : Home.Browser) (st : PageState Stats) :
  (Home.handleShare b st = [] <-> data st = None)
  /\ (Home.handleDownload_effects b st = [] <-> data st = None)
  /\ (handleDownload st = None <-> data st = None).
Proof.
  unfold Home.handleShare, Home.handleDownload_effects, handleDownload, receiptRef_current.
  destruct (data st) as [d|]; cbn [negb].
  - repeat split; try discriminate.
    + destruct (Home.toPng b); [|discriminate].
      destruct (Home.fetch_blob b); cbn [negb]; [|discriminate].
      destruct (Home.navigator_share b); [discriminate|].
      destruct (Home.toPng_quality b); discriminate.
    + destruct (Home.toPng_quality b); discriminate.
  - repeat split; reflexivity.
Qed.

(** X19. [handleShare] ends in a download only as the fallback: the export
    and the blob succeeded, the browser has no [navigator.share], and the
    second export succeeded; the file then carries the name [handleDownload]
    gives it. It never both shares and downloads. *)
Theorem share_downloads_only_as_fallback (Stats : Type)
    (b : Home.Browser) (st : PageState Stats) (name href : string) :
  (In (Home.LinkClick name href) (Home.handleShare b st)
   <-> (exists dataUrl, Home.toPng b = Some dataUrl)
       /\ Home.fetch_blob b = true
       /\ Home.navigator_share b = None
       /\ Home.toPng_quality b = Some href
       /\ handleDownload st = Some name)
  /\ (forall title text fileName fileType,
        In (Home.NavigatorShare title text fileName fileType) (Home.handleShare b st) ->
        ~ In (Home.LinkClick name href) (Home.handleShare b st)).
Proof.
  unfold Home.handleShare, Home.handleDownload_effects, handleDownload, receiptRef_current.
  destruct (data st) as [d|]; cbn [negb option_map].
  - destruct (Home.toPng b) as [url|].
    + destruct (Home.fetch_blob b); cbn [negb].
      * destruct (Home.navigator_share b) as [resolves|].
        -- split.
           ++ split.
              ** intros [Hx|Hx]; [discriminate Hx|].
                 destruct resolves; [destruct Hx|destruct Hx as [Hx|[]]; discriminate Hx].
              ** intros (_ & _ & Hx & _). discriminate Hx.
           ++ intros t x f ty _ [Hx|Hx]; [discriminate Hx|].
              destruct resolves; [destruct Hx|destruct Hx as [Hx|[]]; discriminate Hx].
        -- destruct (Home.toPng_quality b) as [url'|].
           ++ split.
              ** split.
                 --- intros [Hx|[]]. injection Hx as <- <-.
                     repeat split; eauto.
                 --- intros (_ & _ & _ & Hq & Hn). injection Hq as <-. injection Hn as <-.
                     left. reflexivity.
              ** intros t x f ty [Hx|[]]. discriminate Hx.
           ++ split.
              ** split.
                 --- intros [Hx|[]]. discriminate Hx.
                 --- intros (_ & _ & _ & Hq & _). discriminate Hq.
              ** intros t x f ty [Hx|[]]. discriminate Hx.
      * split.
        -- split.
           ++ intros [Hx|[]]. discriminate Hx.
           ++ intros (_ & Hx & _). discriminate Hx.
        -- intros t x f ty [Hx|[]]. discriminate Hx.
    + split.
      * split.
        -- intros [Hx|[]]. discriminate Hx.
        -- intros ([url Hx] & _). discriminate Hx.
      * intros t x f ty [Hx|[]]. discriminate Hx.
  - split.
    + split; [intros []|].
      intros (_ & _ & _ & _ & Hx). discriminate Hx.
    + intros t x f ty [].
Qed.

(** X20. What is handed to the share sheet is always the same title, the
    file name [github-receipt.png] without the handle, and a text that
    names the handle of the receipt on the page, with no stand-in when the
    handle is empty. *)
Theorem shared_content_is_fixed (Stats : Type)
    (b : Home.Browser) (st : PageState Stats) (title text fileName fileType : string)
    (Hshared : In (Home.NavigatorShare title text fileName fileType)
                  (Home.handleShare b st)) :
  title = "My GitHub Receipt"
  /\ fileName = "github-receipt.png"
  /\ fileType = "image/png"
  /\ exists d, data st = Some d
               /\ text = "Check out my GitHub stats for "
                         ++ GitHubUser.login (userData d) ++ "!".
Proof.
  revert Hshared.
  unfold Home.handleShare, Home.handleDownload_effects, Home.login_text, receiptRef_current.
  destruct (data st) as [d|]; cbn [negb]; [|intros []].
  destruct (Home.toPng b) as [url|]; [|intros [Hx|[]]; discriminate Hx].
  destruct (Home.fetch_blob b); cbn [negb]; [|intros [Hx|[]]; discriminate Hx].
  destruct (Home.navigator_share b) as [resolves|].
  - intros [Hx|Hx].
    + injection Hx as <- <- <- <-. repeat split. exists d. auto.
    + destruct resolves; [destruct Hx|destruct Hx as [Hx|[]]; discriminate Hx].
  - destruct (Home.toPng_quality b); intros [Hx|[]]; discriminate Hx.
Qed.

Lemma shared_content_is_fixed_witness :
  let st := handleSubmit
              (fun _ => @Part000.getGitHubStats utc_host Sample.user_ok Sample.repos_ok)
              (Sample.fresh "octocat") in
  let b := Home.mkBrowser (Some "data:image/png;base64,AAAA") None true (Some false) in
  Home.handleShare b st
  = [Home.NavigatorShare "My GitHub Receipt" "Check out my GitHub stats for octocat!"
       "github-receipt.png" "image/png";
     Home.ConsoleError "Error sharing:"]
  /\ "My GitHub Receipt" = "My GitHub Receipt".
Proof.
  cbv zeta. split; [reflexivity|].
  exact (proj1 (shared_content_is_fixed Part000.Stats
                  (Home.mkBrowser (Some "data:image/png;base64,AAAA") None true (Some false))
                  (handleSubmit
                     (fun _ => @Part000.getGitHubStats utc_host Sample.user_ok Sample.repos_ok)
                     (Sample.fresh "octocat"))
                  "My GitHub Receipt" "Check out my GitHub stats for octocat!"
                  "github-receipt.png" "image/png" (or_introl eq_refl))).
Defined.

(** ** Printed decorations *)

(** X21. For every draw of the three random numbers the fortune and the
    cashier are non-empty entries of their lists, and the coupon code has
    at most six characters, each a digit or a capital letter. *)
Theorem decorations_come_from_their_lists `{HostEnv}
    (now r1 r2 r3 : Z) (user : GitHubUser.t) (repos : list GitHubRepo.t)
    (H1 : JSRandom.valid r1) (H2 : JSRandom.valid r2) (H3 : JSRandom.valid r3) :
  let s := stats (Part001.aggregate now r1 r2 r3 user repos) in
  (exists fortune, Part001.randomFortune s = Some fortune
                   /\ In fortune Part001.FORTUNE_MESSAGES /\ fortune <> "")
  /\ (exists dev, Part001.cashier s = Some dev
                  /\ In dev Part001.FAMOUS_DEVS /\ dev <> "")
  /\ Spec.string_forall Spec.upper_alnum (Part001.couponCode s) = true
  /\ (String.length (Part001.couponCode s) <= 6)%nat.
Proof.
  exact (decorations_in_range now r1 r2 r3 user repos H1 H2 H3).
Qed.

Lemma decorations_come_from_their_lists_witness :
  JSRandom.valid 5146971002709138 /\ JSRandom.valid (2 ^ 52)
  /\ JSRandom.valid 8756999275442632
  /\ Part001.couponCode
       (stats (@Part001.aggregate utc_host Sample.now 5146971002709138 (2 ^ 52)
                 8756999275442632 Sample.octocat Sample.repos)) = "Z"
  /\ Spec.string_forall Spec.upper_alnum
       (Part001.couponCode
          (stats (@Part001.aggregate utc_host Sample.now 5146971002709138 (2 ^ 52)
                    8756999275442632 Sample.octocat Sample.repos))) = true.
Proof.
  assert (H1 : JSRandom.valid 5146971002709138)
    by (unfold JSRandom.valid; vm_compute; split; [discriminate|reflexivity]).
  assert (H2 : JSRandom.valid (2 ^ 52))
    by (unfold JSRandom.valid; vm_compute; split; [discriminate|reflexivity]).
  assert (H3 : JSRandom.valid 8756999275442632)
    by (unfold JSRandom.valid; vm_compute; split; [discriminate|reflexivity]).
  split; [exact H1|]. split; [exact H2|]. split; [exact H3|].
  split; [vm_compute; reflexivity|].
  exact (proj1 (proj2 (proj2 (@decorations_come_from_their_lists utc_host Sample.now
                                5146971002709138 (2 ^ 52) 8756999275442632
                                Sample.octocat Sample.repos H1 H2 H3)))).
Defined.

(** X22. In the current revision a successful lookup serves the receipt
    under one of the seven names of the list, whatever the draw. *)
Theorem server_name_is_a_famous_dev `{HostEnv}
    (userFetch : Settled (Response GitHubUser.t))
    (reposFetch : Settled (Response ReposJson))
    (commitsFetch : Settled (Response PageTsx.CommitsJson))
    (r : Z) (d : Result PageTsx.Stats)
    (Hr : JSRandom.valid r)
    (Hd : PageTsx.getGitHubStats userFetch reposFetch commitsFetch r = inr d) :
  exists dev, PageTsx.serverName (stats d) = Some dev
              /\ In dev PageTsx.FAMOUS_DEVS /\ dev <> "".
Proof.
  apply current_revision_success_shape in Hd.
  destruct Hd as (user & okr & repos & okc & tc & _ & _ & _ & ->).
  cbn [stats PageTsx.serverName].
  destruct (get_in_range PageTsx.FAMOUS_DEVS (JSRandom.floor_mul r 7)) as (x & Hx & Hin).
  { apply floor_mul_range; [exact Hr|reflexivity|vm_compute; discriminate]. }
  exists x. repeat split; auto.
  revert Hin. clear. unfold PageTsx.FAMOUS_DEVS.
  intros Hin Hx. subst x. simpl in Hin.
  repeat (destruct Hin as [Hin|Hin]; [discriminate Hin|]). exact Hin.
Qed.

Lemma server_name_is_a_famous_dev_witness :
  let d := mkResult Sample.octocat
             (PageTsx.mkStats 5 16 3 (Some "Sunday") (Some 42) (Some "Ken Thompson")) in
  JSRandom.valid (2 ^ 53 - 1)
  /\ @PageTsx.getGitHubStats utc_host Sample.user_ok Sample.repos_ok
       (Fulfilled (mkResponse true (Some (PageTsx.CommitsValue (Some 42))))) (2 ^ 53 - 1)
     = inr d
  /\ exists dev, PageTsx.serverName (stats d) = Some dev
                 /\ In dev PageTsx.FAMOUS_DEVS /\ dev <> "".
Proof.
  cbv zeta.
  assert (Hr : JSRandom.valid (2 ^ 53 - 1))
    by (unfold JSRandom.valid; vm_compute; split; [discriminate|reflexivity]).
  assert (Hd : @PageTsx.getGitHubStats utc_host Sample.user_ok Sample.repos_ok
                 (Fulfilled (mkResponse true (Some (PageTsx.CommitsValue (Some 42)))))
                 (2 ^ 53 - 1)
               = inr (mkResult Sample.octocat
                        (PageTsx.mkStats 5 16 3 (Some "Sunday") (Some 42)
                           (Some "Ken Thompson"))))
    by (vm_compute; reflexivity).
  split; [exact Hr|]. split; [exact Hd|].
  exact (@server_name_is_a_famous_dev utc_host _ _ _ _ _ Hr Hd).
Defined.

(** X23. The coupon code has at most six characters, and it can have
    fewer: six for the draw 1234567890123456 / 2^53, one for the draw
    8756999275442632 / 2^53, whose radix-36 form is [0.z], and none for the
    draw 0. *)
Theorem coupon_code_has_at_most_six_characters (r : Z) :
  (String.length (Part001.makeCouponCode r) <= 6)%nat
  /\ Part001.makeCouponCode 1234567890123456 = "4XMVUE"
  /\ JSRandom.toString36 8756999275442632 = "0.z"
  /\ Part001.makeCouponCode 8756999275442632 = "Z"
  /\ Part001.makeCouponCode 0 = "".
Proof.
  split; [apply couponCode_length|].
  repeat split; vm_compute; reflexivity.
Qed.

Section OrderNumber.

Let order_ok (k : nat) : bool :=
  let s := Home.padStart 4 "0" (Home.String_of (Z.of_nat k)) in
  Nat.eqb (String.length s) 4
  && Spec.string_forall Props.is_digit s
  && match ISO.number 0 (list_ascii_of_string s) with
     | Some v => v =? Z.of_nat k
     | None => false
     end
  && negb (String.eqb s "9999").

Lemma order_numbers_checked : forallb order_ok (seq 0 (Z.to_nat 9999)) = true.
Proof. vm_compute. reflexivity. Qed.

Lemma order_number_ok (n : Z) :
  0 <= n < 9999 ->
  let s := Home.padStart 4 "0" (Home.String_of n) in
  String.length s = 4%nat
  /\ Spec.string_forall Props.is_digit s = true
  /\ ISO.number 0 (list_ascii_of_string s) = Some n
  /\ s <> "9999".
Proof.
  intros Hn. cbv zeta.
  pose proof order_numbers_checked as Hall. rewrite forallb_forall in Hall.
  specialize (Hall (Z.to_nat n)).
  assert (Hin : In (Z.to_nat n) (seq 0 (Z.to_nat 9999))) by (apply in_seq; lia).
  specialize (Hall Hin). unfold order_ok in Hall. cbv zeta in Hall.
  rewrite Z2Nat.id in Hall by lia.
  apply andb_true_iff in Hall. destruct Hall as [Hall Hne].
  apply andb_true_iff in Hall. destruct Hall as [Hall Hnum].
  apply andb_true_iff in Hall. destruct Hall as [Hlen Hdig].
  split; [apply Nat.eqb_eq; exact Hlen|]. split; [exact Hdig|]. split.
  - destruct (ISO.number 0 _) as [v|]; [|discriminate].
    f_equal. apply Z.eqb_eq. exact Hnum.
  - intros Heq. rewrite Heq in Hne. discriminate.
Qed.

End OrderNumber.

(** X24. The order number is always four decimal digits: the draw scaled
    to 0..9998, padded with zeros on the left. It reads back as that
    number, and 9999 is never printed. *)
Theorem order_number_has_four_digits (r : Z) (Hr : JSRandom.valid r) :
  String.length (Home.orderNumber r) = 4%nat
  /\ Spec.string_forall Props.is_digit (Home.orderNumber r) = true
  /\ ISO.number 0 (list_ascii_of_string (Home.orderNumber r))
     = Some (JSRandom.floor_mul r 9999)
  /\ Home.orderNumber r <> "9999".
Proof.
  unfold Home.orderNumber. apply order_number_ok.
  apply floor_mul_range; [exact Hr|reflexivity|vm_compute; discriminate].
Qed.

Lemma order_number_has_four_digits_witness :
  JSRandom.valid 6027319753322530
  /\ Home.orderNumber 6027319753322530 = "6691"
  /\ Home.orderNumber (2 ^ 46) = "0078"
  /\ String.length (Home.orderNumber 6027319753322530) = 4%nat.
Proof.
  assert (Hr : JSRandom.valid 6027319753322530)
    by (unfold JSRandom.valid; vm_compute; split; [discriminate|reflexivity]).
  split; [exact Hr|]. split; [vm_compute; reflexivity|]. split; [vm_compute; reflexivity|].
  exact (proj1 (order_number_has_four_digits 6027319753322530 Hr)).
Defined.

(** ** The date of the commit search *)

Section DateFilter.

Lemma digit_char_digit (d : Z) :
  0 <= d <= 9 ->
  ISO.digit (CommitSearch.digit_char d) = Some d
  /\ Ascii.eqb (CommitSearch.digit_char d) "T" = false.
Proof.
  intros Hd.
  assert (Hc : d = 0 \/ d = 1 \/ d = 2 \/ d = 3 \/ d = 4 \/ d = 5 \/ d = 6
               \/ d = 7 \/ d = 8 \/ d = 9) by lia.
  destruct Hc as [->|[->|[->|[->|[->|[->|[->|[->|[->| ->]]]]]]]]]; split; reflexivity.
Qed.

Lemma DateFromTime_le_DaysInMonth (t : Z) :
  JSDate.DateFromTime t
  <= ISO.DaysInMonth (JSDate.YearFromTime t) (JSDate.MonthFromTime t).
Proof.
  unfold JSDate.DateFromTime, ISO.DaysInMonth, JSDate.MonthFromTime.
  pose proof (DayWithinYear_range t) as Hd.
  fold (JSDate.InLeapYear t).
  assert (Hl : JSDate.InLeapYear t = 0 \/ JSDate.InLeapYear t = 1).
  { unfold JSDate.InLeapYear, JSDate.LeapDays. destruct (_ =? _); auto. }
  revert Hd. generalize (JSDate.DayWithinYear t). intros d Hd.
  unfold JSDate.MonthFromDay.
  repeat match goal with
         | |- context [if ?a <? ?b then _ else _] => destruct (Z.ltb_spec a b)
         end; simpl; destruct Hl as [Hl|Hl]; rewrite Hl in *; simpl; lia.
Qed.

Lemma parse_date_of_fields (y m d : Z) :
  0 <= y <= 9999 -> 0 <= m <= 99 -> 0 <= d <= 99 ->
  CommitSearch.parse_date
    (CommitSearch.pad4 y ++ "-" ++ CommitSearch.pad2 m ++ "-" ++ CommitSearch.pad2 d)
  = ISO.fields y m d 0 0 0.
Proof.
  intros Hy Hm Hd.
  unfold CommitSearch.parse_date, CommitSearch.pad4, CommitSearch.pad3, CommitSearch.pad2.
  cbn [append list_ascii_of_string ISO.number].
  rewrite !(fun x Hx => proj1 (digit_char_digit x Hx))
    by (Z.div_mod_to_equations; lia).
  replace (10 * (10 * (10 * (10 * 0 + y / 1000) + y mod 1000 / 100)
                 + y mod 1000 mod 100 / 10) + y mod 1000 mod 100 mod 10)
    with y by (Z.div_mod_to_equations; lia).
  replace (10 * (10 * 0 + m / 10) + m mod 10) with m by (Z.div_mod_to_equations; lia).
  replace (10 * (10 * 0 + d / 10) + d mod 10) with d by (Z.div_mod_to_equations; lia).
  reflexivity.
Qed.

Lemma split_head_date (y m d : Z) (rest : string) :
  0 <= y <= 9999 -> 0 <= m <= 99 -> 0 <= d <= 99 ->
  CommitSearch.split_head "T"
    (CommitSearch.pad4 y ++ "-" ++ CommitSearch.pad2 m ++ "-" ++ CommitSearch.pad2 d
     ++ "T" ++ rest)
  = CommitSearch.pad4 y ++ "-" ++ CommitSearch.pad2 m ++ "-" ++ CommitSearch.pad2 d.
Proof.
  intros Hy Hm Hd.
  unfold CommitSearch.pad4, CommitSearch.pad3, CommitSearch.pad2.
  cbn [append CommitSearch.split_head].
  rewrite !(fun x Hx => proj2 (digit_char_digit x Hx))
    by (Z.div_mod_to_equations; lia).
  reflexivity.
Qed.

End DateFilter.

(** Printing the date of a time value and reading it back gives the
    start of its day. *)
Lemma iso_date_round_trip (t : Z) :
  0 <= JSDate.YearFromTime t <= 9999 ->
  String.length (CommitSearch.split_head "T" (CommitSearch.toISOString t)) = 10%nat
  /\ CommitSearch.parse_date (CommitSearch.split_head "T" (CommitSearch.toISOString t))
     = Some (JSDate.Day t * JSDate.msPerDay).
Proof.
  intros Hyear.
  pose proof (MonthFromDay_range (JSDate.DayWithinYear t) (JSDate.InLeapYear t)) as Hm.
  fold (JSDate.MonthFromTime t) in Hm.
  pose proof (DateFromTime_range t) as Hd.
  pose proof (DateFromTime_le_DaysInMonth t) as Hdm.
  unfold CommitSearch.toISOString, CommitSearch.year_text.
  destruct (Z.leb_spec 0 (JSDate.YearFromTime t)); [|lia].
  destruct (Z.leb_spec (JSDate.YearFromTime t) 9999); [|lia].
  cbn [andb].
  rewrite split_head_date by lia.
  split; [reflexivity|].
  rewrite parse_date_of_fields by lia.
  unfold ISO.fields.
  replace (JSDate.MonthFromTime t + 1 - 1) with (JSDate.MonthFromTime t) by lia.
  destruct (Z.leb_spec 1 (JSDate.MonthFromTime t + 1)); [|lia].
  destruct (Z.leb_spec (JSDate.MonthFromTime t + 1) 12); [|lia].
  destruct (Z.leb_spec 1 (JSDate.DateFromTime t)); [|lia].
  destruct (Z.leb_spec (JSDate.DateFromTime t)
              (ISO.DaysInMonth (JSDate.YearFromTime t) (JSDate.MonthFromTime t))); [|lia].
  cbn [andb Z.leb Z.compare].
  pose proof (MakeDay_of_fields t 0) as Hmk. rewrite Z.add_0_r in Hmk.
  rewrite Hmk. unfold JSDate.MakeDate, JSDate.MakeTime. f_equal. lia.
Qed.



Lemma dateFilter_unfold `{HostEnv} (now : Z) :
  CommitSearch.dateFilter now
  = CommitSearch.split_head "T" (CommitSearch.toISOString (Aggregate.thirtyDaysAgo now)).
Proof.
  unfold CommitSearch.dateFilter, Aggregate.thirtyDaysAgo. reflexivity.
Qed.

(** X25. For a date in the years 0 to 9999, the date filter of the commit
    search is the ten-character UTC date of the instant thirty days ago:
    read back as a date it is the midnight that begins the day the instant
    falls in, so the search window starts at most a day before it. *)
Theorem date_filter_is_the_utc_day `{HostEnv} (now : Z)
    (Hyear : 0 <= JSDate.YearFromTime (Aggregate.thirtyDaysAgo now) <= 9999) :
  let t := Aggregate.thirtyDaysAgo now in
  String.length (CommitSearch.dateFilter now) = 10%nat
  /\ CommitSearch.parse_date (CommitSearch.dateFilter now)
     = Some (JSDate.Day t * JSDate.msPerDay)
  /\ JSDate.Day t * JSDate.msPerDay <= t < JSDate.Day t * JSDate.msPerDay + JSDate.msPerDay.
Proof.
  cbv zeta. rewrite dateFilter_unfold.
  destruct (iso_date_round_trip (Aggregate.thirtyDaysAgo now) Hyear) as [Hlen Hparse].
  split; [exact Hlen|]. split; [exact Hparse|].
  generalize (Aggregate.thirtyDaysAgo now). intros t.
  unfold JSDate.Day, JSDate.msPerDay. Z.div_mod_to_equations. lia.
Qed.

Lemma date_filter_is_the_utc_day_witness :
  0 <= JSDate.YearFromTime (@Aggregate.thirtyDaysAgo utc_host Sample.now) <= 9999
  /\ @CommitSearch.dateFilter utc_host Sample.now = "2024-02-01"
  /\ CommitSearch.parse_date (@CommitSearch.dateFilter utc_host Sample.now)
     = Some (JSDate.Day (@Aggregate.thirtyDaysAgo utc_host Sample.now) * JSDate.msPerDay).
Proof.
  assert (Hyear : 0 <= JSDate.YearFromTime (@Aggregate.thirtyDaysAgo utc_host Sample.now)
                  <= 9999) by (vm_compute; split; discriminate).
  split; [exact Hyear|]. split; [vm_compute; reflexivity|].
  exact (proj1 (proj2 (@date_filter_is_the_utc_day utc_host Sample.now Hyear))).
Defined.
